(** * OPGG.py: the cache-backed summoner resolution of [OPGG.search]

    A shallow embedding of [src/opgg/opgg.py] ([OPGG.search] and
    [OPGG.get_summoner]), [src/opgg/utils.py]
    ([get_page_props], [get_all_seasons], [get_season_by],
    [get_all_champions], [get_champion_by]) and [src/opgg/champion.py] (the
    constructors of [Passive], [Spell], [Price], [Skin], [Champion] and
    [ChampionStats], and [Champion.get_cost_in]).

    Python values that come out of [json.loads] are the inductive [pyval];
    exceptions are the inductive [exn]; the code that touches the cache
    database, the network or the fields of the [OPGG] object runs in a
    state-and-exception monad over [world], which also keeps the
    chronological list of the cache and network calls made so far. *)

From Stdlib Require Import ZArith QArith String Ascii List Bool Lia.
From stdpp Require Import base option list gmap strings.

Import ListNotations.
Set Warnings "-register-all".
Local Close Scope Q_scope.
Local Open Scope Z_scope.
Local Open Scope string_scope.
Local Open Scope list_scope.

(** ** Python values *)

(** What [json.loads] builds: [None], booleans, integers, floats (a finite
    float is the rational it denotes; [NaN] and the infinities are left
    out), strings, lists and dicts with string keys.  A dict keeps its
    insertion order, so it is an association list; [json.loads] never
    builds one with a repeated key.  A character is an [ascii]. *)
Inductive pyval : Type :=
| PNone
| PBool (b : bool)
| PInt (n : Z)
| PFloat (q : Q)
| PStr (s : string)
| PList (l : list pyval)
| PDict (d : list (string * pyval)).

(** The exceptions the embedded code can raise.  [OPGG.search] raises the
    plain [Exception] three times, told apart by their message; they carry
    here the names of the error taxonomy:
    - [MalformedQueryError]: opgg.py:438, 'No regional identifier was found
      for query ...';
    - [AmbiguousResultError]: opgg.py:503, 'Multiple search results were
      returned for ...';
    - [NoResultsError]: opgg.py:525, 'No summoner(s) matching ... were
      found...'. *)
Inductive exn : Type :=
| MalformedQueryError (query : string)
| AmbiguousResultError (query : string)
| NoResultsError (queries : list string)
| TypeError
| KeyError
| AttributeError
| ValueError
| IndexError
| HTTPError
| SystemExit
| OtherError (what : string).

Inductive result (A : Type) : Type :=
| Ok (a : A)
| Raise (e : exn).
Arguments Ok {A} a.
Arguments Raise {A} e.

Definition rbind {A B} (r : result A) (k : A -> result B) : result B :=
  match r with
  | Ok a => k a
  | Raise e => Raise e
  end.

(** ** Python's built-in operations on these values *)

(** [bool(v)], as [if v:] and [not v] test it. *)
Definition truthy (v : pyval) : bool :=
  match v with
  | PNone => false
  | PBool b => b
  | PInt n => negb (Z.eqb n 0)
  | PFloat q => negb (Qeq_bool q 0%Q)
  | PStr s => negb (String.eqb s "")
  | PList l => match l with [] => false | _ => true end
  | PDict d => match d with [] => false | _ => true end
  end.

Fixpoint dict_lookup (k : string) (d : list (string * pyval)) : option pyval :=
  match d with
  | [] => None
  | (k', v) :: d' => if String.eqb k k' then Some v else dict_lookup k d'
  end.

(** [v.get(k, default)]: only a dict has the method. *)
Definition py_get (v : pyval) (k : string) (default : pyval) : result pyval :=
  match v with
  | PDict d => Ok (match dict_lookup k d with Some x => x | None => default end)
  | _ => Raise AttributeError
  end.

(** [v[k]] for a string [k]. *)
Definition py_getitem (v : pyval) (k : string) : result pyval :=
  match v with
  | PDict d => match dict_lookup k d with Some x => Ok x | None => Raise KeyError end
  | _ => Raise TypeError
  end.

(** [v[0]]: a dict built by [json.loads] has no integer key. *)
Definition py_getitem0 (v : pyval) : result pyval :=
  match v with
  | PList l => match l with x :: _ => Ok x | [] => Raise IndexError end
  | PStr s => match s with
              | String c _ => Ok (PStr (String c ""))
              | EmptyString => Raise IndexError
              end
  | PDict _ => Raise KeyError
  | _ => Raise TypeError
  end.

(** [len(v)]. *)
Definition py_len (v : pyval) : result nat :=
  match v with
  | PList l => Ok (List.length l)
  | PDict d => Ok (List.length d)
  | PStr s => Ok (String.length s)
  | _ => Raise TypeError
  end.

Fixpoint chars (s : string) : list string :=
  match s with
  | EmptyString => []
  | String c s' => String c "" :: chars s'
  end.

(** [for x in v]: the elements of a list, the keys of a dict, the
    characters of a string. *)
Definition py_iter (v : pyval) : result (list pyval) :=
  match v with
  | PList l => Ok l
  | PDict d => Ok (map (fun kv => PStr (fst kv)) d)
  | PStr s => Ok (map PStr (chars s))
  | _ => Raise TypeError
  end.

(** [s == v] for a string [s]: only an equal string is equal to it. *)
Definition py_eq_str (s : string) (v : pyval) : bool :=
  match v with
  | PStr t => String.eqb s t
  | _ => false
  end.

(** [n == v] for an integer [n]: numbers compare by value, and [True] and
    [False] are the integers 1 and 0. *)
Definition py_eq_int (n : Z) (v : pyval) : bool :=
  match v with
  | PInt m => Z.eqb n m
  | PBool b => Z.eqb n (if b then 1 else 0)
  | PFloat q => Qeq_bool (inject_Z n) q
  | _ => false
  end.

(** Keys of a dict: the hashable values, compared as Python compares them
    ([1 == True == 1.0] is one key). *)
Definition hashable (v : pyval) : bool :=
  match v with
  | PList _ | PDict _ => false
  | _ => true
  end.

Definition as_number (v : pyval) : option Q :=
  match v with
  | PBool b => Some (inject_Z (if b then 1 else 0))
  | PInt n => Some (inject_Z n)
  | PFloat q => Some q
  | _ => None
  end.

Definition key_eq (a b : pyval) : bool :=
  match a, b with
  | PNone, PNone => true
  | PStr s, PStr t => String.eqb s t
  | _, _ => match as_number a, as_number b with
            | Some x, Some y => Qeq_bool x y
            | _, _ => false
            end
  end.

(** [a == b] on these values: numbers compare by value, lists item by
    item, dicts entry by entry whatever their order. *)
Fixpoint py_eq (a b : pyval) : bool :=
  match a, b with
  | PNone, PNone => true
  | PStr s, PStr t => String.eqb s t
  | PList l, PList m =>
      (fix items (l m : list pyval) : bool :=
         match l, m with
         | [], [] => true
         | x :: l', y :: m' => py_eq x y && items l' m'
         | _, _ => false
         end) l m
  | PDict d, PDict e =>
      Nat.eqb (List.length d) (List.length e)
      && (fix entries (d : list (string * pyval)) : bool :=
            match d with
            | [] => true
            | (k, v) :: d' =>
                match dict_lookup k e with
                | Some v' => py_eq v v'
                | None => false
                end && entries d'
            end) d
  | _, _ =>
      match as_number a, as_number b with
      | Some x, Some y => Qeq_bool x y
      | _, _ => false
      end
  end.

(** [d[k] = v] on an insertion-ordered dict: an old key keeps its place. *)
Fixpoint dict_set (k v : pyval) (d : list (pyval * pyval)) : list (pyval * pyval) :=
  match d with
  | [] => [(k, v)]
  | (k', v') :: d' => if key_eq k k' then (k', v) :: d' else (k', v') :: dict_set k v d'
  end.

(** One element of the sequence [dict(...)] is given: it must be iterable
    ([TypeError]) and have exactly two items ([ValueError]). *)
Definition as_item (e : pyval) : result (pyval * pyval) :=
  rbind (py_iter e) (fun xs =>
    match xs with
    | [k; v] => Ok (k, v)
    | _ => Raise ValueError
    end).

Fixpoint dict_of_items (es : list pyval) (acc : list (pyval * pyval))
  : result (list (pyval * pyval)) :=
  match es with
  | [] => Ok acc
  | e :: es' =>
      rbind (as_item e) (fun kv =>
        if hashable (fst kv) then dict_of_items es' (dict_set (fst kv) (snd kv) acc)
        else Raise TypeError)
  end.

(** [dict(v).values()]: a dict is copied; any other iterable must yield
    key-value pairs. *)
Definition py_dict_values (v : pyval) : result (list pyval) :=
  match v with
  | PDict d => Ok (map snd d)
  | _ => rbind (py_iter v) (fun es =>
           rbind (dict_of_items es []) (fun d => Ok (map snd d)))
  end.

(** ** Strings *)

Fixpoint has_char (c : ascii) (s : string) : bool :=
  match s with
  | EmptyString => false
  | String a s' => Ascii.eqb a c || has_char c s'
  end.

(** [s.split(c)] for a one-character separator. *)
Fixpoint split_on (c : ascii) (s : string) : list string :=
  match s with
  | EmptyString => [EmptyString]
  | String a s' =>
      if Ascii.eqb a c then EmptyString :: split_on c s'
      else match split_on c s' with
           | h :: t => String a h :: t
           | [] => [String a EmptyString]
           end
  end.

(** The characters [str.isspace] accepts, among the code points below 256. *)
Definition is_space (a : ascii) : bool :=
  let n := nat_of_ascii a in
  ((9 <=? n) && (n <=? 13) || (28 <=? n) && (n <=? 32)
   || Nat.eqb n 133 || Nat.eqb n 160)%nat.

Fixpoint lstrip (s : string) : string :=
  match s with
  | EmptyString => EmptyString
  | String a s' => if is_space a then lstrip s' else s
  end.

Fixpoint rstrip (s : string) : string :=
  match s with
  | EmptyString => EmptyString
  | String a s' =>
      match rstrip s' with
      | EmptyString => if is_space a then EmptyString else String a EmptyString
      | r => String a r
      end
  end.

(** [s.strip()]. *)
Definition strip (s : string) : string := rstrip (lstrip s).

(** [sep.join(l)]. *)
Definition join (sep : string) (l : list string) : string := String.concat sep l.

(** [sub in s] on strings. *)
Definition is_substring (sub s : string) : bool :=
  match String.index 0 sub s with
  | Some _ => true
  | None => false
  end.

(** [s in v] for a string [s]. *)
Definition py_str_in (s : string) (v : pyval) : result bool :=
  match v with
  | PStr t => Ok (is_substring s t)
  | PList l => Ok (existsb (py_eq_str s) l)
  | PDict d => Ok (existsb (fun kv => String.eqb s (fst kv)) d)
  | _ => Raise TypeError
  end.

(** ** Calls with keyword arguments *)

(** A signature lists the parameters after [self], each with whether it has
    a default.  A call that names its arguments binds iff every keyword is a
    parameter and every parameter without a default is given; otherwise
    Python raises [TypeError] before the body runs. *)
Definition signature := list (string * bool).

Definition accepts (sig : signature) (keywords : list string) : bool :=
  forallb (fun k => existsb (String.eqb k) (map fst sig)) keywords
  && forallb (fun p => snd p || existsb (String.eqb (fst p)) keywords) sig.

Definition call {A} (sig : signature) (keywords : list string) (built : A) : result A :=
  if accepts sig keywords then Ok built else Raise TypeError.

(** ** champion.py *)

Module Passive.
Record t := mk { name : pyval; description : pyval; image_url : pyval; video_url : pyval }.
Definition init : signature :=
  [("name", false); ("description", false); ("image_url", false); ("video_url", false)].
End Passive.

Module Spell.
Record t := mk {
  key : pyval; name : pyval; description : pyval; max_rank : pyval;
  range_burn : pyval; cooldown_burn : pyval; cost_burn : pyval;
  tooltip : pyval; image_url : pyval; video_url : pyval }.
Definition init : signature :=
  [("key", false); ("name", false); ("description", false); ("max_rank", false);
   ("range_burn", false); ("cooldown_burn", false); ("cost_burn", false);
   ("tooltip", false); ("image_url", false); ("video_url", false)].
End Spell.

Module Price.
Record t := mk { currency : pyval; cost : pyval }.
Definition init : signature := [("currency", false); ("cost", false)].
End Price.

Module Skin.
(** [prices] is a list of [Price], or [None] ([get_cost_in] tests for it). *)
Record t := mk {
  id : pyval; name : pyval; centered_image : pyval; skin_video_url : pyval;
  prices : option (list Price.t); sales : pyval }.
Definition init : signature :=
  [("id", false); ("name", false); ("centered_image", false);
   ("skin_video_url", false); ("prices", false); ("sales", true)].
End Skin.

Module Champion.
Record t := mk {
  id : pyval; key : pyval; name : pyval; image_url : pyval; evolve : pyval;
  passive : Passive.t; spells : list Spell.t; skins : list Skin.t }.
Definition init : signature :=
  [("id", false); ("key", false); ("name", false); ("image_url", false);
   ("evolve", false); ("passive", false); ("spells", false); ("skins", false)].
End Champion.

Module ChampionStats.
Record t := mk {
  id : pyval; play : pyval; win : pyval; lose : pyval; kill : pyval; death : pyval;
  assist : pyval; gold_earned : pyval; minion_kill : pyval; turret_kill : pyval;
  neutral_minion_kill : pyval; damage_dealt : pyval; damage_taken : pyval;
  physical_damage_dealt : pyval; magic_damage_dealt : pyval; most_kill : pyval;
  max_kill : pyval; max_death : pyval; double_kill : pyval; triple_kill : pyval;
  quadra_kill : pyval; penta_kill : pyval; game_length_second : pyval }.
Definition init : signature :=
  [("id", false); ("play", false); ("win", false); ("lose", false); ("kill", false);
   ("death", false); ("assist", false); ("gold_earned", false); ("minion_kill", false);
   ("turret_kill", false); ("neutral_minion_kill", false); ("damage_dealt", false);
   ("damage_taken", false); ("physical_damage_dealt", false);
   ("magic_damage_dealt", false); ("most_kill", false); ("max_kill", false);
   ("max_death", false); ("double_kill", false); ("triple_kill", false);
   ("quadra_kill", false); ("penta_kill", false); ("game_length_second", false)].
End ChampionStats.

(** [Champion.get_cost_in(metric)].  [upper] is [str.upper]; a return
    without a value, or the end of the body, gives [None]. *)
Section GetCostIn.
Variable upper : string -> string.

(** The inner loop: the cost of the first price in the currency. *)
Fixpoint first_cost (metric : string) (prices : list Price.t) : option pyval :=
  match prices with
  | [] => None
  | price :: rest =>
      if py_eq_str metric (Price.currency price) then Some (Price.cost price)
      else first_cost metric rest
  end.

(** The loop over the skins: a skin whose prices are [None] ends it. *)
Fixpoint skins_cost (metric : string) (skins : list Skin.t) : pyval :=
  match skins with
  | [] => PNone
  | skin :: rest =>
      match Skin.prices skin with
      | Some prices =>
          match first_cost metric prices with
          | Some cost => cost
          | None => skins_cost metric rest
          end
      | None => PNone
      end
  end.

Definition get_cost_in (self : Champion.t) (metric : string) : pyval :=
  let metric := if String.eqb metric "BE" then "IP" else upper metric in
  skins_cost metric (Champion.skins self).

End GetCostIn.

(** ** The modules that are not among the sources

    [season.py], [summoner.py], [params.py] and [cacher.py] are imported by
    the embedded code but are not part of the sources at hand.  Their data
    is declared here as the embedded code uses it. *)

Module SeasonInfo.
(** The five keyword arguments [get_all_seasons] builds a [SeasonInfo] from. *)
Record t := mk {
  id : pyval; value : pyval; display_value : pyval; split : pyval;
  is_preseason : pyval }.
End SeasonInfo.

Module Summoner.
(** [OPGG.search] reads [summoner.name] and [summoner.summoner_id] only. *)
Record t := mk { name : string; summoner_id : string }.
End Summoner.

(** The members of the enumeration [By] that utils.py mentions. *)
Inductive By : Type := ID | KEY | NAME | COST | BLUE_ESSENCE.

Definition By_eqb (a b : By) : bool :=
  match a, b with
  | ID, ID | KEY, KEY | NAME, NAME | COST, COST | BLUE_ESSENCE, BLUE_ESSENCE => true
  | _, _ => false
  end.

(** A region is the string the URLs are formatted with. *)
Definition Region := string.

Module Cacher.

(** The persistent store: the summoner-name to identifier table and the two
    catalogs, each record with the time it was cached at.  An empty list is
    a catalog that is not there. *)
Record Store := mkStore {
  summoner_ids : gmap string (string * nat);
  champions : list Champion.t;
  champions_cached_at : nat;
  seasons : list SeasonInfo.t;
  seasons_cached_at : nat }.

Definition empty : Store := mkStore ∅ [] 0 [] 0.

(** Modelled from the spec: [Cacher.get_summoner_id] of cacher.py, the
    spec's [resolve_summoner_id]: an exact-match lookup of the full name
    string, [None] on a miss. *)
Definition get_summoner_id (name : string) (st : Store) : option string :=
  fst <$> summoner_ids st !! name.

(** Modelled from the spec: [Cacher.insert_summoner] of cacher.py, the
    spec's [record_summoner_id]: an idempotent upsert.  Writing the pair
    that is already there has no additional effect; a different identifier
    for a known name overwrites the entry. *)
Definition insert_summoner (name id : string) (now : nat) (st : Store) : Store :=
  match summoner_ids st !! name with
  | Some (id', _) =>
      if String.eqb id' id then st
      else mkStore (<[name := (id, now)]> (summoner_ids st))
             (champions st) (champions_cached_at st) (seasons st) (seasons_cached_at st)
  | None =>
      mkStore (<[name := (id, now)]> (summoner_ids st))
        (champions st) (champions_cached_at st) (seasons st) (seasons_cached_at st)
  end.

(** Modelled from the spec: [Cacher.get_all_champs] of cacher.py, the spec's
    [get_champion_catalog]: the cached catalog if present and non-empty,
    else [None]. *)
Definition get_all_champs (st : Store) : option (list Champion.t) :=
  match champions st with
  | [] => None
  | l => Some l
  end.

(** Modelled from the spec: [Cacher.insert_all_champs] of cacher.py, the
    spec's [set_champion_catalog]: a wholesale replace; empty input is a
    no-op. *)
Definition insert_all_champs (items : list Champion.t) (now : nat) (st : Store) : Store :=
  match items with
  | [] => st
  | _ => mkStore (summoner_ids st) items now (seasons st) (seasons_cached_at st)
  end.

(** Modelled from the spec: [Cacher.get_all_seasons] of cacher.py, the
    spec's [get_season_catalog]. *)
Definition get_all_seasons (st : Store) : option (list SeasonInfo.t) :=
  match seasons st with
  | [] => None
  | l => Some l
  end.

(** Modelled from the spec: [Cacher.insert_all_seasons] of cacher.py, the
    spec's [set_season_catalog]. *)
Definition insert_all_seasons (items : list SeasonInfo.t) (now : nat) (st : Store) : Store :=
  match items with
  | [] => st
  | _ => mkStore (summoner_ids st) (champions st) (champions_cached_at st) items now
  end.

End Cacher.

(** ** The world the code runs in *)

(** The first argument of [get_page_props]: a string or a list of names. *)
Inductive names_arg : Type :=
| NamesStr (s : string)
| NamesList (l : list string).

(** The calls that leave the process: to the cache database and to the
    network. *)
Inductive event : Type :=
| CacheGetSummonerId (name : string)
| CacheGetAllSeasons
| CacheGetAllChamps
| CacheInsertAllSeasons (items : list SeasonInfo.t)
| CacheInsertAllChamps (items : list Champion.t)
| CacheInsertSummoner (name id : string)
| NetPageProps (names : names_arg) (region : Region)
| NetMetaChampions
| NetSummoner (region : Region) (summoner_id : pyval).

Definition is_cache_access (e : event) : bool :=
  match e with
  | NetPageProps _ _ | NetMetaChampions | NetSummoner _ _ => false
  | _ => true
  end.

Definition is_cache_write (e : event) : bool :=
  match e with
  | CacheInsertAllSeasons _ | CacheInsertAllChamps _ | CacheInsertSummoner _ _ => true
  | _ => false
  end.

Definition is_network (e : event) : bool := negb (is_cache_access e).

(** The fields of the [OPGG] object that [search] reads and writes. *)
Record OPGG := mkOPGG {
  _summoner_id : pyval;
  _region : Region;
  _all_champions : option (list Champion.t);
  _all_seasons : option (list SeasonInfo.t) }.

Record world := mkWorld {
  self : OPGG;
  db : Cacher.Store;
  clock : nat;
  trace : list event }.

(** What the multisearch page gives [get_page_props]: the decoded
    [props.pageProps], a [JSONDecodeError], or another exception. *)
Inductive page_response : Type :=
| PageProps (v : pyval)
| PageJSONDecodeError
| PageRaises (e : exn).

(** What the champion meta endpoint gives [get_all_champions]: the decoded
    body, a [JSONDecodeError], or another exception. *)
Inductive meta_response : Type :=
| MetaBody (v : pyval)
| MetaJSONDecodeError
| MetaRaises (e : exn).

(** How [OPGG.get_summoner] ends: with the [Summoner] it built, with the
    falsy [content] it returns as it is when the API has no data, or with
    an exception ([raise_for_status], [sys.exit]). *)
Inductive summoner_response : Type :=
| Built (s : Summoner.t)
| Content (c : pyval)
| Raises (e : exn).

(** The collaborators outside the process and the library functions whose
    definition is not in the sources.  Each network answer may depend on
    the calls made so far. *)
Class Collaborators := {
  Region_NA : Region;
  multisearch : list event -> Region -> string -> page_response;
  meta_champions : list event -> meta_response;
  summary_api : list event -> Region -> pyval -> summoner_response;
  fromisoformat_ok : string -> bool;
  int_of_str : string -> option Z }.

(** ** The monad *)

Definition M (A : Type) : Type := world -> result A * world.

Definition ret {A} (a : A) : M A := fun w => (Ok a, w).
Definition raise {A} (e : exn) : M A := fun w => (Raise e, w).
Definition bind {A B} (m : M A) (k : A -> M B) : M B :=
  fun w => match m w with
           | (Ok a, w') => k a w'
           | (Raise e, w') => (Raise e, w')
           end.
Definition lift {A} (r : result A) : M A := fun w => (r, w).

Declare Scope py_scope.
Delimit Scope py_scope with py.
Notation "x <- m ;; k" := (bind m (fun x => k))
  (at level 100, m at next level, right associativity) : py_scope.
Notation "m ;; k" := (bind m (fun _ => k))
  (at level 100, right associativity) : py_scope.
Local Open Scope py_scope.

Definition log (e : event) (w : world) : world :=
  mkWorld (self w) (db w) (clock w) (trace w ++ [e]).

(** [self.summoner_id = v]. *)
Definition with_summoner_id (v : pyval) (w : world) : world :=
  mkWorld (mkOPGG v (_region (self w)) (_all_champions (self w)) (_all_seasons (self w)))
    (db w) (clock w) (trace w).

Definition set_summoner_id (v : pyval) : M unit := fun w => (Ok tt, with_summoner_id v w).

Definition set_region (r : Region) : M unit := fun w =>
  (Ok tt, mkWorld (mkOPGG (_summoner_id (self w)) r (_all_champions (self w))
                     (_all_seasons (self w)))
            (db w) (clock w) (trace w)).

Definition set_all_champions (l : list Champion.t) : M unit := fun w =>
  (Ok tt, mkWorld (mkOPGG (_summoner_id (self w)) (_region (self w)) (Some l)
                     (_all_seasons (self w)))
            (db w) (clock w) (trace w)).

Definition set_all_seasons (l : list SeasonInfo.t) : M unit := fun w =>
  (Ok tt, mkWorld (mkOPGG (_summoner_id (self w)) (_region (self w))
                     (_all_champions (self w)) (Some l))
            (db w) (clock w) (trace w)).

(** The calls to the cacher: each is logged; a write is stamped with the
    clock, which then advances. *)
Definition cacher_get_summoner_id (name : string) : M (option string) := fun w =>
  (Ok (Cacher.get_summoner_id name (db w)), log (CacheGetSummonerId name) w).

Definition cacher_get_all_seasons : M (option (list SeasonInfo.t)) := fun w =>
  (Ok (Cacher.get_all_seasons (db w)), log CacheGetAllSeasons w).

Definition cacher_get_all_champs : M (option (list Champion.t)) := fun w =>
  (Ok (Cacher.get_all_champs (db w)), log CacheGetAllChamps w).

Definition cacher_insert_all_seasons (items : list SeasonInfo.t) : M unit := fun w =>
  (Ok tt, mkWorld (self w) (Cacher.insert_all_seasons items (clock w) (db w))
            (S (clock w)) (trace w ++ [CacheInsertAllSeasons items])).

Definition cacher_insert_all_champs (items : list Champion.t) : M unit := fun w =>
  (Ok tt, mkWorld (self w) (Cacher.insert_all_champs items (clock w) (db w))
            (S (clock w)) (trace w ++ [CacheInsertAllChamps items])).

Definition cacher_insert_summoner (name id : string) : M unit := fun w =>
  (Ok tt, mkWorld (self w) (Cacher.insert_summoner name id (clock w) (db w))
            (S (clock w)) (trace w ++ [CacheInsertSummoner name id])).

(** [if cached:] on what a cacher getter returned. *)
Definition truthy_id (o : option string) : bool :=
  match o with
  | Some id => negb (String.eqb id "")
  | None => false
  end.

Definition truthy_list {A} (o : option (list A)) : bool :=
  match o with
  | Some (_ :: _) => true
  | _ => false
  end.

(** What [get_season_by] and [get_champion_by] return: the list, or the
    object itself. *)
Inductive one_or_list (A : Type) : Type :=
| TheObject (a : A)
| TheList (l : list A).
Arguments TheObject {A} a.
Arguments TheList {A} l.

(** [return result_set if len(result_set) > 1 else result_set[0]]. *)
Definition return_shape {A} (result_set : list A) : result (one_or_list A) :=
  if (1 <? List.length result_set)%nat then Ok (TheList result_set)
  else match result_set with
       | x :: _ => Ok (TheObject x)
       | [] => Raise IndexError
       end.

(** The [value] argument: [int | str | list]. *)
Inductive scalar : Type :=
| SInt (n : Z)
| SStr (s : string).

Inductive query : Type :=
| One (v : scalar)
| Many (l : list scalar).

(** [v == x] for a scalar [x] of the query. *)
Definition py_eq_scalar (x : scalar) (v : pyval) : bool :=
  match x with
  | SInt n => py_eq_int n v
  | SStr s => py_eq_str s v
  end.

Section Code.
Context `{Collaborators}.

(** ** utils.py *)

(** The [summoners=] part of the multisearch URL: a non-empty list is
    joined with commas, anything else is formatted as it is. *)
Definition query_of (names : names_arg) : string :=
  match names with
  | NamesStr s => s
  | NamesList [] => "[]"
  | NamesList l => join "," l
  end.

(** [get_page_props(summoner_names, region)]: a [JSONDecodeError] gives the
    empty dict, any other exception propagates. *)
Definition get_page_props (names : names_arg) (region : Region) : M pyval :=
  fun w =>
    match multisearch (trace w) region (query_of names) with
    | PageProps v => (Ok v, log (NetPageProps names region) w)
    | PageJSONDecodeError => (Ok (PDict []), log (NetPageProps names region) w)
    | PageRaises e => (Raise e, log (NetPageProps names region) w)
    end.

Definition build_season (season : pyval) : result SeasonInfo.t :=
  rbind (py_get season "id" PNone) (fun id =>
  rbind (py_get season "value" PNone) (fun value =>
  rbind (py_get season "display_value" PNone) (fun display_value =>
  rbind (py_get season "split" PNone) (fun split =>
  rbind (py_get season "is_preseason" PNone) (fun is_preseason =>
  Ok (SeasonInfo.mk id value display_value split is_preseason)))))).

(** The loop of [get_all_seasons] over the values of [seasonsById]. *)
Fixpoint seasons_of (raw : list pyval) (seasons : list SeasonInfo.t)
  : result (list SeasonInfo.t) :=
  match raw with
  | [] => Ok seasons
  | season :: rest =>
      if truthy season
      then rbind (build_season season) (fun s => seasons_of rest (seasons ++ [s]))
      else seasons_of rest seasons
  end.

(** [get_all_seasons(page_props)]; [PNone] is the default argument. *)
Definition get_all_seasons (page_props : pyval) : M (list SeasonInfo.t) :=
  cached_seasons <- cacher_get_all_seasons ;;
  if truthy_list cached_seasons
  then ret (match cached_seasons with Some l => l | None => [] end)
  else
    page_props <- (match page_props with
                   | PNone => get_page_props (NamesStr "ColbyFaulkn1") Region_NA
                   | _ => ret page_props
                   end) ;;
    lift (rbind (py_getitem page_props "seasonsById") (fun by_id =>
          rbind (py_dict_values by_id) (fun raw => seasons_of raw []))).

(** [datetime.fromisoformat(v)]: its value is only passed on to [Skin]. *)
Definition fromisoformat (v : pyval) : result unit :=
  match v with
  | PStr s => if fromisoformat_ok s then Ok tt else Raise ValueError
  | _ => Raise TypeError
  end.

Fixpoint map_result {A B} (f : A -> result B) (l : list A) : result (list B) :=
  match l with
  | [] => Ok []
  | x :: l' => rbind (f x) (fun y => rbind (map_result f l') (fun ys => Ok (y :: ys)))
  end.

(** [Price(currency=..., cost=...)] of utils.py:217-222. *)
Definition build_price (price : pyval) : result Price.t :=
  rbind (py_get price "currency" (PStr "")) (fun c =>
  rbind (py_str_in "RP" c) (fun is_rp =>
  rbind (if is_rp then py_get price "currency" PNone else Ok (PStr "BE")) (fun currency =>
  rbind (py_get price "cost" PNone) (fun cost =>
  call Price.init ["currency"; "cost"] (Price.mk currency cost))))).

(** [Skin(id=..., champion_id=..., ...)] of utils.py:213-235, after the
    loop over its prices. *)
Definition build_skin (skin : pyval) : result Skin.t :=
  rbind (py_get skin "prices" (PList [])) (fun raw_prices =>
  rbind (py_iter raw_prices) (fun raw_prices =>
  rbind (map_result build_price raw_prices) (fun prices =>
  rbind (py_get skin "id" PNone) (fun id =>
  rbind (py_get skin "champion_id" PNone) (fun champion_id =>
  rbind (py_get skin "name" PNone) (fun name =>
  rbind (py_get skin "centered_image" PNone) (fun centered_image =>
  rbind (py_get skin "skin_video_url" PNone) (fun skin_video_url =>
  rbind (py_get skin "release_date" PNone) (fun has_date =>
  rbind (if truthy has_date
         then rbind (py_getitem skin "release_date") fromisoformat
         else Ok tt) (fun release_date =>
  rbind (py_get skin "sales" PNone) (fun sales =>
  call Skin.init
    ["id"; "champion_id"; "name"; "centered_image"; "skin_video_url"; "prices";
     "release_date"; "sales"]
    (Skin.mk id name centered_image skin_video_url (Some prices) sales)))))))))))).

(** [Spell(key=..., ..., cooldown_burn_float=..., ...)] of utils.py:237-252. *)
Definition build_spell (spell : pyval) : result Spell.t :=
  rbind (py_get spell "key" PNone) (fun key =>
  rbind (py_get spell "name" PNone) (fun name =>
  rbind (py_get spell "description" PNone) (fun description =>
  rbind (py_get spell "max_rank" PNone) (fun max_rank =>
  rbind (py_get spell "range_burn" PNone) (fun range_burn =>
  rbind (py_get spell "cooldown_burn" PNone) (fun cooldown_burn =>
  rbind (py_get spell "cooldown_burn_float" PNone) (fun cooldown_burn_float =>
  rbind (py_get spell "cost_burn" PNone) (fun cost_burn =>
  rbind (py_get spell "tooltip" PNone) (fun tooltip =>
  rbind (py_get spell "image_url" PNone) (fun image_url =>
  rbind (py_get spell "video_url" PNone) (fun video_url =>
  call Spell.init
    ["key"; "name"; "description"; "max_rank"; "range_burn"; "cooldown_burn";
     "cooldown_burn_float"; "cost_burn"; "tooltip"; "image_url"; "video_url"]
    (Spell.mk key name description max_rank range_burn cooldown_burn cost_burn
       tooltip image_url video_url)))))))))))).

(** [Passive(name=..., ...)] of utils.py:262-267; each argument reads
    [champion.get("passive", {})] anew. *)
Definition build_passive (champion : pyval) : result Passive.t :=
  let field k := rbind (py_get champion "passive" (PDict [])) (fun p => py_get p k PNone) in
  rbind (field "name") (fun name =>
  rbind (field "description") (fun description =>
  rbind (field "image_url") (fun image_url =>
  rbind (field "video_url") (fun video_url =>
  call Passive.init ["name"; "description"; "image_url"; "video_url"]
    (Passive.mk name description image_url video_url))))).

(** One turn of the loop of utils.py:208-271. *)
Definition build_champion (champion : pyval) : result Champion.t :=
  rbind (py_get champion "skins" (PList [])) (fun raw_skins =>
  rbind (py_iter raw_skins) (fun raw_skins =>
  rbind (map_result build_skin raw_skins) (fun skins =>
  rbind (py_get champion "spells" (PList [])) (fun raw_spells =>
  rbind (py_iter raw_spells) (fun raw_spells =>
  rbind (map_result build_spell raw_spells) (fun spells =>
  rbind (py_get champion "id" PNone) (fun id =>
  rbind (py_get champion "key" PNone) (fun key =>
  rbind (py_get champion "name" PNone) (fun name =>
  rbind (py_get champion "image_url" PNone) (fun image_url =>
  rbind (py_get champion "evolve" PNone) (fun evolve =>
  rbind (py_get champion "partype" PNone) (fun partype =>
  rbind (build_passive champion) (fun passive =>
  call Champion.init
    ["id"; "key"; "name"; "image_url"; "evolve"; "partype"; "passive"; "spells";
     "skins"]
    (Champion.mk id key name image_url evolve passive spells skins)))))))))))))).

(** The loop of [get_all_champions] over the raw champions. *)
Definition champions_of (raw_champs_data : list pyval) : result (list Champion.t) :=
  map_result build_champion raw_champs_data.

(** The request to [/meta/champions] and the [try] around its decoding. *)
Definition fetch_meta_champions : M (list pyval) := fun w =>
  match meta_champions (trace w) with
  | MetaBody v => (rbind (py_getitem v "data") py_iter, log NetMetaChampions w)
  | MetaJSONDecodeError => (Ok [], log NetMetaChampions w)
  | MetaRaises e => (Raise e, log NetMetaChampions w)
  end.

(** [get_all_champions(page_props)]; [PNone] is the default argument. *)
Definition get_all_champions (page_props : pyval) : M (list Champion.t) :=
  if negb (truthy page_props)
  then
    cached_champions <- cacher_get_all_champs ;;
    if truthy_list cached_champions
    then ret (match cached_champions with Some l => l | None => [] end)
    else
      raw_champs_data <- fetch_meta_champions ;;
      lift (champions_of raw_champs_data)
  else
    lift (rbind (py_getitem page_props "championsById") (fun by_id =>
          rbind (py_dict_values by_id) champions_of)).

(** [int(value)]. *)
Definition py_int (x : scalar) : result Z :=
  match x with
  | SInt n => Ok n
  | SStr s => match int_of_str s with Some n => Ok n | None => Raise ValueError end
  end.

(** [for x in l: if p(x): result_set.append(x)]. *)
Fixpoint select {A} (p : A -> result bool) (l : list A) : result (list A) :=
  match l with
  | [] => Ok []
  | x :: l' =>
      rbind (p x) (fun b =>
      rbind (select p l') (fun rs => Ok (if b then x :: rs else rs)))
  end.

(** [for x in l: for v in values: if f(x) == v: result_set.append(x)]. *)
Definition select_any {A} (f : A -> pyval) (values : list scalar) (l : list A) : list A :=
  flat_map (fun x => map (fun _ => x) (List.filter (fun v => py_eq_scalar v (f x)) values)) l.

(** The branches of [get_champion_by] on [by] over one attribute. *)
Definition select_by {A} (f : A -> pyval) (as_int : bool) (value : query) (l : list A)
  : result (list A) :=
  match value with
  | Many values => Ok (select_any f values l)
  | One v =>
      if as_int
      then select (fun x => rbind (py_int v) (fun n => Ok (py_eq_int n (f x)))) l
      else Ok (List.filter (fun x => py_eq_scalar v (f x)) l)
  end.

(** [get_season_by(by, value)]. *)
Definition season_result_set (by_ : By) (value : query) (all_seasons : list SeasonInfo.t)
  : result (list SeasonInfo.t) :=
  if By_eqb by_ ID then select_by SeasonInfo.id true value all_seasons else Ok [].

Definition get_season_by (by_ : By) (value : query) : M (one_or_list SeasonInfo.t) :=
  all_seasons <- get_all_seasons PNone ;;
  result_set <- lift (season_result_set by_ value all_seasons) ;;
  lift (return_shape result_set).

(** [price.cost in value]. *)
Definition cost_in (cost : pyval) (value : query) : result bool :=
  match value with
  | Many values => Ok (existsb (fun v => py_eq_scalar v cost) values)
  | One (SStr s) => match cost with
                    | PStr c => Ok (is_substring c s)
                    | _ => Raise TypeError
                    end
  | One (SInt _) => Raise TypeError
  end.

(** The keyword arguments of [get_champion_by]: [page_props], and
    [currency] as [str(kwargs.get("currency", "")).upper()] reads it. *)
Record kwargs := mkKwargs { page_props : option pyval; currency : string }.

(** The loop of the [By.COST] branch over the prices of the first skin. *)
Fixpoint matching_prices (kw : kwargs) (value : query) (prices : list Price.t)
  : result nat :=
  match prices with
  | [] => Ok 0%nat
  | price :: rest =>
      rbind (if py_eq_str (currency kw) (Price.currency price)
             then cost_in (Price.cost price) value else Ok false) (fun hit =>
      rbind (matching_prices kw value rest) (fun n =>
      Ok (if hit then S n else n)))
  end.

Fixpoint select_by_cost (kw : kwargs) (value : query) (all_champs : list Champion.t)
  : result (list Champion.t) :=
  match all_champs with
  | [] => Ok []
  | champ :: rest =>
      match Champion.skins champ with
      | [] => Raise IndexError
      | skin :: _ =>
          rbind (match Skin.prices skin with
                 | Some (p :: ps) => matching_prices kw value (p :: ps)
                 | _ => Ok 0%nat
                 end) (fun n =>
          rbind (select_by_cost kw value rest) (fun rs =>
          Ok (repeat champ n ++ rs)))
      end
  end.

Definition champion_result_set (by_ : By) (value : query) (kw : kwargs)
    (all_champs : list Champion.t) : result (list Champion.t) :=
  match by_ with
  | ID => select_by Champion.id true value all_champs
  | KEY => select_by Champion.key false value all_champs
  | NAME => select_by Champion.name false value all_champs
  | COST => select_by_cost kw value all_champs
  | _ => Ok []
  end.

(** utils.py:297-301: the catalog [get_champion_by] searches. *)
Definition all_champs_for (kw : kwargs) : M (list Champion.t) :=
  match page_props kw with
  | Some pp => if truthy pp then get_all_champions pp else get_all_champions PNone
  | None => get_all_champions PNone
  end.

(** [get_champion_by(by, value, **kwargs)]. *)
Definition get_champion_by (by_ : By) (value : query) (kw : kwargs)
  : M (one_or_list Champion.t) :=
  all_champs <- all_champs_for kw ;;
  result_set <- lift (champion_result_set by_ value kw all_champs) ;;
  lift (return_shape result_set).

(** ** opgg.py: [OPGG.search] *)

(** opgg.py:419-424: a string is split at its commas. *)
Definition normalize (summoner_names : names_arg) : list string :=
  match summoner_names with
  | NamesStr s => if has_char "," s then split_on "," s else [s]
  | NamesList l => l
  end.

(** opgg.py:436-447: the guard on the regional identifier and the cache
    lookup, name by name. *)
Fixpoint partition_names (summoner_names : list string)
    (cached_summoner_ids uncached_summoners : list string)
  : M (list string * list string) :=
  match summoner_names with
  | [] => ret (cached_summoner_ids, uncached_summoners)
  | summoner_name :: rest =>
      if negb (has_char "#" summoner_name)
      then raise (MalformedQueryError summoner_name)
      else
        cached_id <- cacher_get_summoner_id summoner_name ;;
        if truthy_id cached_id
        then partition_names rest
               (cached_summoner_ids ++ [match cached_id with Some i => i | None => "" end])
               uncached_summoners
        else partition_names rest cached_summoner_ids (uncached_summoners ++ [summoner_name])
  end.

(** opgg.py:469-473: the seasons come from the cache, or are fetched and
    cached. *)
Definition load_seasons (cached_seasons : option (list SeasonInfo.t)) (page_props : pyval)
  : M unit :=
  if truthy_list cached_seasons
  then set_all_seasons (match cached_seasons with Some l => l | None => [] end)
  else
    all_seasons <- get_all_seasons page_props ;;
    set_all_seasons all_seasons ;;
    cacher_insert_all_seasons all_seasons.

(** opgg.py:475-479: and so do the champions. *)
Definition load_champions (cached_champions : option (list Champion.t)) (page_props : pyval)
  : M unit :=
  if truthy_list cached_champions
  then set_all_champions (match cached_champions with Some l => l | None => [] end)
  else
    all_champions <- get_all_champions page_props ;;
    set_all_champions all_champions ;;
    cacher_insert_all_champs all_champions.

(** opgg.py:464-479. *)
Definition load_catalogs (page_props : pyval) : M unit :=
  cached_seasons <- cacher_get_all_seasons ;;
  cached_champions <- cacher_get_all_champs ;;
  load_seasons cached_seasons page_props ;;
  load_champions cached_champions page_props.

(** opgg.py:495-500: the first candidate whose game name and tagline are
    the two parts of the query. *)
Fixpoint find_candidate (only_summoner_name only_region : string) (candidates : list pyval)
  : result (option pyval) :=
  match candidates with
  | [] => Ok None
  | summoner :: rest =>
      rbind (py_get summoner "game_name" (PStr "")) (fun game_name =>
      if py_eq_str (strip only_summoner_name) game_name
      then rbind (py_get summoner "tagline" (PStr "")) (fun tagline =>
           if py_eq_str (strip only_region) tagline
           then rbind (py_get summoner "summoner_id" (PStr "")) (fun id => Ok (Some id))
           else find_candidate only_summoner_name only_region rest)
      else find_candidate only_summoner_name only_region rest)
  end.

(** opgg.py:492-508: the [if]/[elif] chain that picks [self.summoner_id]
    for one queried name. *)
Definition select_summoner_id (page_props : pyval) (summoner_name : string) : M unit :=
  summoners <- lift (py_get page_props "summoners" (PList [])) ;;
  n <- lift (py_len summoners) ;;
  if (1 <? n)%nat && has_char "#" summoner_name
  then
    match split_on "#" summoner_name with
    | [only_summoner_name; only_region] =>
        candidates <- lift (py_iter summoners) ;;
        found <- lift (find_candidate only_summoner_name only_region candidates) ;;
        match found with
        | Some id => set_summoner_id id
        | None => ret tt
        end
    | _ => raise ValueError
    end
  else if (1 <? n)%nat && negb (has_char "#" summoner_name)
  then raise (AmbiguousResultError summoner_name)
  else if Nat.eqb n 1
  then
    id <- lift (rbind (py_getitem page_props "summoners") (fun l =>
                rbind (py_getitem0 l) (fun first => py_getitem first "summoner_id"))) ;;
    set_summoner_id id
  else ret tt.

(** [self.get_summoner()]: the request goes to the URL made of
    [self.region] and [self.summoner_id]. *)
Definition get_summoner : M (Summoner.t + pyval) := fun w =>
  let w' := log (NetSummoner (_region (self w)) (_summoner_id (self w))) w in
  match summary_api (trace w) (_region (self w)) (_summoner_id (self w)) with
  | Built s => (Ok (inl s), w')
  | Content c => (Ok (inr c), w')
  | Raises e => (Raise e, w')
  end.

(** [summoner.name] in the log line after [get_summoner]: the content that
    [get_summoner] returns when the API has no data has no such attribute. *)
Definition the_summoner (got : Summoner.t + pyval) : M Summoner.t :=
  match got with
  | inl s => ret s
  | inr _ => raise AttributeError
  end.

(** opgg.py:490-513: the loop over all the requested names. *)
Fixpoint resolve_names (page_props : pyval) (summoner_names : list string)
    (summoners : list Summoner.t) : M (list Summoner.t) :=
  match summoner_names with
  | [] => ret summoners
  | summoner_name :: rest =>
      select_summoner_id page_props summoner_name ;;
      got <- get_summoner ;;
      summoner <- the_summoner got ;;
      cacher_insert_summoner (Summoner.name summoner) (Summoner.summoner_id summoner) ;;
      resolve_names page_props rest (summoners ++ [summoner])
  end.

(** opgg.py:516-520: the loop over the cached identifiers. *)
Fixpoint resolve_cached (cached_summoner_ids : list string) (summoners : list Summoner.t)
  : M (list Summoner.t) :=
  match cached_summoner_ids with
  | [] => ret summoners
  | cached_id :: rest =>
      set_summoner_id (PStr cached_id) ;;
      got <- get_summoner ;;
      summoner <- the_summoner got ;;
      resolve_cached rest (summoners ++ [summoner])
  end.

(** opgg.py:524-527. *)
Definition search_result (summoner_names : list string) (summoners : list Summoner.t)
  : result (one_or_list Summoner.t) :=
  match summoners with
  | [] => Raise (NoResultsError summoner_names)
  | [summoner] => Ok (TheObject summoner)
  | _ => Ok (TheList summoners)
  end.

(** [OPGG.search(summoner_names, region)]. *)
Definition search (summoner_names : names_arg) (region : Region)
  : M (one_or_list Summoner.t) :=
  let summoner_names := normalize summoner_names in
  parts <- partition_names summoner_names [] [] ;;
  page_props <- get_page_props (NamesList (snd parts)) region ;;
  load_catalogs page_props ;;
  set_region region ;;
  summoners <- resolve_names page_props summoner_names [] ;;
  summoners <- resolve_cached (fst parts) summoners ;;
  lift (search_result summoner_names summoners).

End Code.

(** ** opgg.py: the champion statistics of [OPGG.get_summoner]

    The end of the [try] block of [get_summoner] (opgg.py:317-383): the
    loop that fills [most_champions], the call to [get_recent_games] after
    it, and the handler. *)

(** opgg.py:319-323: the champion of the catalog with the identifier of the
    raw statistics. *)
Fixpoint find_champion (all_champions : list Champion.t) (champion : pyval)
  : result (option Champion.t) :=
  match all_champions with
  | [] => Ok None
  | _champion :: rest =>
      rbind (py_get champion "id" (PInt (-1))) (fun id =>
      if py_eq (Champion.id _champion) id then Ok (Some _champion)
      else find_champion rest champion)
  end.

(** The keywords of the call of opgg.py:326-373 after [game_length_second]. *)
Definition more_keywords : list string :=
  ["inhibitor_kills"; "sight_wards_bought_in_game"; "vision_wards_bought_in_game";
   "vision_score"; "wards_placed"; "wards_killed"; "heal"; "time_ccing_others";
   "op_score"; "is_max_in_team_op_score"; "physical_damage_taken";
   "damage_dealt_to_champions"; "physical_damage_dealt_to_champions";
   "magic_damage_dealt_to_champions"; "damage_dealt_to_objectives";
   "damage_dealt_to_turrets"; "damage_self_mitigated"; "max_largest_multi_kill";
   "max_largest_critical_strike"; "max_largest_killing_spree"; "snowball_throws";
   "snowball_hits"].

(** One turn of the loop: [ChampionStats(champion=tmp_champ, id=..., ...)]. *)
Definition champion_stats (all_champions : option (list Champion.t)) (champion : pyval)
  : result ChampionStats.t :=
  let get k := py_get champion k PNone in
  rbind (if truthy_list all_champions
         then find_champion (match all_champions with Some l => l | None => [] end) champion
         else Ok None) (fun tmp_champ =>
  rbind (get "id") (fun id =>
  rbind (get "play") (fun play =>
  rbind (get "win") (fun win =>
  rbind (get "lose") (fun lose =>
  rbind (get "kill") (fun kill =>
  rbind (get "death") (fun death =>
  rbind (get "assist") (fun assist =>
  rbind (get "gold_earned") (fun gold_earned =>
  rbind (get "minion_kill") (fun minion_kill =>
  rbind (get "turret_kill") (fun turret_kill =>
  rbind (get "neutral_minion_kill") (fun neutral_minion_kill =>
  rbind (get "damage_dealt") (fun damage_dealt =>
  rbind (get "damage_taken") (fun damage_taken =>
  rbind (get "physical_damage_dealt") (fun physical_damage_dealt =>
  rbind (get "magic_damage_dealt") (fun magic_damage_dealt =>
  rbind (get "most_kill") (fun most_kill =>
  rbind (get "max_kill") (fun max_kill =>
  rbind (get "max_death") (fun max_death =>
  rbind (get "double_kill") (fun double_kill =>
  rbind (get "triple_kill") (fun triple_kill =>
  rbind (get "quadra_kill") (fun quadra_kill =>
  rbind (get "penta_kill") (fun penta_kill =>
  rbind (get "game_length_second") (fun game_length_second =>
  rbind (map_result get more_keywords) (fun _ =>
  call ChampionStats.init
    (["champion"; "id"; "play"; "win"; "lose"; "kill"; "death"; "assist"; "gold_earned";
      "minion_kill"; "turret_kill"; "neutral_minion_kill"; "damage_dealt";
      "damage_taken"; "physical_damage_dealt"; "magic_damage_dealt"; "most_kill";
      "max_kill"; "max_death"; "double_kill"; "triple_kill"; "quadra_kill";
      "penta_kill"; "game_length_second"] ++ more_keywords)
    (ChampionStats.mk id play win lose kill death assist gold_earned minion_kill
       turret_kill neutral_minion_kill damage_dealt damage_taken physical_damage_dealt
       magic_damage_dealt most_kill max_kill max_death double_kill triple_kill
       quadra_kill penta_kill game_length_second)))))))))))))))))))))))))).

(** The loop over the raw statistics: what [most_champions] holds when it
    ends, and the exception that ended it, if one did. *)
Fixpoint champion_stats_loop (all_champions : option (list Champion.t)) (raw : list pyval)
    (most_champions : list ChampionStats.t) : list ChampionStats.t * option exn :=
  match raw with
  | [] => (most_champions, None)
  | champion :: rest =>
      match champion_stats all_champions champion with
      | Ok stats => champion_stats_loop all_champions rest (most_champions ++ [stats])
      | Raise e => (most_champions, Some e)
      end
  end.

(** [except Exception:] catches every exception of [exn] but [SystemExit],
    which is no [Exception]. *)
Definition is_exception (e : exn) : bool :=
  match e with
  | SystemExit => false
  | _ => true
  end.

Section MostChampions.

(** [get_recent_games] builds objects of classes that are not among the
    sources: what it returns is of a type [Games], and [recent_game_stats]
    starts as the empty list [no_games]. *)
Variable Games : Type.
Variable no_games : Games.
Variable get_recent_games : M Games.

(** The handler: the exception is logged, and [most_champions] and
    [recent_game_stats] stay as they are. *)
Definition handled (e : exn) (most_champions : list ChampionStats.t)
  : M (list ChampionStats.t * Games) :=
  if is_exception e then ret (most_champions, no_games) else raise e.

(** opgg.py:317-383, from a [content] that is at hand: the values of
    [most_champions] and [recent_game_stats] after the [try] statement. *)
Definition most_champions_and_games (content : pyval) : M (list ChampionStats.t * Games) :=
  fun w =>
    match rbind (py_get content "summoner" (PDict [])) (fun summoner =>
          rbind (py_get summoner "most_champions" (PDict [])) (fun most =>
          rbind (py_get most "champion_stats" (PList [])) py_iter)) with
    | Raise e => handled e [] w
    | Ok raw =>
        match champion_stats_loop (_all_champions (self w)) raw [] with
        | (most_champions, Some e) => handled e most_champions w
        | (most_champions, None) =>
            match get_recent_games w with
            | (Ok games, w') => (Ok (most_champions, games), w')
            | (Raise e, w') => handled e most_champions w'
            end
        end
    end.

End MostChampions.

(** ** opgg.py: [OPGG.get_summoner]

    The whole method.  [Tier], [QueueInfo] and [LeagueStats]
    (league_stats.py), [RankEntry] and [Season] (season.py) and [Summoner]
    (summoner.py) are classes of modules that are not among the sources:
    their types and their constructors are parameters here, a constructor
    being a function of the keyword arguments of its call that may raise.
    The request to the summary API is a parameter as well. *)

(** What [requests.get(self.api_url)] gives: a response that is [ok], with
    what [json.loads(res.text)] makes of it ([None] when it raises
    [JSONDecodeError]); a response that is not, for which
    [raise_for_status] raises; or an exception of its own. *)
Inductive http_response : Type :=
| HttpOk (json : option pyval)
| HttpNotOk
| HttpRaises (e : exn).

(** [d.get(k1, {}).get(k2)]. *)
Definition get_in (d : pyval) (k1 k2 : string) : result pyval :=
  rbind (py_get d k1 (PDict [])) (fun inner => py_get inner k2 PNone).

(** The keyword arguments [k=get(k)] for the keys, evaluated in their
    order. *)
Definition keywords (get : string -> result pyval) (keys : list string)
  : result (list (string * pyval)) :=
  map_result (fun k => rbind (get k) (fun v => Ok (k, v))) keys.

(** [for x in raw: acc.append(body(x))]: what the list holds when the loop
    ends, and the exception that ended it, if one did. *)
Fixpoint append_each {A} (body : pyval -> result A) (raw : list pyval) (acc : list A)
  : list A * option exn :=
  match raw with
  | [] => (acc, None)
  | x :: rest =>
      match body x with
      | Ok a => append_each body rest (acc ++ [a])
      | Raise e => (acc, Some e)
      end
  end.

Module GetSummoner.

Section Method.
Context `{Collaborators}.

Variables Tier RankEntry Season QueueInfo LeagueStats Summoner Games : Type.
Variable new_Tier : list (string * pyval) -> result Tier.
Variable new_RankEntry : pyval -> Tier -> option unit -> result RankEntry.
Variable new_Season : pyval -> Tier -> list RankEntry -> option unit -> result Season.
Variable new_QueueInfo : list (string * pyval) -> result QueueInfo.
Variable new_LeagueStats : QueueInfo -> Tier -> list (string * pyval) -> result LeagueStats.
Variable new_Summoner :
  list (string * pyval) -> list Season -> list LeagueStats -> list ChampionStats.t -> Games
  -> result Summoner.
Variable no_games : Games.
Variable get_recent_games : M Games.
Variable summary : list event -> Region -> pyval -> http_response.

(** [datetime.fromisoformat(d[k]) if d[k] else None]. *)
Definition optional_datetime (d : pyval) (k : string) : result (option unit) :=
  rbind (py_getitem d k) (fun v =>
  if truthy v
  then rbind (py_getitem d k) (fun v => rbind (fromisoformat v) (fun t => Ok (Some t)))
  else Ok None).

(** opgg.py:250-253: the season of the catalog with the identifier of the
    raw season. *)
Fixpoint find_season (all_seasons : list SeasonInfo.t) (season : pyval)
  : result (option SeasonInfo.t) :=
  match all_seasons with
  | [] => Ok None
  | _season :: rest =>
      rbind (py_get season "season_id" (PInt (-1))) (fun id =>
      if py_eq (SeasonInfo.id _season) id then Ok (Some _season)
      else find_season rest season)
  end.

(** opgg.py:248-253: [tmp_season_info]. *)
Definition season_info_of (all_seasons : option (list SeasonInfo.t)) (season : pyval)
  : result (option SeasonInfo.t) :=
  if truthy_list all_seasons
  then find_season (match all_seasons with Some l => l | None => [] end) season
  else Ok None.

(** opgg.py:256-272: the rank entries of one season. *)
Fixpoint rank_entries_of (raw : list pyval) (tmp_rank_entries : list RankEntry)
  : result (list RankEntry) :=
  match raw with
  | [] => Ok tmp_rank_entries
  | rank_entry :: rest =>
      rbind (py_get rank_entry "rank_info" PNone) (fun rank_info =>
      match rank_info with
      | PNone => rank_entries_of rest tmp_rank_entries
      | _ =>
          rbind (py_get rank_entry "game_type" PNone) (fun game_type =>
          rbind (keywords (get_in rank_entry "rank_info") ["tier"; "division"; "lp"])
            (fun tier =>
          rbind (new_Tier tier) (fun rank_info =>
          rbind (optional_datetime rank_entry "created_at") (fun created_at =>
          rbind (new_RankEntry game_type rank_info created_at) (fun entry =>
          rank_entries_of rest (tmp_rank_entries ++ [entry]))))))
      end)
  end.

(** opgg.py:247-287: one turn of the loop over the previous seasons.
    [tmp_season_info.id] raises [AttributeError] when no season of the
    catalog was found. *)
Definition previous_season (all_seasons : option (list SeasonInfo.t)) (season : pyval)
  : result Season :=
  rbind (season_info_of all_seasons season) (fun tmp_season_info =>
  rbind (py_get season "rank_entries" (PList [])) (fun raw =>
  rbind (py_iter raw) (fun raw =>
  rbind (rank_entries_of raw []) (fun tmp_rank_entries =>
  rbind (match tmp_season_info with
         | Some info => Ok (SeasonInfo.id info)
         | None => Raise AttributeError
         end) (fun season_id =>
  rbind (keywords (get_in season "tier_info")
           ["tier"; "division"; "lp"; "tier_image_url"; "border_image_url"]) (fun tier =>
  rbind (new_Tier tier) (fun tier_info =>
  rbind (optional_datetime season "created_at") (fun created_at =>
  new_Season season_id tier_info tmp_rank_entries created_at)))))))).

(** opgg.py:289-315: one turn of the loop over the league statistics. *)
Definition league_stats_of (league : pyval) : result LeagueStats :=
  rbind (py_get league "tier_info" (PDict [])) (fun tier_info =>
  rbind (keywords (get_in league "queue_info") ["id"; "queue_translate"; "game_type"])
    (fun queue =>
  rbind (new_QueueInfo queue) (fun queue_info =>
  rbind (keywords (fun k => py_get tier_info k PNone)
           ["tier"; "division"; "lp"; "tier_image_url"; "border_image_url"; "level"])
    (fun tier =>
  rbind (new_Tier tier) (fun tier_info =>
  rbind (keywords (fun k => py_get league k PNone)
           ["win"; "lose"; "is_hot_streak"; "is_fresh_blood"; "is_veteran"; "is_inactive";
            "series"; "updated_at"]) (fun others =>
  new_LeagueStats queue_info tier_info others)))))).

(** The four lists the [Summoner] is built from. *)
Record parsed := mkParsed {
  previous_seasons : list Season;
  league_stats : list LeagueStats;
  most_champions : list ChampionStats.t;
  recent_game_stats : Games }.

(** [except Exception:] of opgg.py:380: the lists stay as they are. *)
Definition except_Exception (e : exn) (lists : parsed) : M parsed :=
  if is_exception e then ret lists else raise e.

(** [content.get("summoner", {}).get(k, default)], to be iterated. *)
Definition summoner_items (content : pyval) (k : string) (default : pyval)
  : result (list pyval) :=
  rbind (py_get content "summoner" (PDict [])) (fun summoner =>
  rbind (py_get summoner k default) py_iter).

(** opgg.py:246-383: the [try] statement. *)
Definition parse (content : pyval) : M parsed := fun w =>
  match summoner_items content "previous_seasons" (PList []) with
  | Raise e => except_Exception e (mkParsed [] [] [] no_games) w
  | Ok seasons =>
      match append_each (previous_season (_all_seasons (self w))) seasons [] with
      | (previous_seasons, Some e) =>
          except_Exception e (mkParsed previous_seasons [] [] no_games) w
      | (previous_seasons, None) =>
          match summoner_items content "league_stats" PNone with
          | Raise e => except_Exception e (mkParsed previous_seasons [] [] no_games) w
          | Ok leagues =>
              match append_each league_stats_of leagues [] with
              | (league_stats, Some e) =>
                  except_Exception e (mkParsed previous_seasons league_stats [] no_games) w
              | (league_stats, None) =>
                  match most_champions_and_games Games no_games get_recent_games
                          content w with
                  | (Ok (most_champions, games), w') =>
                      (Ok (mkParsed previous_seasons league_stats most_champions games), w')
                  | (Raise e, w') => (Raise e, w')
                  end
              end
          end
      end
  end.

(** opgg.py:385-402: [Summoner(id=..., ..., recent_game_stats=...)]. *)
Definition build (content : pyval) (lists : parsed) : result Summoner :=
  rbind (keywords (get_in content "summoner")
           ["id"; "summoner_id"; "acct_id"; "puuid"; "game_name"; "tagline"; "name";
            "internal_name"; "profile_image_url"; "level"; "updated_at"; "renewable_at"])
    (fun fields =>
  new_Summoner fields (previous_seasons lists) (league_stats lists) (most_champions lists)
    (recent_game_stats lists)).

(** [OPGG.get_summoner(return_content_only)]: the [Summoner], or the
    content.  Of what [.get("data", [])] can raise, the handler of
    opgg.py:238 catches the [TypeError] and exits. *)
Definition get_summoner (return_content_only : bool) : M (Summoner + pyval) := fun w =>
  let w1 := log (NetSummoner (_region (self w)) (_summoner_id (self w))) w in
  match summary (trace w) (_region (self w)) (_summoner_id (self w)) with
  | HttpRaises e => (Raise e, w1)
  | HttpNotOk => (Raise HTTPError, w1)
  | HttpOk None => (Raise SystemExit, w1)
  | HttpOk (Some json) =>
      match py_get json "data" (PList []) with
      | Raise TypeError => (Raise SystemExit, w1)
      | Raise e => (Raise e, w1)
      | Ok content =>
          if return_content_only then (Ok (inr content), w1)
          else if negb (truthy content) then (Ok (inr content), w1)
          else (lists <- parse content ;;
                summoner <- lift (build content lists) ;;
                ret (inl summoner)) w1
      end
  end.

End Method.

End GetSummoner.

(** ** Vocabulary of the statements *)

Definition is_dict (v : pyval) : bool :=
  match v with
  | PDict _ => true
  | _ => false
  end.

(** [d.get(k, default)] on the entries of a dict. *)
Definition field (d : list (string * pyval)) (k : string) (default : pyval) : pyval :=
  match dict_lookup k d with
  | Some x => x
  | None => default
  end.

(** A candidate of the page props whose game name and tagline are the two
    parts of the query, trimmed as [find_candidate] trims them. *)
Definition candidate_matches (only_summoner_name only_region : string) (c : pyval) : bool :=
  match c with
  | PDict d =>
      py_eq_str (strip only_summoner_name) (field d "game_name" (PStr ""))
      && py_eq_str (strip only_region) (field d "tagline" (PStr ""))
  | _ => false
  end.

Definition to_list {A} (r : one_or_list A) : list A :=
  match r with
  | TheObject a => [a]
  | TheList l => l
  end.

(** The identifiers the cache holds for the names of a batch, in input
    order; an empty identifier does not count ([if cached_id:]). *)
Definition cache_hits (st : Cacher.Store) (names : list string) : list string :=
  omap (fun n => match Cacher.get_summoner_id n st with
                 | Some id => if String.eqb id "" then None else Some id
                 | None => None
                 end) names.

(** The names of a batch for which the cache holds no such identifier, in
    input order. *)
Definition cache_misses (st : Cacher.Store) (names : list string) : list string :=
  filter (fun n => truthy_id (Cacher.get_summoner_id n st) = false) names.

(** The names a call to [get_page_props] asks the multisearch page about. *)
Definition asked_names (names : names_arg) : list string :=
  match names with
  | NamesStr s => [s]
  | NamesList l => l
  end.

Definition fetches (name : string) (e : event) : Prop :=
  match e with
  | NetPageProps names _ => In name (asked_names names)
  | _ => False
  end.

(** A raw skin as [build_skin] expects it: a dict whose prices, if they
    can be iterated, are dicts, and whose release date, if it is a
    non-empty string, is in ISO format. *)
Definition skin_well_shaped `{Collaborators} (skin : pyval) : bool :=
  match skin with
  | PDict d =>
      match py_iter (field d "prices" (PList [])) with
      | Ok prices => forallb is_dict prices
      | Raise _ => true
      end
      && match dict_lookup "release_date" d with
         | Some (PStr date) => String.eqb date "" || fromisoformat_ok date
         | _ => true
         end
  | _ => false
  end.

(** A raw champion as [build_champion] expects it: a dict whose skins are
    well shaped, whose spells are dicts and whose passive, if there is one,
    is a dict. *)
Definition champion_well_shaped `{Collaborators} (champion : pyval) : bool :=
  match champion with
  | PDict d =>
      match py_iter (field d "skins" (PList [])) with
      | Ok skins => forallb skin_well_shaped skins
      | Raise _ => true
      end
      && match py_iter (field d "spells" (PList [])) with
         | Ok spells => forallb is_dict spells
         | Raise _ => true
         end
      && is_dict (field d "passive" (PDict []))
  | _ => false
  end.

(** The [SeasonInfo] that [get_all_seasons] builds from the entries of a
    raw season: a key that is missing gives [None]. *)
Definition season_info (d : list (string * pyval)) : SeasonInfo.t :=
  SeasonInfo.mk (field d "id" PNone) (field d "value" PNone)
    (field d "display_value" PNone) (field d "split" PNone)
    (field d "is_preseason" PNone).

(** One [SeasonInfo] for each raw season that is a dict with an entry at
    least, in their order. *)
Definition season_entries (raw : list pyval) : list SeasonInfo.t :=
  flat_map (fun season => match season with
                          | PDict (kv :: d) => [season_info (kv :: d)]
                          | _ => []
                          end) raw.

(** A raw season that [get_all_seasons] can read: a dict, or a value it
    skips ([if season:]). *)
Definition season_readable (season : pyval) : bool :=
  is_dict season || negb (truthy season).



(** The catalogs of the object are those of the store. *)
Definition catalogs_in_step (w : world) : Prop :=
  _all_seasons (self w) = Some (Cacher.seasons (db w))
  /\ _all_champions (self w) = Some (Cacher.champions (db w)).

(** The fields of the object and of the store that the two loops of
    [search] leave as they are. *)
Definition beside_summoners (w : world)
  : Region * option (list SeasonInfo.t) * option (list Champion.t)
    * list SeasonInfo.t * list Champion.t :=
  (_region (self w), _all_seasons (self w), _all_champions (self w),
   Cacher.seasons (db w), Cacher.champions (db w)).

(** A skin with prices, none of them in the currency. *)
Definition no_price_in (metric : string) (skin : Skin.t) : bool :=
  match Skin.prices skin with
  | Some prices => forallb (fun p => negb (py_eq_str metric (Price.currency p))) prices
  | None => false
  end.

(** *** Relations between the world before and after a run *)

(** [keeps R m]: every run of [m], whether it returns or raises, takes a
    world to one that [R] relates to it. *)
Definition keeps {A} (R : relation world) (m : M A) : Prop :=
  forall w r w', m w = (r, w') -> R w w'.

(** The part [f] of the world is not changed. *)
Definition frame {X} (f : world -> X) : relation world := fun w w' => f w' = f w.

(** Calls are only added to the trace, and each added call satisfies [P]. *)
Definition appends (P : event -> Prop) : relation world :=
  fun w w' => exists evs, trace w' = trace w ++ evs /\ Forall P evs.

(** A catalog that is in the store is still there, unchanged. *)
Definition populated_kept : relation world := fun w w' =>
  (Cacher.champions (db w) <> [] -> Cacher.champions (db w') = Cacher.champions (db w))
  /\ (Cacher.seasons (db w) <> [] -> Cacher.seasons (db w') = Cacher.seasons (db w)).

(** [resolved_in_order page_props names results w w']: the resolution loop,
    run from [w] over [names], ends in [w'] with one summoner per name, in
    the order of the names: the one [get_summoner] built right after the
    disambiguation step for that name. *)
Inductive resolved_in_order `{Collaborators} (page_props : pyval)
  : list string -> list Summoner.t -> world -> world -> Prop :=
| resolved_none (w : world) : resolved_in_order page_props [] [] w w
| resolved_next (name : string) (names : list string) (s : Summoner.t)
    (results : list Summoner.t) (w w1 w2 w3 w4 : world) :
    select_summoner_id page_props name w = (Ok tt, w1) ->
    get_summoner w1 = (Ok (inl s), w2) ->
    cacher_insert_summoner (Summoner.name s) (Summoner.summoner_id s) w2 = (Ok tt, w3) ->
    resolved_in_order page_props names results w3 w4 ->
    resolved_in_order page_props (name :: names) (s :: results) w w4.

(** ** Sample data *)

Module Samples.

Definition candidate (game_name tagline summoner_id : string) : pyval :=
  PDict [("game_name", PStr game_name); ("tagline", PStr tagline);
         ("summoner_id", PStr summoner_id)].

(** Page props with the given candidates and empty catalogs. *)
Definition page_fields (candidates : list pyval) : list (string * pyval) :=
  [("summoners", PList candidates); ("seasonsById", PDict []);
   ("championsById", PDict [])].

Definition page (candidates : list pyval) : pyval := PDict (page_fields candidates).

Definition two_candidates : pyval :=
  page [candidate "abc" "NA1" "1"; candidate "abc" "EUW" "2"].

Definition one_candidate : pyval := page [candidate "abc" "NA1" "1"].

Definition no_candidates : pyval := page [].

(** The summary API knows every summoner by its identifier. *)
Definition summoner_of (summoner_id : pyval) : summoner_response :=
  match summoner_id with
  | PStr i => Built (Summoner.mk ("summoner " ++ i) i)
  | _ => Raises HTTPError
  end.

Definition collaborators (page_props : pyval) : Collaborators :=
  {| Region_NA := "na";
     multisearch := fun _ _ _ => PageProps page_props;
     meta_champions := fun _ => MetaJSONDecodeError;
     summary_api := fun _ _ summoner_id => summoner_of summoner_id;
     fromisoformat_ok := fun _ => true;
     int_of_str := fun _ => None |}.

(** [OPGG(summoner_id)] over a store, before any call. *)
Definition fresh (summoner_id : pyval) (st : Cacher.Store) : world :=
  mkWorld (mkOPGG summoner_id "na" None None) st 0 [].

Definition champion (id : Z) (name : string) : Champion.t :=
  Champion.mk (PInt id) (PStr name) (PStr name) PNone PNone
    (Passive.mk PNone PNone PNone PNone) [] [].

Definition season (id : Z) : SeasonInfo.t :=
  SeasonInfo.mk (PInt id) (PInt id) (PInt id) PNone (PBool false).

(** A store with both catalogs cached and no summoner. *)
Definition stocked : Cacher.Store :=
  Cacher.mkStore ∅ [champion 1 "Annie"; champion 2 "Olaf"; champion 2 "Olaf"] 0
    [season 1; season 2; season 2] 0.

(** A store in which a name is cached with the given identifier. *)
Definition knowing (name id : string) : Cacher.Store :=
  Cacher.mkStore {[ name := (id, 0%nat) ]} [] 0 [] 0.

(** Page props with a candidate for [a#1] and one for [c#3], but none for
    [b#2]. *)
Definition candidates_a_c : pyval :=
  page [candidate "a" "1" "id-a"; candidate "c" "3" "id-c"].

(** A raw champion with one skin, as the API gives it. *)
Definition raw_champion : pyval :=
  PDict [("id", PInt 1); ("name", PStr "Annie");
         ("skins", PList [PDict [("id", PInt 1000); ("name", PStr "default");
                                 ("prices", PList [PDict [("currency", PStr "RP");
                                                          ("cost", PInt 260)]]);
                                 ("release_date", PStr "2009-02-21T00:00:00+00:00")]]);
         ("passive", PDict [("name", PStr "Pyromania")])].

Definition page_with_raw_champion : pyval :=
  PDict [("summoners", PList []); ("seasonsById", PDict []);
         ("championsById", PDict [("1", raw_champion)])].

(** A raw champion whose passive is [null]. *)
Definition champion_without_passive : pyval :=
  PDict [("id", PInt 1); ("name", PStr "Annie"); ("passive", PNone)].

(** Page props with that one champion. *)
Definition page_with_champion : pyval :=
  PDict [("summoners", PList []); ("seasonsById", PDict []);
         ("championsById", PDict [("1", champion_without_passive)])].

End Samples.

(** ** More sample data *)

Module MoreSamples.

(** The multisearch page cannot be decoded. *)
Definition undecodable : Collaborators :=
  {| Region_NA := "na";
     multisearch := fun _ _ _ => PageJSONDecodeError;
     meta_champions := fun _ => MetaJSONDecodeError;
     summary_api := fun _ _ summoner_id => Samples.summoner_of summoner_id;
     fromisoformat_ok := fun _ => true;
     int_of_str := fun _ => None |}.

(** The summary API has no data for any identifier. *)
Definition no_data (page_props : pyval) : Collaborators :=
  {| Region_NA := "na";
     multisearch := fun _ _ _ => PageProps page_props;
     meta_champions := fun _ => MetaJSONDecodeError;
     summary_api := fun _ _ _ => Content (PList []);
     fromisoformat_ok := fun _ => true;
     int_of_str := fun _ => None |}.

(** Page props with one candidate that has no identifier. *)
Definition candidate_without_id : list (string * pyval) :=
  [("summoners", PList [PDict [("game_name", PStr "abc"); ("tagline", PStr "NA1")]])].

(** Page props with three seasons, the second of them [null]. *)
Definition seasons_by_id : list (string * pyval) :=
  [("17", PDict [("id", PInt 17); ("display_value", PInt 2023); ("split", PInt 1)]);
   ("18", PNone);
   ("19", PDict [("id", PInt 19); ("is_preseason", PBool true)])].

Definition page_with_seasons : list (string * pyval) :=
  [("summoners", PList []); ("seasonsById", PDict seasons_by_id)].

(** Page props whose second season is a number. *)
Definition page_with_odd_season : list (string * pyval) :=
  [("seasonsById", PDict [("17", PDict [("id", PInt 17)]); ("18", PInt 18)])].

(** [str.upper] on the letters [a] to [z]. *)
Definition upper_ascii (a : ascii) : ascii :=
  let n := nat_of_ascii a in
  if ((97 <=? n) && (n <=? 122))%nat then ascii_of_nat (n - 32) else a.

Fixpoint upper (s : string) : string :=
  match s with
  | EmptyString => EmptyString
  | String a s' => String (upper_ascii a) (upper s')
  end.

Definition skin (name : string) (prices : option (list Price.t)) : Skin.t :=
  Skin.mk PNone (PStr name) PNone PNone prices PNone.

Definition champion_with (skins : list Skin.t) : Champion.t :=
  Champion.mk (PInt 1) (PStr "Annie") (PStr "Annie") PNone PNone
    (Passive.mk PNone PNone PNone PNone) [] skins.

(** A champion with the prices [get_all_champions] would build from a
    price in IP and one in RP. *)
Definition annie : Champion.t :=
  champion_with [skin "default" (Some [Price.mk (PStr "BE") (PInt 450);
                                       Price.mk (PStr "RP") (PInt 260)])].

(** A champion whose second skin has no prices. *)
Definition olaf : Champion.t :=
  champion_with [skin "default" (Some [Price.mk (PStr "BE") (PInt 3150)]);
                 skin "classic" None;
                 skin "forsaken" (Some [Price.mk (PStr "RP") (PInt 790)])].

(** The summary of a summoner with a league and with statistics for one
    champion. *)
Definition stats_of_abc : list (string * pyval) :=
  [("champion_stats", PList [PDict [("id", PInt 1); ("play", PInt 10)]])].

Definition summoner_with_stats : list (string * pyval) :=
  [("name", PStr "abc"); ("league_stats", PList [PDict [("win", PInt 10)]]);
   ("most_champions", PDict stats_of_abc)].

Definition content_with_stats : list (string * pyval) :=
  [("summoner", PDict summoner_with_stats)].

(** Stand-ins for the classes that are not among the sources: an object
    keeps the arguments it was built from, and no constructor raises. *)
Definition Tier : Type := list (string * pyval).
Definition RankEntry : Type := pyval * Tier.
Definition Season : Type := pyval * list RankEntry.
Definition QueueInfo : Type := list (string * pyval).
Definition LeagueStats : Type := QueueInfo * Tier.
Definition Games : Type := list pyval.
Definition SummonerT : Type :=
  list (string * pyval) * list Season * list LeagueStats * list ChampionStats.t * Games.

Definition new_Tier (tier : list (string * pyval)) : result Tier := Ok tier.
Definition new_RankEntry (game_type : pyval) (rank_info : Tier) (created_at : option unit)
  : result RankEntry := Ok (game_type, rank_info).
Definition new_Season (season_id : pyval) (tier_info : Tier) (rank_entries : list RankEntry)
    (created_at : option unit) : result Season := Ok (season_id, rank_entries).
Definition new_QueueInfo (queue : list (string * pyval)) : result QueueInfo := Ok queue.
Definition new_LeagueStats (queue_info : QueueInfo) (tier_info : Tier)
    (others : list (string * pyval)) : result LeagueStats := Ok (queue_info, tier_info).
Definition new_Summoner (fields : list (string * pyval)) (previous_seasons : list Season)
    (league_stats : list LeagueStats) (most_champions : list ChampionStats.t) (games : Games)
  : result SummonerT :=
  Ok (fields, previous_seasons, league_stats, most_champions, games).

(** The recent games: one game. *)
Definition get_recent_games : M Games := ret [PStr "game"].

(** The summary API answers with the given content. *)
Definition summary_of (content : pyval) (history : list event) (region : Region)
    (summoner_id : pyval) : http_response :=
  HttpOk (Some (PDict [("data", content)])).

Definition parse `{Collaborators} : pyval -> M (GetSummoner.parsed Season LeagueStats Games) :=
  GetSummoner.parse Tier RankEntry Season QueueInfo LeagueStats Games new_Tier new_RankEntry
    new_Season new_QueueInfo new_LeagueStats [] get_recent_games.

Definition get_summoner `{Collaborators} (content : pyval) : M (SummonerT + pyval) :=
  GetSummoner.get_summoner Tier RankEntry Season QueueInfo LeagueStats SummonerT Games
    new_Tier new_RankEntry new_Season new_QueueInfo new_LeagueStats new_Summoner []
    get_recent_games (summary_of content) false.

(** The keyword arguments of [Summoner] for a summary with a name only. *)
Definition fields_of_abc : list (string * pyval) :=
  [("id", PNone); ("summoner_id", PNone); ("acct_id", PNone); ("puuid", PNone);
   ("game_name", PNone); ("tagline", PNone); ("name", PStr "abc");
   ("internal_name", PNone); ("profile_image_url", PNone); ("level", PNone);
   ("updated_at", PNone); ("renewable_at", PNone)].

(** The summary of a summoner with one previous season and a league. *)
Definition summoner_with_season : list (string * pyval) :=
  [("name", PStr "abc");
   ("previous_seasons", PList [PDict [("season_id", PInt 17); ("created_at", PNone)]]);
   ("league_stats", PList [PDict [("win", PInt 10)]])].

Definition content_with_season : list (string * pyval) :=
  [("summoner", PDict summoner_with_season)].

(** The summary of a summoner without previous seasons and leagues. *)
Definition content_without_leagues : list (string * pyval) :=
  [("summoner", PDict [("name", PStr "abc")])].


End MoreSamples.

(** ** Statements of the specification that the code does not bear out *)

Module Spec.

(** A batch with a name without ['#'] fails with [MalformedQueryError]
    before any network or store access, wherever the name stands. *)
Definition fail_fast_without_access : Prop :=
  forall (C : Collaborators) (names : list string) (region : Region) (w : world) r w',
    Exists (fun n => has_char "#" n = false) names ->
    search (NamesList names) region w = (r, w') ->
    (exists n, r = Raise (MalformedQueryError n)) /\ trace w' = trace w.

(** Disambiguation of a query without tag: with several candidates in the
    page props, resolution fails for it with [AmbiguousResultError]. *)
Definition untagged_query_ambiguous : Prop :=
  forall (C : Collaborators) (page_props summoners_field : pyval) (k : nat)
         (name : string) (region : Region) (w : world),
    (forall history query, multisearch history region query = PageProps page_props) ->
    py_get page_props "summoners" (PList []) = Ok summoners_field ->
    py_len summoners_field = Ok k ->
    (1 < k)%nat ->
    has_char "#" name = false ->
    fst (search (NamesList [name]) region w) = Raise (AmbiguousResultError name).

(** The ambiguity of one name is reported for that name only: a sibling
    that resolves on its own is resolved in the batch too, so that the batch
    has a result. *)
Definition partial_batch_success : Prop :=
  forall (C : Collaborators) (page_props summoners_field : pyval) (k : nat)
         (names : list string) (name sibling : string) (region : Region) (w : world),
    (forall history query, multisearch history region query = PageProps page_props) ->
    py_get page_props "summoners" (PList []) = Ok summoners_field ->
    py_len summoners_field = Ok k ->
    (1 < k)%nat ->
    In name names ->
    has_char "#" name = false ->
    In sibling names ->
    (exists s, fst (search (NamesList [sibling]) region w) = Ok (TheObject s)) ->
    exists r, fst (search (NamesList names) region w) = Ok r.

(** The same of the resolution loop alone: the ambiguity of one name does
    not end the loop over the batch. *)
Definition ambiguity_kept_to_its_name : Prop :=
  forall (C : Collaborators) (page_props summoners_field : pyval) (k : nat)
         (names : list string) (name : string) (w : world) r w',
    In name names ->
    has_char "#" name = false ->
    py_get page_props "summoners" (PList []) = Ok summoners_field ->
    py_len summoners_field = Ok k ->
    (1 < k)%nat ->
    resolve_names page_props names [] w = (r, w') ->
    r <> Raise (AmbiguousResultError name).


(** A name whose identifier is in the store is not put to the fetch
    collaborator. *)
Definition cache_precedence : Prop :=
  forall (C : Collaborators) (names : list string) (name id : string) (region : Region)
         (w : world) r w',
    In name names ->
    Cacher.get_summoner_id name (db w) = Some id ->
    search (NamesList names) region w = (r, w') ->
    appends (fun e => ~ fetches name e) w w'.

(** On every non-empty raw champion payload [get_all_champions] raises
    [TypeError]. *)
Definition raises_type_error : Prop :=
  forall (C : Collaborators) (page_props by_id : pyval) (raw : list pyval) (w : world),
    truthy page_props = true ->
    py_getitem page_props "championsById" = Ok by_id ->
    py_dict_values by_id = Ok raw ->
    raw <> [] ->
    fst (get_all_champions page_props w) = Raise TypeError.

End Spec.

(** ** Properties *)

Section Properties.
Context `{Collaborators}.

Lemma world_eta (w : world) : mkWorld (self w) (db w) (clock w) (trace w) = w.
Proof. destruct w; reflexivity. Qed.

Lemma split_on_no_char (c : ascii) (s : string) :
  has_char c s = false -> split_on c s = [s].
Proof.
  induction s as [|a s IH]; simpl; [reflexivity|].
  destruct (Ascii.eqb a c); simpl; [discriminate|].
  intros Hs. rewrite (IH Hs). reflexivity.
Qed.

Lemma split_in_two_has_char (c : ascii) (s a b : string) :
  split_on c s = [a; b] -> has_char c s = true.
Proof.
  intros Hsplit. destruct (has_char c s) eqn:E; [reflexivity|].
  rewrite (split_on_no_char _ _ E) in Hsplit. discriminate.
Qed.

(** *** The guard on the regional identifier *)

Lemma partition_names_malformed (pre : list string) (bad : string) (post : list string) :
  forall cached uncached w,
    Forall (fun n => has_char "#" n = true) pre ->
    has_char "#" bad = false ->
    partition_names (pre ++ bad :: post) cached uncached w
    = (Raise (MalformedQueryError bad),
       mkWorld (self w) (db w) (clock w) (trace w ++ map CacheGetSummonerId pre)).
Proof.
  induction pre as [|n pre IH]; intros cached uncached w Hpre Hbad; simpl.
  - rewrite Hbad. simpl. unfold raise. rewrite app_nil_r, world_eta. reflexivity.
  - inversion Hpre as [|? ? Hn Hrest]; subst. rewrite Hn. simpl.
    unfold bind, cacher_get_summoner_id.
    destruct (truthy_id _); rewrite IH by assumption; simpl;
      rewrite <- app_assoc; reflexivity.
Qed.

(** C2, as the code has it: a batch whose first name without ['#'] is [bad]
    fails as a whole with the [MalformedQueryError] of [bad]; up to then the
    code has only looked up, in the cache, the names that stand before
    [bad], in order: it has made no network call and no cache write, and the
    store, the clock and the [OPGG] object are as before. *)
Theorem malformed_name_fails_batch (pre : list string) (bad : string) (post : list string)
    (region : Region) (w : world) :
  Forall (fun n => has_char "#" n = true) pre ->
  has_char "#" bad = false ->
  search (NamesList (pre ++ bad :: post)) region w
  = (Raise (MalformedQueryError bad),
     mkWorld (self w) (db w) (clock w) (trace w ++ map CacheGetSummonerId pre))
  /\ Forall (fun e => is_network e = false /\ is_cache_write e = false)
       (map CacheGetSummonerId pre).
Proof.
  intros Hpre Hbad. split.
  - unfold search, bind. simpl.
    rewrite (partition_names_malformed pre bad post [] [] w Hpre Hbad). reflexivity.
  - clear. induction pre as [|n pre IH]; simpl; constructor;
      [split; reflexivity | exact IH].
Qed.

(** *** The store *)

Lemma insert_summoner_lookup (name id : string) (now : nat) (st : Cacher.Store) :
  exists t, Cacher.summoner_ids (Cacher.insert_summoner name id now st) !! name
            = Some (id, t).
Proof.
  unfold Cacher.insert_summoner.
  destruct (Cacher.summoner_ids st !! name) as [[id' t]|] eqn:E.
  - destruct (String.eqb id' id) eqn:Eid.
    + apply String.eqb_eq in Eid. subst id'. exists t. exact E.
    + exists now. simpl. apply lookup_insert_eq.
  - exists now. simpl. apply lookup_insert_eq.
Qed.

(** C8: recording the same (name, identifier) pair a second time, at any
    later time, leaves the store as the first recording left it: the
    table, the time stamps and the catalogs are the same. *)
Theorem insert_summoner_idempotent (name id : string) (t1 t2 : nat) (st : Cacher.Store) :
  Cacher.insert_summoner name id t2 (Cacher.insert_summoner name id t1 st)
  = Cacher.insert_summoner name id t1 st.
Proof.
  destruct (insert_summoner_lookup name id t1 st) as [t Ht].
  unfold Cacher.insert_summoner at 1. rewrite Ht, String.eqb_refl. reflexivity.
Qed.

(** *** What a computation leaves as it is *)

#[local] Instance frame_preorder {X} (f : world -> X) : PreOrder (frame f).
Proof.
  split.
  - intros w. reflexivity.
  - intros w1 w2 w3 H12 H23. unfold frame in *. congruence.
Qed.

#[local] Instance appends_preorder (P : event -> Prop) : PreOrder (appends P).
Proof.
  split.
  - intros w. exists []. rewrite app_nil_r. split; [reflexivity | constructor].
  - intros w1 w2 w3 [e1 [H1 F1]] [e2 [H2 F2]]. exists (e1 ++ e2).
    rewrite H2, H1, app_assoc. split; [reflexivity | apply Forall_app; split; assumption].
Qed.

Section Keeps.
Context (R : relation world) `{!PreOrder R}.

Lemma keeps_ret {A} (a : A) : keeps R (ret a).
Proof. intros w r w' E. inversion E; subst. reflexivity. Qed.

Lemma keeps_raise {A} (e : exn) : keeps R (raise (A := A) e).
Proof. intros w r w' E. inversion E; subst. reflexivity. Qed.

Lemma keeps_lift {A} (x : result A) : keeps R (lift x).
Proof. intros w r w' E. inversion E; subst. reflexivity. Qed.

Lemma keeps_bind {A B} (m : M A) (k : A -> M B) :
  keeps R m -> (forall a, keeps R (k a)) -> keeps R (bind m k).
Proof.
  intros Hm Hk w r w' E. unfold bind in E.
  destruct (m w) as [[a|e] w1] eqn:Em.
  - transitivity w1; [exact (Hm _ _ _ Em) | exact (Hk a _ _ _ E)].
  - inversion E; subst. exact (Hm _ _ _ Em).
Qed.

End Keeps.

(** One call to the cacher, the network or a setter: [tac] closes what is
    left once the call is unfolded. *)
Ltac one_call tac :=
  let w := fresh "w" in
  let E := fresh "E" in
  intros w ? ? E;
  cbv [set_summoner_id set_region set_all_champions set_all_seasons
       cacher_get_summoner_id cacher_get_all_seasons cacher_get_all_champs
       cacher_insert_all_seasons cacher_insert_all_champs cacher_insert_summoner
       get_page_props fetch_meta_champions get_summoner the_summoner
       ret raise lift] in E;
  repeat match type of E with
         | context [match ?x with _ => _ end] => destruct x
         end;
  inversion E; subst; clear E; tac.

(** A computation built from such calls with [bind], [if] and [match]. *)
Ltac keeps_with tac :=
  repeat first
    [ solve [auto]
    | apply keeps_ret; apply _ | apply keeps_raise; apply _
    | apply keeps_lift; apply _
    | apply keeps_bind; [apply _ | | intros ?]
    | match goal with
      | |- keeps _ (if ?b then _ else _) => destruct b
      | |- keeps _ (match ?x with _ => _ end) => destruct x
      end
    | solve [one_call tac] ].

Ltac framed := keeps_with ltac:(unfold frame; reflexivity).

Ltac appended_by tac :=
  keeps_with ltac:(
    first [ exists []; rewrite app_nil_r; split; [reflexivity | constructor]
          | eexists [_]; split; [reflexivity | constructor; [simpl; tac | constructor]] ]).

(** The functions of utils.py and the lookups of [search] only read the
    store. *)
Lemma get_all_seasons_reads (page_props : pyval) :
  keeps (frame db) (get_all_seasons page_props).
Proof. unfold get_all_seasons. framed. Qed.

Lemma get_all_champions_reads (page_props : pyval) :
  keeps (frame db) (get_all_champions page_props).
Proof. unfold get_all_champions. framed. Qed.

(** *** The partition into cached and uncached names *)

Lemma partition_names_ok (names : list string) :
  forall cached uncached w parts w',
    partition_names names cached uncached w = (Ok parts, w') ->
    Forall (fun n => has_char "#" n = true) names
    /\ parts = (cached ++ cache_hits (db w) names, uncached ++ cache_misses (db w) names)
    /\ w' = mkWorld (self w) (db w) (clock w) (trace w ++ map CacheGetSummonerId names).
Proof.
  induction names as [|n names IH]; intros cached uncached w parts w' E; simpl in E.
  - inversion E; subst. unfold cache_hits, cache_misses. simpl.
    rewrite !app_nil_r, world_eta. repeat split. constructor.
  - destruct (has_char "#" n) eqn:Hn; simpl in E; [|discriminate].
    unfold bind, cacher_get_summoner_id in E.
    unfold cache_hits, cache_misses. simpl. rewrite filter_cons.
    destruct (Cacher.get_summoner_id n (db w)) as [id|] eqn:Hid; simpl in E |- *.
    + destruct (String.eqb id "") eqn:Eid; simpl in E |- *;
        apply IH in E; destruct E as [Hall [-> ->]]; simpl;
        (split; [constructor; assumption|]);
        rewrite <- !app_assoc; simpl.
      * destruct (decide (true = false)); [discriminate|]. split; reflexivity.
      * destruct (decide (false = false)); [|contradiction]. split; reflexivity.
    + apply IH in E. destruct E as [Hall [-> ->]]. simpl.
      split; [constructor; assumption|].
      rewrite <- !app_assoc. simpl.
      destruct (decide (false = false)); [|contradiction]. split; reflexivity.
Qed.

Lemma cache_hit_not_missed (st : Cacher.Store) (names : list string) (name id : string) :
  Cacher.get_summoner_id name st = Some id -> id <> "" ->
  ~ In name (cache_misses st names).
Proof.
  intros Hid Hne Hin. unfold cache_misses in Hin.
  apply list_elem_of_In, list_elem_of_filter in Hin. destruct Hin as [Hmiss _].
  rewrite Hid in Hmiss. simpl in Hmiss.
  destruct (String.eqb id "") eqn:E; [|discriminate].
  apply String.eqb_eq in E. contradiction.
Qed.

Lemma partition_names_appends (P : event -> Prop) (names : list string) :
  (forall n, P (CacheGetSummonerId n)) ->
  forall cached uncached, keeps (appends P) (partition_names names cached uncached).
Proof.
  intros HP. induction names as [|n names IH]; intros cached uncached; simpl.
  - apply keeps_ret; apply _.
  - keeps_with ltac:(eexists [_]; split; [reflexivity | constructor; [apply HP | constructor]]).
Qed.

Lemma partition_names_tagged (names : list string) :
  Forall (fun n => has_char "#" n = true) names ->
  forall cached uncached w,
    exists parts w', partition_names names cached uncached w = (Ok parts, w').
Proof.
  induction 1 as [|n names Hn Hall IH]; intros cached uncached w; simpl.
  - eexists _, _. reflexivity.
  - rewrite Hn. simpl. unfold bind, cacher_get_summoner_id.
    destruct (truthy_id _); apply IH.
Qed.

Lemma bind_run {A B} (m : M A) (k : A -> M B) (w : world) r w' :
  bind m k w = (r, w') ->
  (exists a w1, m w = (Ok a, w1) /\ k a w1 = (r, w'))
  \/ (exists e, m w = (Raise e, w') /\ r = Raise e).
Proof.
  unfold bind. destruct (m w) as [[a|e] w1]; intros E.
  - left. exists a, w1. split; [reflexivity | exact E].
  - right. inversion E; subst. exists e. split; reflexivity.
Qed.

Lemma get_page_props_logs (names : names_arg) (region : Region) (w : world) r w' :
  get_page_props names region w = (r, w') -> w' = log (NetPageProps names region) w.
Proof.
  unfold get_page_props. destruct (multisearch _ _ _); intros E; inversion E; reflexivity.
Qed.

(** *** Which names the multisearch page is asked about *)

Section Appends.
Variable P : event -> Prop.
Hypothesis P_cache : forall e, is_cache_access e = true -> P e.
Hypothesis P_meta : P NetMetaChampions.
Hypothesis P_summoner : forall region id, P (NetSummoner region id).
Hypothesis P_default : P (NetPageProps (NamesStr "ColbyFaulkn1") Region_NA).

Ltac appended_P :=
  appended_by ltac:(first [ exact P_meta | apply P_summoner | exact P_default
                          | apply P_cache; reflexivity ]).

Lemma load_catalogs_appends (page_props : pyval) :
  keeps (appends P) (load_catalogs page_props).
Proof.
  unfold load_catalogs, load_seasons, load_champions, get_all_seasons, get_all_champions.
  appended_P.
Qed.

Lemma select_summoner_id_appends (page_props : pyval) (n : string) :
  keeps (appends P) (select_summoner_id page_props n).
Proof. unfold select_summoner_id. appended_P. Qed.

Lemma resolve_names_appends (page_props : pyval) (names : list string) :
  forall summoners, keeps (appends P) (resolve_names page_props names summoners).
Proof.
  pose proof select_summoner_id_appends as Hsel.
  induction names as [|n names IH]; intros summoners; simpl; appended_P.
Qed.

Lemma resolve_cached_appends (ids : list string) :
  forall summoners, keeps (appends P) (resolve_cached ids summoners).
Proof. induction ids as [|i ids IH]; intros summoners; simpl; appended_P. Qed.

(** opgg.py:452-527, what [search] does once it has the page props. *)
Lemma after_page_props_appends (names hits : list string) (region : Region)
    (page_props : pyval) :
  keeps (appends P)
    (load_catalogs page_props ;;
     set_region region ;;
     summoners <- resolve_names page_props names [] ;;
     summoners <- resolve_cached hits summoners ;;
     lift (search_result names summoners)).
Proof.
  pose proof load_catalogs_appends. pose proof resolve_names_appends.
  pose proof resolve_cached_appends. appended_P.
Qed.

End Appends.

(** C7, as the code has it: a name whose identifier in the store is not
    the empty string is never put to the multisearch page by a batch
    resolution, however the resolution ends ([if cached_id:] takes an empty
    identifier for a miss).  When all the names of the batch carry a ['#'],
    the page is asked, once the cache has been looked up for every name,
    about exactly the names the cache does not resolve, in input order. *)
Theorem cached_name_not_fetched (names : list string) (name id : string)
    (region : Region) (w : world) r w' :
  In name names ->
  Cacher.get_summoner_id name (db w) = Some id ->
  id <> "" ->
  search (NamesList names) region w = (r, w') ->
  appends (fun e => ~ fetches name e) w w'
  /\ (Forall (fun n => has_char "#" n = true) names ->
      exists rest,
        trace w' = trace w ++ map CacheGetSummonerId names
                   ++ NetPageProps (NamesList (cache_misses (db w) names)) region :: rest).
Proof.
  intros Hin Hid Hne E. unfold search in E. simpl in E.
  apply bind_run in E. destruct E as [(parts & w1 & Ep & E)|(e & Ep & ->)].
  - destruct (partition_names_ok _ _ _ _ _ _ Ep) as [Hall [-> ->]]. simpl in E.
    pose proof (cache_hit_not_missed (db w) names name id Hid Hne) as Hmiss.
    assert (Htag : name <> "ColbyFaulkn1").
    { intros ->. rewrite Forall_forall in Hall.
      apply list_elem_of_In, Hall in Hin. vm_compute in Hin. discriminate. }
    apply bind_run in E. destruct E as [(pp & w2 & Eg & E)|(e & Eg & ->)].
    + apply get_page_props_logs in Eg. subst w2.
      split.
      * assert (Hcache : forall e, is_cache_access e = true -> ~ fetches name e)
          by (intros [] He; simpl; solve [tauto | discriminate]).
        apply (after_page_props_appends (fun e => ~ fetches name e) Hcache) in E;
          [| simpl; tauto | intros; simpl; tauto | simpl; intuition congruence].
        destruct E as [evs [Ht Hevs]]. simpl in Ht.
        exists (map CacheGetSummonerId names
                ++ NetPageProps (NamesList (cache_misses (db w) names)) region :: evs).
        rewrite Ht, <- !app_assoc. split; [reflexivity|].
        apply Forall_app. split.
        { clear. induction names; simpl; constructor; [tauto | assumption]. }
        constructor; [exact Hmiss | exact Hevs].
      * intros _.
        apply (after_page_props_appends (fun _ => True)) in E; try (intros; exact I).
        destruct E as [evs [Ht _]]. simpl in Ht.
        exists evs. rewrite Ht, <- ?app_assoc. reflexivity.
    + apply get_page_props_logs in Eg. subst w'. unfold log. simpl.
      split.
      * exists (map CacheGetSummonerId names
                ++ [NetPageProps (NamesList (cache_misses (db w) names)) region]).
        rewrite <- ?app_assoc. split; [reflexivity|].
        apply Forall_app. split.
        { clear. induction names; simpl; constructor; [tauto | assumption]. }
        constructor; [exact Hmiss | constructor].
      * intros _. exists []. rewrite <- ?app_assoc. reflexivity.
  - split.
    + eapply (partition_names_appends (fun e => ~ fetches name e)); [|exact Ep].
      intros n. simpl. tauto.
    + intros Hall.
      destruct (partition_names_tagged names Hall [] [] w) as (parts & w1 & Eok).
      rewrite Eok in Ep. discriminate.
Qed.

(** *** The catalogs in the store *)

#[local] Instance populated_kept_preorder : PreOrder populated_kept.
Proof.
  split.
  - intros w. split; reflexivity.
  - intros w1 w2 w3 [Hc1 Hs1] [Hc2 Hs2]. split; intros Hne.
    + pose proof (Hc1 Hne) as E1. rewrite <- E1 in Hne. rewrite (Hc2 Hne). exact E1.
    + pose proof (Hs1 Hne) as E1. rewrite <- E1 in Hne. rewrite (Hs2 Hne). exact E1.
Qed.

Ltac kept :=
  keeps_with ltac:(
    unfold populated_kept; simpl;
    repeat match goal with
           | |- context [Cacher.insert_summoner ?n ?i ?t ?st] =>
               unfold Cacher.insert_summoner;
               destruct (Cacher.summoner_ids st !! n) as [[? ?]|];
               [destruct (String.eqb _ _)|]
           end;
    simpl; split; reflexivity).

Lemma load_seasons_kept (cached_seasons : option (list SeasonInfo.t)) (page_props : pyval)
    (w : world) r w' :
  cached_seasons = Cacher.get_all_seasons (db w) ->
  load_seasons cached_seasons page_props w = (r, w') ->
  Cacher.champions (db w') = Cacher.champions (db w)
  /\ (Cacher.seasons (db w) <> [] -> db w' = db w).
Proof.
  intros -> E. unfold load_seasons, Cacher.get_all_seasons in E.
  destruct (Cacher.seasons (db w)) as [|s0 ss] eqn:Es; simpl in E.
  - split; [|intros Hne; contradiction].
    apply bind_run in E. destruct E as [(l & w1 & Eg & E)|(e & Eg & _)].
    + apply get_all_seasons_reads in Eg. unfold frame in Eg.
      unfold bind, set_all_seasons, cacher_insert_all_seasons in E.
      inversion E; subst; simpl. rewrite Eg. destruct l; reflexivity.
    + apply get_all_seasons_reads in Eg. unfold frame in Eg. rewrite Eg. reflexivity.
  - inversion E; subst; simpl. split; reflexivity.
Qed.

Lemma load_champions_kept (cached_champions : option (list Champion.t))
    (page_props : pyval) (w : world) r w' :
  cached_champions = Cacher.get_all_champs (db w) ->
  load_champions cached_champions page_props w = (r, w') ->
  Cacher.seasons (db w') = Cacher.seasons (db w)
  /\ (Cacher.champions (db w) <> [] -> db w' = db w).
Proof.
  intros -> E. unfold load_champions, Cacher.get_all_champs in E.
  destruct (Cacher.champions (db w)) as [|c0 cs] eqn:Ec; simpl in E.
  - split; [|intros Hne; contradiction].
    apply bind_run in E. destruct E as [(l & w1 & Eg & E)|(e & Eg & _)].
    + apply get_all_champions_reads in Eg. unfold frame in Eg.
      unfold bind, set_all_champions, cacher_insert_all_champs in E.
      inversion E; subst; simpl. rewrite Eg. destruct l; reflexivity.
    + apply get_all_champions_reads in Eg. unfold frame in Eg. rewrite Eg. reflexivity.
  - inversion E; subst; simpl. split; reflexivity.
Qed.

Lemma load_catalogs_kept (page_props : pyval) :
  keeps populated_kept (load_catalogs page_props).
Proof.
  intros w r w' E. unfold load_catalogs in E.
  unfold bind at 1 2 in E. unfold cacher_get_all_seasons, cacher_get_all_champs in E.
  simpl in E.
  apply bind_run in E. destruct E as [([] & w1 & Es & E)|(e & Es & _)].
  - apply load_seasons_kept in Es; [|reflexivity].
    apply load_champions_kept in E.
    2:{ simpl in Es. destruct Es as [Es _]. unfold Cacher.get_all_champs.
        rewrite Es. reflexivity. }
    simpl in Es, E. destruct Es as [Es1 Es2], E as [E1 E2]. split; intros Hne.
    + rewrite E2 by (rewrite Es1; exact Hne). exact Es1.
    + rewrite E1. rewrite (Es2 Hne). reflexivity.
  - apply load_seasons_kept in Es; [|reflexivity]. simpl in Es.
    destruct Es as [Es1 Es2]. split; intros Hne.
    + exact Es1.
    + rewrite (Es2 Hne). reflexivity.
Qed.

Lemma search_kept (summoner_names : names_arg) (region : Region) :
  keeps populated_kept (search summoner_names region).
Proof.
  pose proof load_catalogs_kept as Hload.
  assert (Hpart : forall names cached uncached,
             keeps populated_kept (partition_names names cached uncached)).
  { induction names as [|n names IH]; intros; simpl; kept. }
  assert (Hsel : forall pp n, keeps populated_kept (select_summoner_id pp n)).
  { intros. unfold select_summoner_id. kept. }
  assert (Hnames : forall pp names summoners,
             keeps populated_kept (resolve_names pp names summoners)).
  { intros pp. induction names as [|n names IH]; intros; simpl; kept. }
  assert (Hcached : forall ids summoners,
             keeps populated_kept (resolve_cached ids summoners)).
  { induction ids as [|i ids IH]; intros; simpl; kept. }
  unfold search. kept.
Qed.

(** C6: putting the empty collection into a catalog is a no-op: after a
    catalog [c1; c2] has been put, putting [[]] leaves [c1; c2] to be got,
    for the champions and for the seasons alike (so [search] may pass on
    whatever the fetch gave).  And whatever a batch resolution fetches, it
    leaves a catalog that is in the store as it is. *)
Theorem empty_catalog_never_replaces :
  (forall (now : nat) (st : Cacher.Store), Cacher.insert_all_champs [] now st = st)
  /\ (forall (now : nat) (st : Cacher.Store), Cacher.insert_all_seasons [] now st = st)
  /\ (forall c1 c2 t1 t2 st,
        Cacher.get_all_champs
          (Cacher.insert_all_champs [] t2 (Cacher.insert_all_champs [c1; c2] t1 st))
        = Some [c1; c2])
  /\ (forall s1 s2 t1 t2 st,
        Cacher.get_all_seasons
          (Cacher.insert_all_seasons [] t2 (Cacher.insert_all_seasons [s1; s2] t1 st))
        = Some [s1; s2])
  /\ (forall summoner_names region w r w',
        search summoner_names region w = (r, w') ->
        (Cacher.champions (db w) <> [] ->
         Cacher.champions (db w') = Cacher.champions (db w))
        /\ (Cacher.seasons (db w) <> [] ->
            Cacher.seasons (db w') = Cacher.seasons (db w))).
Proof.
  do 4 (split; [reflexivity|]).
  intros summoner_names region w r w' E. exact (search_kept _ _ _ _ _ E).
Qed.

(** *** The disambiguation step *)

Lemma find_candidate_first (n t : string) (before : list pyval)
    (cd : list (string * pyval)) (after : list pyval) :
  Forall (fun x => is_dict x = true /\ candidate_matches n t x = false) before ->
  candidate_matches n t (PDict cd) = true ->
  find_candidate n t (before ++ PDict cd :: after)
  = Ok (Some (field cd "summoner_id" (PStr ""))).
Proof.
  intros Hbefore Hc. induction Hbefore as [|x before [Hd Hx] _ IH]; simpl.
  - unfold candidate_matches, field in Hc. apply andb_true_iff in Hc.
    destruct Hc as [Hg Ht]. rewrite Hg. simpl. rewrite Ht. reflexivity.
  - destruct x as [| | | | |l|d]; try discriminate. simpl.
    unfold candidate_matches, field in Hx.
    destruct (py_eq_str (strip n) _); simpl in Hx |- *; [|exact IH].
    rewrite Hx. exact IH.
Qed.

(** C3, as the code has it: the disambiguation step of the resolution loop
    (opgg.py:492-508) and the guard before it.  With the candidates of the
    page props at hand,
    (i) when there are several and the query is [name#tag], the step takes
        the identifier of the first candidate whose game name and tagline
        are exactly the query's name and tag (the query's two parts are
        trimmed of surrounding white space first);
    (ii) when there is exactly one candidate and the query has no tag, the
        step takes that candidate's identifier;
    (iii) when there are several and the query has no tag, the step fails
        with [AmbiguousResultError] and [self.summoner_id] is as before;
    but (iv) [search] never takes a query without tag to that step: it
        rejects the batch with the [MalformedQueryError] of the query before
        anything is fetched. *)
Theorem disambiguation_policy (d : list (string * pyval)) (candidates : list pyval)
    (summoner_name : string) (w : world) :
  dict_lookup "summoners" d = Some (PList candidates) ->
  (forall n t before cd after,
      (1 < List.length candidates)%nat ->
      split_on "#" summoner_name = [n; t] ->
      candidates = before ++ PDict cd :: after ->
      Forall (fun x => is_dict x = true /\ candidate_matches n t x = false) before ->
      candidate_matches n t (PDict cd) = true ->
      select_summoner_id (PDict d) summoner_name w
      = (Ok tt, with_summoner_id (field cd "summoner_id" (PStr "")) w))
  /\ (forall cd id,
        candidates = [PDict cd] ->
        has_char "#" summoner_name = false ->
        dict_lookup "summoner_id" cd = Some id ->
        select_summoner_id (PDict d) summoner_name w = (Ok tt, with_summoner_id id w))
  /\ ((1 < List.length candidates)%nat ->
      has_char "#" summoner_name = false ->
      select_summoner_id (PDict d) summoner_name w
      = (Raise (AmbiguousResultError summoner_name), w))
  /\ (has_char "#" summoner_name = false ->
      forall rest region,
        search (NamesList (summoner_name :: rest)) region w
        = (Raise (MalformedQueryError summoner_name), w)).
Proof.
  intros Hd. split; [|split; [|split]].
  - intros n t before cd after Hlen Hsplit -> Hbefore Hc.
    unfold select_summoner_id, bind, lift. simpl. rewrite Hd. simpl.
    apply Nat.ltb_lt in Hlen. rewrite Hlen.
    rewrite (split_in_two_has_char _ _ _ _ Hsplit), Hsplit. simpl.
    rewrite (find_candidate_first n t before cd after Hbefore Hc). reflexivity.
  - intros cd id -> Hno Hid.
    unfold select_summoner_id, bind, lift. simpl. rewrite Hd. simpl.
    rewrite Hid. reflexivity.
  - intros Hlen Hno.
    unfold select_summoner_id, bind, lift. simpl. rewrite Hd. simpl.
    apply Nat.ltb_lt in Hlen. rewrite Hlen, Hno. reflexivity.
  - intros Hno rest region. unfold search, bind. simpl. rewrite Hno. reflexivity.
Qed.

(** *** The resolution loop *)

Lemma resolve_names_app (page_props : pyval) (pre post : list string) :
  forall summoners w,
    resolve_names page_props (pre ++ post) summoners w
    = match resolve_names page_props pre summoners w with
      | (Ok summoners', w1) => resolve_names page_props post summoners' w1
      | (Raise e, w1) => (Raise e, w1)
      end.
Proof.
  induction pre as [|n pre IH]; intros summoners w; simpl; [reflexivity|].
  unfold bind.
  destruct (select_summoner_id page_props n w) as [[[]|e] w1]; [|reflexivity].
  destruct (get_summoner w1) as [[got|e] w2]; [|reflexivity].
  destruct (the_summoner got w2) as [[s|e] w3]; [|reflexivity].
  destruct (cacher_insert_summoner _ _ w3) as [[[]|e] w4]; [|reflexivity].
  apply IH.
Qed.

(** C4, as the code has it: the [AmbiguousResultError] of a name is not
    kept to that name: it is raised out of the resolution loop.  When the
    loop reaches a name without tag and the page props hold several
    candidates, the loop ends with the error there: no name after it is
    looked at and no list of results is returned.  Through [search] a batch
    with such a name fares no better: it has no result at all. *)
Theorem ambiguous_name_aborts_batch (page_props summoners_field : pyval) (k : nat)
    (pre : list string) (name : string) (post : list string) :
  py_get page_props "summoners" (PList []) = Ok summoners_field ->
  py_len summoners_field = Ok k ->
  (1 < k)%nat ->
  has_char "#" name = false ->
  (forall summoners w summoners' w1,
      resolve_names page_props pre summoners w = (Ok summoners', w1) ->
      resolve_names page_props (pre ++ name :: post) summoners w
      = (Raise (AmbiguousResultError name), w1))
  /\ (forall region w r w',
        search (NamesList (pre ++ name :: post)) region w = (r, w') ->
        exists e, r = Raise e).
Proof.
  intros Hget Hlen Hk Hno. split.
  - intros summoners w summoners' w1 Hpre.
    rewrite resolve_names_app, Hpre. simpl.
    unfold bind at 1. unfold select_summoner_id, bind, lift. rewrite Hget, Hlen.
    apply Nat.ltb_lt in Hk. rewrite Hk, Hno. reflexivity.
  - intros region w r w' E. unfold search in E. simpl in E.
    apply bind_run in E. destruct E as [(parts & w1 & Ep & _)|(e & _ & ->)].
    + apply partition_names_ok in Ep. destruct Ep as [Hall _].
      rewrite Forall_app in Hall. destruct Hall as [_ Hall].
      inversion Hall as [|? ? Hname _]; subst. congruence.
    + exists e. reflexivity.
Qed.

(** *** The order of the results *)

Lemma resolve_names_in_order (page_props : pyval) (names : list string) :
  forall summoners w l w',
    resolve_names page_props names summoners w = (Ok l, w') ->
    exists results,
      l = summoners ++ results /\ resolved_in_order page_props names results w w'.
Proof.
  induction names as [|n names IH]; intros summoners w l w' E; simpl in E.
  - inversion E; subst. exists []. rewrite app_nil_r. split; [reflexivity | constructor].
  - apply bind_run in E. destruct E as [([] & w1 & Es & E)|(e & _ & He)]; [|discriminate].
    apply bind_run in E. destruct E as [(got & w2 & Eg & E)|(e & _ & He)]; [|discriminate].
    destruct got as [s|c]; simpl in E; [|unfold bind, raise in E; discriminate].
    unfold bind at 1 in E. simpl in E.
    apply bind_run in E. destruct E as [([] & w3 & Ei & E)|(e & _ & He)]; [|discriminate].
    apply IH in E. destruct E as (results & -> & Hres).
    exists (s :: results). rewrite <- app_assoc. split; [reflexivity|].
    econstructor; eassumption.
Qed.



Lemma resolve_cached_by_id (ids : list string) :
  forall summoners w l w',
    resolve_cached ids summoners w = (Ok l, w') ->
    exists results,
      l = summoners ++ results
      /\ Forall2 (fun id s => exists history,
                     summary_api history (_region (self w)) (PStr id) = Built s)
           ids results.
Proof.
  induction ids as [|i ids IH]; intros summoners w l w' E; simpl in E.
  - inversion E; subst. exists []. rewrite app_nil_r. split; [reflexivity | constructor].
  - unfold bind at 1 in E. simpl in E.
    apply bind_run in E. destruct E as [(got & w2 & Eg & E)|(e & _ & He)]; [|discriminate].
    destruct got as [s|c]; simpl in E; [|unfold bind, raise in E; discriminate].
    unfold bind at 1 in E. simpl in E.
    unfold get_summoner in Eg. simpl in Eg.
    destruct (summary_api (trace w) (_region (self w)) (PStr i)) as [s'| |] eqn:Eapi;
      inversion Eg; subst; clear Eg.
    apply IH in E. destruct E as (results & -> & Hres). simpl in Hres.
    exists (s :: results). rewrite <- app_assoc. split; [reflexivity|].
    constructor; [exists (trace w); exact Eapi | exact Hres].
Qed.

Lemma search_result_to_list (names : list string) (summoners : list Summoner.t) r :
  search_result names summoners = Ok r -> to_list r = summoners.
Proof.
  destruct summoners as [|s [|s' l]]; simpl; intros E; inversion E; reflexivity.
Qed.

(** The raise of opgg.py:524-525 is out of reach of a batch that is not
    empty: once the two loops have run, there is a result. *)
Lemma nonempty_batch_has_results (page_props : pyval) (name : string)
    (names ids : list string) (w : world) l w' l' w'' :
  resolve_names page_props (name :: names) [] w = (Ok l, w') ->
  resolve_cached ids l w' = (Ok l', w'') ->
  exists r, search_result (name :: names) l' = Ok r.
Proof.
  intros En Ec.
  destruct (resolve_names_in_order _ _ _ _ _ _ En) as (res1 & -> & Hord).
  destruct (resolve_cached_by_id _ _ _ _ _ Ec) as (res2 & -> & _).
  inversion Hord; subst. simpl.
  destruct (results ++ res2); eexists; reflexivity.
Qed.


(** *** [get_all_champions] on fetched data *)

Lemma py_iter_raises (v : pyval) (e : exn) : py_iter v = Raise e -> e = TypeError.
Proof. destruct v; simpl; intros E; inversion E; reflexivity. Qed.

Lemma map_result_raises {A B} (f : A -> result B) (x : A) (l : list A) (e : exn) :
  f x = Raise e -> map_result f (x :: l) = Raise e.
Proof. intros E. simpl. rewrite E. reflexivity. Qed.

Lemma build_champion_raises (champion : pyval) : exists e, build_champion champion = Raise e.
Proof.
  unfold build_champion.
  repeat match goal with
         | |- exists e, rbind ?x _ = Raise e =>
             destruct x; simpl; [| eexists; reflexivity]
         end.
  exists TypeError. reflexivity.
Qed.

Lemma py_str_in_raises (x : string) (v : pyval) (e : exn) :
  py_str_in x v = Raise e -> e = TypeError.
Proof. destruct v; simpl; intros E; inversion E; reflexivity. Qed.

Lemma build_price_dict (price : pyval) :
  is_dict price = true ->
  (exists x, build_price price = Ok x) \/ build_price price = Raise TypeError.
Proof.
  destruct price as [| | | | |l|d]; try discriminate. intros _.
  unfold build_price. simpl.
  destruct (py_str_in "RP" _) as [is_rp|e] eqn:Ein; simpl.
  - left. destruct is_rp; simpl; eexists; reflexivity.
  - right. rewrite (py_str_in_raises _ _ _ Ein). reflexivity.
Qed.

Lemma build_prices_dicts (prices : list pyval) :
  forallb is_dict prices = true ->
  (exists l, map_result build_price prices = Ok l)
  \/ map_result build_price prices = Raise TypeError.
Proof.
  induction prices as [|p prices IH]; simpl; intros Hd.
  - left. eexists. reflexivity.
  - apply andb_true_iff in Hd. destruct Hd as [Hp Hd].
    destruct (build_price_dict p Hp) as [[x ->]| ->]; simpl; [|right; reflexivity].
    destruct (IH Hd) as [[l ->]| ->]; simpl.
    + left. eexists. reflexivity.
    + right. reflexivity.
Qed.

Lemma build_skin_well_shaped (skin : pyval) :
  skin_well_shaped skin = true -> build_skin skin = Raise TypeError.
Proof.
  destruct skin as [| | | | |l|d]; try discriminate.
  unfold skin_well_shaped, field. intros Hs.
  apply andb_true_iff in Hs. destruct Hs as [Hprices Hdate].
  unfold build_skin. simpl.
  destruct (py_iter _) as [prices|e] eqn:Eit; simpl.
  - destruct (build_prices_dicts prices Hprices) as [[l ->]| ->]; [|reflexivity]. simpl.
    destruct (dict_lookup "release_date" d) as [[| | | |date| |]|]; simpl; try reflexivity.
    + destruct b; reflexivity.
    + destruct (Z.eqb n 0); reflexivity.
    + destruct (Qeq_bool q 0); reflexivity.
    + destruct (String.eqb date "") eqn:Ed; simpl in Hdate |- *; [reflexivity|].
      rewrite Hdate. reflexivity.
    + destruct l0; reflexivity.
    + destruct d0; reflexivity.
  - rewrite (py_iter_raises _ _ Eit). reflexivity.
Qed.

Lemma build_spell_dict (spell : pyval) :
  is_dict spell = true -> build_spell spell = Raise TypeError.
Proof. destruct spell; try discriminate. reflexivity. Qed.

Lemma build_champion_well_shaped (champion : pyval) :
  champion_well_shaped champion = true -> build_champion champion = Raise TypeError.
Proof.
  destruct champion as [| | | | |l|d]; try discriminate.
  unfold champion_well_shaped, field. intros Hc.
  apply andb_true_iff in Hc. destruct Hc as [Hc Hpassive].
  apply andb_true_iff in Hc. destruct Hc as [Hskins Hspells].
  unfold build_champion. simpl.
  destruct (py_iter (match dict_lookup "skins" d with Some x => x | None => PList [] end))
    as [skins|e] eqn:Eskins; simpl; [|rewrite (py_iter_raises _ _ Eskins); reflexivity].
  destruct skins as [|skin skins].
  - simpl.
    destruct (py_iter (match dict_lookup "spells" d with Some x => x | None => PList [] end))
      as [spells|e] eqn:Espells; simpl; [|rewrite (py_iter_raises _ _ Espells); reflexivity].
    destruct spells as [|spell spells].
    + simpl. unfold build_passive. simpl.
      destruct (match dict_lookup "passive" d with Some x => x | None => PDict [] end);
        try discriminate.
      reflexivity.
    + simpl in Hspells. apply andb_true_iff in Hspells. destruct Hspells as [Hspell _].
      rewrite (map_result_raises _ _ _ _ (build_spell_dict spell Hspell)). reflexivity.
  - simpl in Hskins. apply andb_true_iff in Hskins. destruct Hskins as [Hskin _].
    rewrite (map_result_raises _ _ _ _ (build_skin_well_shaped skin Hskin)). reflexivity.
Qed.

Lemma champions_of_ok (raw : list pyval) (l : list Champion.t) :
  champions_of raw = Ok l -> raw = [] /\ l = [].
Proof.
  destruct raw as [|c rest]; simpl; intros E.
  - inversion E. split; reflexivity.
  - unfold champions_of in E. simpl in E.
    destruct (build_champion_raises c) as [e He]. rewrite He in E. discriminate.
Qed.

(** C9, as the code has it: [get_all_champions] never returns champions it
    has fetched: on a payload that is not empty the loop raises at the
    first raw champion, and a list the function returns is empty or is the
    cached catalog.  The exception is the [TypeError] of the keyword
    arguments that the constructors do not take whenever that first raw
    champion is well shaped; an ill-shaped one (its passive is [null], say)
    raises earlier, and something else. *)
Theorem fetched_champions_never_returned :
  (forall champion rest, exists e, champions_of (champion :: rest) = Raise e)
  /\ (forall champion rest,
        champion_well_shaped champion = true ->
        champions_of (champion :: rest) = Raise TypeError)
  /\ (forall page_props w l w',
        get_all_champions page_props w = (Ok l, w') ->
        l = [] \/ l = Cacher.champions (db w))
  /\ (forall page_props by_id champion rest w,
        truthy page_props = true ->
        py_getitem page_props "championsById" = Ok by_id ->
        py_dict_values by_id = Ok (champion :: rest) ->
        exists e, get_all_champions page_props w = (Raise e, w)
                  /\ (champion_well_shaped champion = true -> e = TypeError))
  /\ (forall page_props body data champion rest w,
        truthy page_props = false ->
        Cacher.champions (db w) = [] ->
        meta_champions (trace w ++ [CacheGetAllChamps]) = MetaBody body ->
        py_getitem body "data" = Ok data ->
        py_iter data = Ok (champion :: rest) ->
        exists e, get_all_champions page_props w
                  = (Raise e, log NetMetaChampions (log CacheGetAllChamps w))
                  /\ (champion_well_shaped champion = true -> e = TypeError)).
Proof.
  split; [|split; [|split; [|split]]].
  - intros champion rest. unfold champions_of. simpl.
    destruct (build_champion_raises champion) as [e ->]. exists e. reflexivity.
  - intros champion rest Hc. unfold champions_of.
    apply map_result_raises, build_champion_well_shaped, Hc.
  - intros page_props w l w' E. unfold get_all_champions in E.
    destruct (truthy page_props); simpl in E.
    + unfold lift in E. inversion E as [[El Ew]]. left.
      destruct (py_getitem page_props "championsById"); simpl in El; [|discriminate].
      destruct (py_dict_values a); simpl in El; [|discriminate].
      apply champions_of_ok in El. tauto.
    + unfold bind at 1, cacher_get_all_champs in E. simpl in E.
      unfold Cacher.get_all_champs in E.
      destruct (Cacher.champions (db w)) as [|c cs]; simpl in E.
      * left. apply bind_run in E. destruct E as [(raw & w1 & _ & E)|(e & _ & He)];
          [|discriminate].
        unfold lift in E. inversion E as [[El Ew]]. apply champions_of_ok in El. tauto.
      * right. inversion E. reflexivity.
  - intros page_props by_id champion rest w Ht Hget Hvalues.
    unfold get_all_champions, lift. rewrite Ht, Hget. simpl. rewrite Hvalues. simpl.
    unfold champions_of. simpl.
    destruct (build_champion champion) as [c|e] eqn:Eb.
    + destruct (build_champion_raises champion) as [e He]. congruence.
    + exists e. split; [reflexivity|]. intros Hc.
      rewrite (build_champion_well_shaped _ Hc) in Eb. congruence.
  - intros page_props body data champion rest w Ht Hcache Hmeta Hdata Hiter.
    unfold get_all_champions. rewrite Ht. simpl.
    unfold bind at 1, cacher_get_all_champs, Cacher.get_all_champs.
    rewrite Hcache. simpl.
    unfold bind, fetch_meta_champions, lift. simpl. rewrite Hmeta, Hdata. simpl.
    rewrite Hiter. unfold champions_of. simpl.
    destruct (build_champion champion) as [c|e] eqn:Eb.
    + destruct (build_champion_raises champion) as [e He]. congruence.
    + exists e. split; [reflexivity|]. intros Hc.
      rewrite (build_champion_well_shaped _ Hc) in Eb. congruence.
Qed.

(** *** The shape of what the getters return *)

Lemma return_shape_cases {A} (result_set : list A) :
  ((2 <= List.length result_set)%nat -> return_shape result_set = Ok (TheList result_set))
  /\ (forall x, result_set = [x] -> return_shape result_set = Ok (TheObject x))
  /\ (result_set = [] -> return_shape result_set = Raise IndexError).
Proof.
  unfold return_shape. split; [|split].
  - intros Hlen. apply Nat.ltb_lt in Hlen. rewrite Hlen. reflexivity.
  - intros x ->. reflexivity.
  - intros ->. reflexivity.
Qed.

Lemma select_by_id_int {A} (f : A -> pyval) (n : Z) (l : list A) :
  select_by f true (One (SInt n)) l = Ok (List.filter (fun x => py_eq_int n (f x)) l).
Proof.
  unfold select_by. induction l as [|x l IH]; simpl in *; [reflexivity|].
  rewrite IH. reflexivity.
Qed.

(** C10: what [get_champion_by] and [get_season_by] return depends on how
    many matches their loops collect: with two or more the list of them,
    with exactly one the object itself and not a list, with none the
    [IndexError] of [result_set[0]].  For a query by one integer identifier
    the matches are the items of the catalog with that identifier, in
    catalog order. *)
Theorem return_shape_by_match_count :
  (forall by_ value kw w all_champs w1 result_set,
      all_champs_for kw w = (Ok all_champs, w1) ->
      champion_result_set by_ value kw all_champs = Ok result_set ->
      ((2 <= List.length result_set)%nat ->
       get_champion_by by_ value kw w = (Ok (TheList result_set), w1))
      /\ (forall x, result_set = [x] ->
                    get_champion_by by_ value kw w = (Ok (TheObject x), w1))
      /\ (result_set = [] -> get_champion_by by_ value kw w = (Raise IndexError, w1)))
  /\ (forall by_ value w all_seasons w1 result_set,
        get_all_seasons PNone w = (Ok all_seasons, w1) ->
        season_result_set by_ value all_seasons = Ok result_set ->
        ((2 <= List.length result_set)%nat ->
         get_season_by by_ value w = (Ok (TheList result_set), w1))
        /\ (forall x, result_set = [x] ->
                      get_season_by by_ value w = (Ok (TheObject x), w1))
        /\ (result_set = [] -> get_season_by by_ value w = (Raise IndexError, w1)))
  /\ (forall n kw all_champs,
        champion_result_set ID (One (SInt n)) kw all_champs
        = Ok (List.filter (fun c => py_eq_int n (Champion.id c)) all_champs))
  /\ (forall n all_seasons,
        season_result_set ID (One (SInt n)) all_seasons
        = Ok (List.filter (fun s => py_eq_int n (SeasonInfo.id s)) all_seasons)).
Proof.
  split; [|split; [|split]].
  - intros by_ value kw w all_champs w1 result_set Hall Hset.
    unfold get_champion_by, bind, lift. rewrite Hall, Hset.
    destruct (return_shape_cases result_set) as (Hmany & Hone & Hnone).
    split; [|split].
    + intros Hlen. rewrite (Hmany Hlen). reflexivity.
    + intros x Hx. rewrite (Hone x Hx). reflexivity.
    + intros Hx. rewrite (Hnone Hx). reflexivity.
  - intros by_ value w all_seasons w1 result_set Hall Hset.
    unfold get_season_by, bind, lift. rewrite Hall, Hset.
    destruct (return_shape_cases result_set) as (Hmany & Hone & Hnone).
    split; [|split].
    + intros Hlen. rewrite (Hmany Hlen). reflexivity.
    + intros x Hx. rewrite (Hone x Hx). reflexivity.
    + intros Hx. rewrite (Hnone Hx). reflexivity.
  - intros n kw all_champs. apply select_by_id_int.
  - intros n all_seasons. apply select_by_id_int.
Qed.

(** ** Further properties of the code *)

(** *** A string of names and the list of them *)

Lemma has_char_app (c : ascii) (a b : string) :
  has_char c (a ++ b) = has_char c a || has_char c b.
Proof.
  induction a as [|x a IH]; simpl; [reflexivity|].
  rewrite IH. apply orb_assoc.
Qed.

Lemma split_on_app (c : ascii) (a rest : string) :
  has_char c a = false ->
  split_on c (a ++ String c rest) = a :: split_on c rest.
Proof.
  induction a as [|x a IH]; simpl; intros Ha.
  - rewrite Ascii.eqb_refl. reflexivity.
  - apply orb_false_iff in Ha. destruct Ha as [Hx Ha].
    rewrite Hx, (IH Ha). reflexivity.
Qed.

Lemma split_on_cons (c : ascii) (s : string) : exists h t, split_on c s = h :: t.
Proof.
  induction s as [|a s [h [t IH]]]; simpl.
  - eexists _, _. reflexivity.
  - destruct (Ascii.eqb a c); [eexists _, _; reflexivity|].
    rewrite IH. eexists _, _. reflexivity.
Qed.

Lemma join_cons_cons (x y : string) (l : list string) :
  join "," (x :: y :: l) = (x ++ String "," (join "," (y :: l)))%string.
Proof. reflexivity. Qed.

Lemma join_String (a : ascii) (h : string) (t : list string) :
  join "," (String a h :: t) = String a (join "," (h :: t)).
Proof. destruct t; reflexivity. Qed.

Lemma join_split_on (s : string) : join "," (split_on "," s) = s.
Proof.
  induction s as [|a s IH]; simpl; [reflexivity|].
  destruct (Ascii.eqb a ",") eqn:Ea.
  - apply Ascii.eqb_eq in Ea. subst a.
    destruct (split_on_cons "," s) as [h [t Hs]]. rewrite Hs in IH |- *.
    rewrite join_cons_cons, IH. reflexivity.
  - destruct (split_on_cons "," s) as [h [t Hs]]. rewrite Hs in IH |- *.
    rewrite join_String, IH. reflexivity.
Qed.

Lemma split_on_join (names : list string) :
  names <> [] ->
  Forall (fun n => has_char "," n = false) names ->
  split_on "," (join "," names) = names.
Proof.
  induction names as [|x names IH]; intros Hne Hall; [contradiction|].
  inversion Hall as [|? ? Hx Hrest]; subst.
  destruct names as [|y names].
  - apply split_on_no_char, Hx.
  - rewrite join_cons_cons, (split_on_app _ _ _ Hx), IH; [reflexivity | discriminate | exact Hrest].
Qed.

(** X1: a string argument of [search] is the batch of its comma-separated
    pieces, as they are (nothing is trimmed), and joining the pieces gives
    the string back; so [search] on the names joined with commas does what
    [search] on the list of names does, as long as the list is not empty
    and no name has a comma. *)
Theorem comma_string_is_batch :
  (forall s, normalize (NamesStr s) = split_on "," s
             /\ join "," (normalize (NamesStr s)) = s)
  /\ (forall names region w,
        names <> [] ->
        Forall (fun n => has_char "," n = false) names ->
        search (NamesStr (join "," names)) region w = search (NamesList names) region w).
Proof.
  assert (Hnorm : forall s, normalize (NamesStr s) = split_on "," s).
  { intros s. simpl. destruct (has_char "," s) eqn:Hs; [reflexivity|].
    symmetry. apply split_on_no_char, Hs. }
  split.
  - intros s. split; [apply Hnorm|]. rewrite Hnorm. apply join_split_on.
  - intros names region w Hne Hall. unfold search.
    rewrite Hnorm, (split_on_join names Hne Hall). reflexivity.
Qed.

(** *** The disambiguation step, when no candidate fits *)

Lemma find_candidate_none (n t : string) (candidates : list pyval) :
  Forall (fun x => is_dict x = true /\ candidate_matches n t x = false) candidates ->
  find_candidate n t candidates = Ok None.
Proof.
  induction 1 as [|x candidates [Hd Hx] _ IH]; simpl; [reflexivity|].
  destruct x as [| | | | |l|d]; try discriminate. simpl.
  unfold candidate_matches, field in Hx.
  destruct (py_eq_str (strip n) _); simpl in Hx |- *; [|exact IH].
  rewrite Hx. exact IH.
Qed.

Lemma get_summoner_logs (w : world) r w' :
  get_summoner w = (r, w') ->
  w' = log (NetSummoner (_region (self w)) (_summoner_id (self w))) w.
Proof.
  unfold get_summoner. destruct (summary_api _ _ _); intros E; inversion E; reflexivity.
Qed.

(** X2: a query [name#tag] that fits none of several candidates is not
    reported: the disambiguation step succeeds and leaves
    [self.summoner_id] as it was, so that the summary then requested for
    the query is that of the identifier the object held before. *)
Theorem unmatched_query_keeps_identifier (d : list (string * pyval))
    (candidates : list pyval) (summoner_name n t : string) (w : world) :
  dict_lookup "summoners" d = Some (PList candidates) ->
  (1 < List.length candidates)%nat ->
  split_on "#" summoner_name = [n; t] ->
  Forall (fun x => is_dict x = true /\ candidate_matches n t x = false) candidates ->
  select_summoner_id (PDict d) summoner_name w = (Ok tt, w)
  /\ forall rest summoners r w',
      resolve_names (PDict d) (summoner_name :: rest) summoners w = (r, w') ->
      exists later,
        trace w' = trace w ++ NetSummoner (_region (self w)) (_summoner_id (self w)) :: later.
Proof.
  intros Hd Hlen Hsplit Hnone.
  assert (Hstep : select_summoner_id (PDict d) summoner_name w = (Ok tt, w)).
  { unfold select_summoner_id, bind, lift. simpl. rewrite Hd. simpl.
    apply Nat.ltb_lt in Hlen. rewrite Hlen.
    rewrite (split_in_two_has_char _ _ _ _ Hsplit), Hsplit. simpl.
    rewrite (find_candidate_none n t candidates Hnone). reflexivity. }
  split; [exact Hstep|].
  intros rest summoners r w' E. simpl in E. unfold bind at 1 in E. rewrite Hstep in E.
  apply bind_run in E. destruct E as [(got & w1 & Eg & E)|(e & Eg & _)].
  - apply get_summoner_logs in Eg. subst w1.
    assert (Hk : keeps (appends (fun _ => True))
                   (summoner <- the_summoner got ;;
                    cacher_insert_summoner (Summoner.name summoner)
                      (Summoner.summoner_id summoner) ;;
                    resolve_names (PDict d) rest (summoners ++ [summoner]))).
    { pose proof (resolve_names_appends (fun _ => True)) as Hrest.
      appended_by ltac:(exact I). all: intros; exact I. }
    destruct (Hk _ _ _ E) as [later [Ht _]]. exists later.
    rewrite Ht. unfold log. simpl. rewrite <- app_assoc. reflexivity.
  - apply get_summoner_logs in Eg. subst w'. exists []. reflexivity.
Qed.

(** X3: a sole candidate is taken for any query: with exactly one
    candidate in the page props the step does not compare the query with
    it, so a query [name#tag] gets the identifier of a candidate with
    another name or tag.  The candidate must have the key ["summoner_id"]:
    without it the step raises [KeyError] (the step over several candidates
    reads it with the default [""]). *)
Theorem sole_candidate_taken_for_any_query (d cd : list (string * pyval))
    (summoner_name : string) (w : world) :
  dict_lookup "summoners" d = Some (PList [PDict cd]) ->
  (forall id, dict_lookup "summoner_id" cd = Some id ->
     select_summoner_id (PDict d) summoner_name w = (Ok tt, with_summoner_id id w)
     /\ forall rest summoners r w',
         resolve_names (PDict d) (summoner_name :: rest) summoners w = (r, w') ->
         exists later,
           trace w' = trace w ++ NetSummoner (_region (self w)) id :: later)
  /\ (dict_lookup "summoner_id" cd = None ->
      select_summoner_id (PDict d) summoner_name w = (Raise KeyError, w)).
Proof.
  intros Hd. split.
  - intros id Hid.
    assert (Hstep : select_summoner_id (PDict d) summoner_name w
                    = (Ok tt, with_summoner_id id w)).
    { unfold select_summoner_id, bind, lift. simpl. rewrite Hd. simpl.
      rewrite Hid. reflexivity. }
    split; [exact Hstep|].
    intros rest summoners r w' E. simpl in E. unfold bind at 1 in E. rewrite Hstep in E.
    apply bind_run in E. destruct E as [(got & w1 & Eg & E)|(e & Eg & _)].
    + apply get_summoner_logs in Eg. subst w1.
      assert (Hk : keeps (appends (fun _ => True))
                     (summoner <- the_summoner got ;;
                      cacher_insert_summoner (Summoner.name summoner)
                        (Summoner.summoner_id summoner) ;;
                      resolve_names (PDict d) rest (summoners ++ [summoner]))).
      { pose proof (resolve_names_appends (fun _ => True)) as Hrest.
        appended_by ltac:(exact I). all: intros; exact I. }
      destruct (Hk _ _ _ E) as [later [Ht _]]. exists later.
      rewrite Ht. unfold log. simpl. rewrite <- app_assoc. reflexivity.
    + apply get_summoner_logs in Eg. subst w'. exists []. reflexivity.
  - intros Hid. unfold select_summoner_id, bind, lift. simpl. rewrite Hd. simpl.
    rewrite Hid. reflexivity.
Qed.

Lemma split_on_length_app (c : ascii) (a b : string) :
  (List.length (split_on c b) <= List.length (split_on c (a ++ b)))%nat.
Proof.
  induction a as [|x a IH]; simpl; [apply Nat.le_refl|].
  destruct (Ascii.eqb x c); simpl; [lia|].
  destruct (split_on c (a ++ b)); simpl in *; lia.
Qed.

Lemma split_on_two_separators (c : ascii) (a b rest : string) :
  (3 <= List.length (split_on c (a ++ String c (b ++ String c rest))))%nat.
Proof.
  pose proof (split_on_length_app c a (String c (b ++ String c rest))) as H1.
  pose proof (split_on_length_app c b (String c rest)) as H2.
  simpl in H1, H2. rewrite Ascii.eqb_refl in H1, H2. simpl in H1, H2.
  destruct (split_on_cons c rest) as [h [t Hr]]. rewrite Hr in H2. simpl in H2. lia.
Qed.

(** X4: a query with two ['#'] or more passes the guard of [search], but
    with several candidates in the page props the unpacking of
    [summoner_name.split("#")] into two names raises [ValueError]: the step
    fails for it, the loop ends there and the batch has no result. *)
Theorem second_separator_fails_batch (d : list (string * pyval)) (candidates : list pyval)
    (a b c summoner_name : string) (w : world) :
  dict_lookup "summoners" d = Some (PList candidates) ->
  (1 < List.length candidates)%nat ->
  summoner_name = (a ++ "#" ++ b ++ "#" ++ c)%string ->
  has_char "#" summoner_name = true
  /\ select_summoner_id (PDict d) summoner_name w = (Raise ValueError, w)
  /\ (forall rest summoners,
        resolve_names (PDict d) (summoner_name :: rest) summoners w
        = (Raise ValueError, w))
  /\ (forall pre rest region w0 r w',
        (forall history query, multisearch history region query = PageProps (PDict d)) ->
        search (NamesList (pre ++ summoner_name :: rest)) region w0 = (r, w') ->
        exists e, r = Raise e).
Proof.
  intros Hd Hlen ->.
  assert (Hhas : has_char "#" (a ++ "#" ++ b ++ "#" ++ c) = true).
  { rewrite has_char_app. simpl. apply orb_true_r. }
  assert (Hstep : forall w, select_summoner_id (PDict d) (a ++ "#" ++ b ++ "#" ++ c) w
                            = (Raise ValueError, w)).
  { intros w1. unfold select_summoner_id, bind, lift. simpl. rewrite Hd. simpl.
    apply Nat.ltb_lt in Hlen. rewrite Hlen, Hhas. simpl.
    assert (H3 : (3 <= List.length (split_on "#" (a ++ "#" ++ b ++ "#" ++ c)))%nat)
      by exact (split_on_two_separators "#" a b c).
    destruct (split_on "#" (a ++ "#" ++ b ++ "#" ++ c)) as [|x [|y [|z l]]];
      simpl in H3; try lia; reflexivity. }
  split; [exact Hhas|]. split; [apply Hstep|]. split.
  - intros rest summoners. simpl. unfold bind at 1. rewrite Hstep. reflexivity.
  - intros pre rest region w0 r w' Hpage E. unfold search in E. simpl in E.
    apply bind_run in E. destruct E as [(parts & w1 & _ & E)|(e & _ & ->)]; [|eauto].
    apply bind_run in E. destruct E as [(pp & w2 & Eg & E)|(e & _ & ->)]; [|eauto].
    assert (pp = PDict d) as ->.
    { unfold get_page_props in Eg. rewrite Hpage in Eg. inversion Eg. reflexivity. }
    apply bind_run in E. destruct E as [([] & w3 & _ & E)|(e & _ & ->)]; [|eauto].
    unfold bind at 1 in E. simpl in E.
    apply bind_run in E. destruct E as [(l & w4 & En & _)|(e & _ & ->)]; [|eauto].
    rewrite resolve_names_app in En.
    destruct (resolve_names (PDict d) pre [] _) as [[l0|e0] w5]; [|discriminate].
    simpl in En. unfold bind at 1 in En. rewrite Hstep in En. discriminate.
Qed.

(** *** The seasons of the page props *)

Lemma seasons_of_readable (raw : list pyval) :
  forallb season_readable raw = true ->
  forall seasons, seasons_of raw seasons = Ok (seasons ++ season_entries raw).
Proof.
  induction raw as [|season raw IH]; simpl; intros Hraw seasons.
  - rewrite app_nil_r. reflexivity.
  - apply andb_true_iff in Hraw. destruct Hraw as [Hs Hraw].
    destruct season as [| | | | | |[|kv d]];
      try (unfold season_readable in Hs; simpl in Hs; apply negb_true_iff in Hs;
           simpl; rewrite ?Hs; apply IH; assumption);
      try (simpl; apply IH; assumption).
    change (truthy (PDict (kv :: d))) with true. cbv iota.
    change (build_season (PDict (kv :: d))) with (Ok (season_info (kv :: d))).
    unfold rbind. rewrite IH by assumption. rewrite <- app_assoc. reflexivity.
Qed.

Lemma seasons_of_unreadable (pre : list pyval) (bad : pyval) (post : list pyval) :
  forallb season_readable pre = true ->
  season_readable bad = false ->
  forall seasons, seasons_of (pre ++ bad :: post) seasons = Raise AttributeError.
Proof.
  intros Hpre Hbad. induction pre as [|season pre IH]; simpl; intros seasons.
  - unfold season_readable in Hbad. apply orb_false_iff in Hbad. destruct Hbad as [Hd Ht].
    apply negb_false_iff in Ht. rewrite Ht.
    destruct bad; try discriminate; reflexivity.
  - simpl in Hpre. apply andb_true_iff in Hpre. destruct Hpre as [Hs Hpre].
    destruct season as [| | | | | |[|kv d]];
      try (unfold season_readable in Hs; simpl in Hs; apply negb_true_iff in Hs;
           simpl; rewrite ?Hs; apply IH; assumption);
      simpl; apply IH; assumption.
Qed.

(** X5: without cached seasons, [get_all_seasons(page_props)] lists the
    seasons of [page_props["seasonsById"]] in the order of the dict, one
    [SeasonInfo] for each value that is a non-empty dict; a key the value
    lacks gives the attribute [None], and the values [None], [{}] and the
    like are skipped.  It asks the cache once and the network never.  A
    value that is neither a dict nor falsy makes the call fail with
    [AttributeError]. *)
Theorem seasons_listed_from_page_props (pd by_id : list (string * pyval)) (w : world) :
  Cacher.seasons (db w) = [] ->
  dict_lookup "seasonsById" pd = Some (PDict by_id) ->
  (forallb season_readable (map snd by_id) = true ->
   get_all_seasons (PDict pd) w
   = (Ok (season_entries (map snd by_id)), log CacheGetAllSeasons w))
  /\ (forallb season_readable (map snd by_id) = false ->
      get_all_seasons (PDict pd) w = (Raise AttributeError, log CacheGetAllSeasons w)).
Proof.
  intros Hnone Hby.
  assert (Hrun : get_all_seasons (PDict pd) w
                 = (seasons_of (map snd by_id) [], log CacheGetAllSeasons w)).
  { unfold get_all_seasons, bind, cacher_get_all_seasons, Cacher.get_all_seasons.
    rewrite Hnone. simpl. unfold lift. simpl. rewrite Hby. reflexivity. }
  rewrite Hrun. split; intros Hraw.
  - rewrite (seasons_of_readable _ Hraw). reflexivity.
  - assert (Hsplit : exists pre bad post,
               map snd by_id = pre ++ bad :: post
               /\ forallb season_readable pre = true /\ season_readable bad = false).
    { clear Hrun Hby. induction (map snd by_id) as [|x l IH]; simpl in Hraw; [discriminate|].
      destruct (season_readable x) eqn:Hx.
      - destruct (IH Hraw) as (pre & bad & post & -> & Hpre & Hbad).
        exists (x :: pre), bad, post. simpl. rewrite Hx. auto.
      - exists [], x, l. auto. }
    destruct Hsplit as (pre & bad & post & -> & Hpre & Hbad).
    rewrite (seasons_of_unreadable _ _ _ Hpre Hbad). reflexivity.
Qed.

(** *** A page that cannot be decoded *)

(** X6: when the multisearch page cannot be decoded, [get_page_props]
    returns the empty dict, and a batch resolution over a store without
    seasons then fails with the [KeyError] of [page_props["seasonsById"]]:
    after the lookups of the names and the page request it has asked the
    cache for the two catalogs and for the seasons once more, and it has
    requested no summoner and changed neither the store nor the object. *)
Theorem undecodable_page_fails_batch (names : list string) (region : Region) (w : world) :
  Forall (fun n => has_char "#" n = true) names ->
  (forall history query, multisearch history region query = PageJSONDecodeError) ->
  Cacher.seasons (db w) = [] ->
  search (NamesList names) region w
  = (Raise KeyError,
     mkWorld (self w) (db w) (clock w)
       (trace w ++ map CacheGetSummonerId names
        ++ [NetPageProps (NamesList (cache_misses (db w) names)) region;
            CacheGetAllSeasons; CacheGetAllChamps; CacheGetAllSeasons])).
Proof.
  intros Hall Hpage Hnone. unfold search. simpl.
  destruct (partition_names_tagged names Hall [] [] w) as (parts & w1 & Ep).
  destruct (partition_names_ok _ _ _ _ _ _ Ep) as [_ [-> ->]].
  unfold bind at 1. rewrite Ep. simpl.
  unfold bind at 1. unfold get_page_props. rewrite Hpage. simpl.
  unfold load_catalogs, load_seasons, get_all_seasons, bind, cacher_get_all_seasons,
    cacher_get_all_champs, Cacher.get_all_seasons, log. simpl.
  repeat (rewrite Hnone; simpl). unfold lift. rewrite <- !app_assoc. reflexivity.
Qed.

(** *** Lookups that never return *)

Lemma matching_prices_of_int (kw : kwargs) (n : Z) (prices : list Price.t) (k : nat) :
  matching_prices kw (One (SInt n)) prices = Ok k -> k = 0%nat.
Proof.
  revert k. induction prices as [|price rest IH]; simpl; intros k E.
  - inversion E. reflexivity.
  - destruct (py_eq_str (currency kw) (Price.currency price)); simpl in E; [discriminate|].
    destruct (matching_prices kw (One (SInt n)) rest) as [m|]; simpl in E; [|discriminate].
    inversion E; subst. apply IH. reflexivity.
Qed.

Lemma select_by_cost_cons (kw : kwargs) (value : query) (champ : Champion.t)
    (rest : list Champion.t) :
  select_by_cost kw value (champ :: rest)
  = match Champion.skins champ with
    | [] => Raise IndexError
    | skin :: _ =>
        rbind (match Skin.prices skin with
               | Some (p :: ps) => matching_prices kw value (p :: ps)
               | _ => Ok 0%nat
               end) (fun n =>
        rbind (select_by_cost kw value rest) (fun rs =>
        Ok (repeat champ n ++ rs)))
    end.
Proof. reflexivity. Qed.

Lemma select_by_cost_of_int (kw : kwargs) (n : Z) (all_champs rs : list Champion.t) :
  select_by_cost kw (One (SInt n)) all_champs = Ok rs -> rs = [].
Proof.
  revert rs. induction all_champs as [|champ rest IH]; intros rs E.
  - inversion E. reflexivity.
  - rewrite select_by_cost_cons in E.
    destruct (Champion.skins champ) as [|skin skins]; [discriminate|].
    destruct (match Skin.prices skin with
              | Some (p :: ps) => matching_prices kw (One (SInt n)) (p :: ps)
              | _ => Ok 0%nat
              end) as [k|] eqn:Ek; simpl in E; [|discriminate].
    assert (k = 0%nat) as ->.
    { destruct (Skin.prices skin) as [[|p ps]|]; try (inversion Ek; reflexivity).
      exact (matching_prices_of_int _ _ _ _ Ek). }
    destruct (select_by_cost kw (One (SInt n)) rest) as [rs'|]; simpl in E; [|discriminate].
    inversion E; subst. apply IH. reflexivity.
Qed.

(** X7: three lookups never return.  [get_champion_by(By.COST, n, ...)]
    with an integer [n] (the example of its docstring) has no champion to
    return, whatever the catalog and the currency: [price.cost in n] raises
    [TypeError] for the first price in the currency, and without such a
    price the result set is empty and [result_set[0]] raises [IndexError].
    [get_champion_by] by [By.BLUE_ESSENCE], which is none of the four
    members it handles, and [get_season_by] by a member other than
    [By.ID], raise the same [IndexError] once they have the catalog. *)
Theorem lookups_that_never_return (value : query) (kw : kwargs) (w : world) :
  (forall n, exists e, fst (get_champion_by COST (One (SInt n)) kw w) = Raise e)
  /\ (forall all_champs w',
        all_champs_for kw w = (Ok all_champs, w') ->
        get_champion_by BLUE_ESSENCE value kw w = (Raise IndexError, w'))
  /\ (forall by_ all_seasons w',
        by_ <> ID ->
        get_all_seasons PNone w = (Ok all_seasons, w') ->
        get_season_by by_ value w = (Raise IndexError, w')).
Proof.
  split; [|split].
  - intros n. unfold get_champion_by, bind.
    destruct (all_champs_for kw w) as [[all_champs|e] w1]; simpl; [|eauto].
    unfold lift. simpl.
    destruct (select_by_cost kw (One (SInt n)) all_champs) as [rs|e] eqn:Es; simpl; [|eauto].
    apply select_by_cost_of_int in Es. subst rs. simpl. eauto.
  - intros all_champs w' E. unfold get_champion_by, bind. rewrite E. reflexivity.
  - intros by_ all_seasons w' Hby E. unfold get_season_by, bind. rewrite E.
    unfold season_result_set. destruct by_; try reflexivity. contradiction.
Qed.

(** *** The calls of a batch resolution *)



Lemma resolve_cached_calls (ids : list string) :
  forall summoners w l w',
    resolve_cached ids summoners w = (Ok l, w') ->
    self w' = (if ids is [] then self w
               else self (with_summoner_id (PStr (List.last ids "")) w))
    /\ db w' = db w
    /\ trace w' = trace w ++ map (fun id => NetSummoner (_region (self w)) (PStr id)) ids.
Proof.
  induction ids as [|i ids IH]; intros summoners w l w' E; simpl in E.
  - inversion E; subst. rewrite app_nil_r. repeat split.
  - unfold bind at 1 in E. simpl in E.
    apply bind_run in E. destruct E as [(got & w2 & Eg & E)|(e & _ & He)]; [|discriminate].
    apply get_summoner_logs in Eg. subst w2.
    destruct got as [s|c]; simpl in E; [|unfold bind, raise in E; discriminate].
    unfold bind at 1 in E. simpl in E.
    apply IH in E. simpl in E. destruct E as (Es & Ed & Et).
    split; [|split].
    + rewrite Es. destruct ids; reflexivity.
    + exact Ed.
    + rewrite Et, <- app_assoc. reflexivity.
Qed.



(** *** The object after a batch resolution *)

Lemma get_all_seasons_frame (page_props : pyval) :
  keeps (frame (fun w => (self w, db w))) (get_all_seasons page_props).
Proof. unfold get_all_seasons. framed. Qed.

Lemma get_all_champions_frame (page_props : pyval) :
  keeps (frame (fun w => (self w, db w))) (get_all_champions page_props).
Proof. unfold get_all_champions. framed. Qed.

Lemma load_seasons_in_step (page_props : pyval) (w w' : world) :
  load_seasons (Cacher.get_all_seasons (db w)) page_props w = (Ok tt, w') ->
  _all_seasons (self w') = Some (Cacher.seasons (db w'))
  /\ Cacher.champions (db w') = Cacher.champions (db w)
  /\ _region (self w') = _region (self w).
Proof.
  intros E. unfold load_seasons, Cacher.get_all_seasons in E.
  destruct (Cacher.seasons (db w)) as [|s0 ss] eqn:Es; simpl in E.
  - apply bind_run in E. destruct E as [(l & w1 & Eg & E)|(e & _ & He)]; [|discriminate].
    apply get_all_seasons_frame in Eg. unfold frame in Eg. injection Eg as Eself Edb.
    unfold bind, set_all_seasons, cacher_insert_all_seasons in E.
    inversion E; subst; simpl. rewrite Edb, Eself.
    destruct l; simpl; rewrite ?Es; repeat split.
  - inversion E; subst; simpl. rewrite Es. repeat split.
Qed.

Lemma load_champions_in_step (page_props : pyval) (w w' : world) :
  load_champions (Cacher.get_all_champs (db w)) page_props w = (Ok tt, w') ->
  _all_champions (self w') = Some (Cacher.champions (db w'))
  /\ _all_seasons (self w') = _all_seasons (self w)
  /\ Cacher.seasons (db w') = Cacher.seasons (db w)
  /\ _region (self w') = _region (self w).
Proof.
  intros E. unfold load_champions, Cacher.get_all_champs in E.
  destruct (Cacher.champions (db w)) as [|c0 cs] eqn:Ec; simpl in E.
  - apply bind_run in E. destruct E as [(l & w1 & Eg & E)|(e & _ & He)]; [|discriminate].
    apply get_all_champions_frame in Eg. unfold frame in Eg. injection Eg as Eself Edb.
    unfold bind, set_all_champions, cacher_insert_all_champs in E.
    inversion E; subst; simpl. rewrite Edb, Eself.
    destruct l; simpl; rewrite ?Ec; repeat split.
  - inversion E; subst; simpl. rewrite Ec. repeat split.
Qed.

Lemma load_catalogs_in_step (page_props : pyval) (w w' : world) :
  load_catalogs page_props w = (Ok tt, w') ->
  catalogs_in_step w' /\ _region (self w') = _region (self w).
Proof.
  intros E. unfold load_catalogs in E.
  unfold bind at 1 2 in E. unfold cacher_get_all_seasons, cacher_get_all_champs in E.
  simpl in E.
  apply bind_run in E. destruct E as [([] & w1 & Es & E)|(e & _ & He)]; [|discriminate].
  apply (load_seasons_in_step page_props (log CacheGetAllChamps (log CacheGetAllSeasons w)))
    in Es.
  simpl in Es. destruct Es as (Es1 & Es2 & Es3).
  replace (Cacher.get_all_champs (db w)) with (Cacher.get_all_champs (db w1)) in E
    by (unfold Cacher.get_all_champs; rewrite Es2; reflexivity).
  apply load_champions_in_step in E. destruct E as (Ec1 & Ec2 & Ec3 & Ec4).
  split; [split|]; congruence.
Qed.

Ltac beside :=
  keeps_with ltac:(
    unfold frame, beside_summoners; simpl;
    repeat match goal with
           | |- context [Cacher.insert_summoner ?n ?i ?t ?st] =>
               unfold Cacher.insert_summoner;
               destruct (Cacher.summoner_ids st !! n) as [[? ?]|];
               [destruct (String.eqb _ _)|]
           end;
    reflexivity).

Lemma resolve_names_beside (page_props : pyval) (names : list string) :
  forall summoners, keeps (frame beside_summoners) (resolve_names page_props names summoners).
Proof.
  assert (Hsel : forall n, keeps (frame beside_summoners) (select_summoner_id page_props n)).
  { intros n. unfold select_summoner_id. beside. }
  induction names as [|n names IH]; intros summoners; simpl; beside.
Qed.

Lemma resolve_cached_beside (ids : list string) :
  forall summoners, keeps (frame beside_summoners) (resolve_cached ids summoners).
Proof. induction ids as [|i ids IH]; intros summoners; simpl; beside. Qed.

(** X9: the object after a batch resolution that returns: its region is
    the region of the call; [all_seasons] and [all_champions] are lists,
    the very catalogs the store then holds; and when the cache resolved a
    name of the batch, [summoner_id] is the identifier the cache gave for
    the last such name (whatever the names that come after it in the
    batch). *)
Theorem object_after_batch (names : list string) (region : Region) (w : world) r w' :
  search (NamesList names) region w = (Ok r, w') ->
  _region (self w') = region
  /\ _all_seasons (self w') = Some (Cacher.seasons (db w'))
  /\ _all_champions (self w') = Some (Cacher.champions (db w'))
  /\ (cache_hits (db w) names <> [] ->
      _summoner_id (self w') = PStr (List.last (cache_hits (db w) names) "")).
Proof.
  intros E. unfold search in E. simpl in E.
  apply bind_run in E. destruct E as [(parts & w1 & Ep & E)|(e & _ & He)]; [|discriminate].
  destruct (partition_names_ok _ _ _ _ _ _ Ep) as [Hall [-> ->]]. simpl in E.
  apply bind_run in E. destruct E as [(pp & w2 & Eg & E)|(e & _ & He)]; [|discriminate].
  apply bind_run in E. destruct E as [([] & w3 & El & E)|(e & _ & He)]; [|discriminate].
  apply load_catalogs_in_step in El. destruct El as [[Hs Hc] _].
  unfold bind at 1 in E. simpl in E.
  apply bind_run in E. destruct E as [(l1 & w4 & En & E)|(e & _ & He)]; [|discriminate].
  apply bind_run in E. destruct E as [(l2 & w5 & Er & E)|(e & _ & He)]; [|discriminate].
  unfold lift in E. inversion E as [[Eres Ew]]. subst w5. clear E.
  pose proof (resolve_names_beside _ _ _ _ _ _ En) as Hn.
  pose proof (resolve_cached_beside _ _ _ _ _ Er) as Hr.
  unfold frame, beside_summoners in Hn, Hr. simpl in Hn.
  rewrite Hn in Hr. injection Hr as Hr1 Hr2 Hr3 Hr4 Hr5.
  split; [exact Hr1|]. split; [congruence|]. split; [congruence|].
  intros Hhits. apply resolve_cached_calls in Er. destruct Er as (Eself & _ & _).
  simpl in Eself. destruct (cache_hits (db w) names); [contradiction|].
  rewrite Eself. reflexivity.
Qed.

(** *** The cost of a champion *)

Lemma build_price_currency (price : pyval) (p : Price.t) :
  build_price price = Ok p -> py_eq_str "IP" (Price.currency p) = false.
Proof.
  destruct price as [| | | | |l|d]; try discriminate. unfold build_price. simpl.
  destruct (dict_lookup "currency" d) as [c|] eqn:Ec.
  - destruct (py_str_in "RP" c) as [[|]|] eqn:Ein; simpl; intros E; inversion E; subst;
      cbn [py_eq_str Price.currency]; [|reflexivity].
    destruct c as [| | | |s| |]; try reflexivity. simpl in Ein.
    change (py_eq_str "IP" (PStr s)) with (String.eqb "IP" s).
    destruct (String.eqb "IP" s) eqn:Es; [|reflexivity].
    apply String.eqb_eq in Es. subst s. vm_compute in Ein. discriminate.
  - simpl. intros E. inversion E. reflexivity.
Qed.

Lemma first_cost_none (metric : string) (prices : list Price.t) :
  Forall (fun p => py_eq_str metric (Price.currency p) = false) prices ->
  first_cost metric prices = None.
Proof. induction 1 as [|p prices Hp _ IH]; simpl; [reflexivity|]. rewrite Hp. exact IH. Qed.

(** X10: the default metric finds no price that utils.py builds.
    [get_cost_in()] looks for the currency ["IP"] (it takes ["BE"] for it),
    while [get_all_champions] marks with ["BE"] every price whose currency
    does not contain ["RP"]: on a champion whose prices were all built that
    way, [get_cost_in()] is [None]. *)
Theorem default_metric_finds_no_price (upper : string -> string) (champ : Champion.t) :
  Forall (fun skin => forall prices,
              Skin.prices skin = Some prices ->
              Forall (fun p => exists raw, build_price raw = Ok p) prices)
    (Champion.skins champ) ->
  get_cost_in upper champ "BE" = PNone.
Proof.
  unfold get_cost_in. simpl. induction 1 as [|skin skins Hskin _ IH]; simpl; [reflexivity|].
  destruct (Skin.prices skin) as [prices|]; [|reflexivity].
  rewrite first_cost_none; [exact IH|].
  eapply Forall_impl; [exact (Hskin prices eq_refl)|].
  intros p [raw Hp]. exact (build_price_currency _ _ Hp).
Qed.

Lemma skins_cost_skip (metric : string) (before after : list Skin.t) :
  forallb (no_price_in metric) before = true ->
  skins_cost metric (before ++ after) = skins_cost metric after.
Proof.
  induction before as [|skin before IH]; simpl; intros Hb; [reflexivity|].
  apply andb_true_iff in Hb. destruct Hb as [Hs Hb]. unfold no_price_in in Hs.
  destruct (Skin.prices skin) as [prices|]; [|discriminate].
  rewrite first_cost_none; [exact (IH Hb)|].
  rewrite forallb_forall in Hs. apply Forall_forall. intros p Hp.
  apply list_elem_of_In, Hs, negb_true_iff in Hp. exact Hp.
Qed.

(** X11: [get_cost_in(metric)] goes through the skins in their order and
    through the prices of each in theirs, and returns the cost of the first
    price whose currency is the metric ([metric.upper()], or ["IP"] for
    ["BE"]).  A skin whose prices are [None] ends the search with [None]:
    the prices of the skins after it are not looked at.  Without such a
    price the result is [None]. *)
Theorem cost_of_first_price_in_metric (upper : string -> string) (champ : Champion.t)
    (metric m : string) :
  m = (if String.eqb metric "BE" then "IP" else upper metric) ->
  (forall before skin after ps p qs,
      Champion.skins champ = before ++ skin :: after ->
      forallb (no_price_in m) before = true ->
      Skin.prices skin = Some (ps ++ p :: qs) ->
      forallb (fun p => negb (py_eq_str m (Price.currency p))) ps = true ->
      py_eq_str m (Price.currency p) = true ->
      get_cost_in upper champ metric = Price.cost p)
  /\ (forall before skin after,
        Champion.skins champ = before ++ skin :: after ->
        forallb (no_price_in m) before = true ->
        Skin.prices skin = None ->
        get_cost_in upper champ metric = PNone)
  /\ (forallb (no_price_in m) (Champion.skins champ) = true ->
      get_cost_in upper champ metric = PNone).
Proof.
  intros ->. unfold get_cost_in. split; [|split].
  - intros before skin after ps p qs -> Hbefore Hprices Hps Hp.
    rewrite (skins_cost_skip _ _ _ Hbefore). simpl. rewrite Hprices.
    clear Hprices. induction ps as [|q ps IH]; simpl in Hps |- *.
    + rewrite Hp. reflexivity.
    + apply andb_true_iff in Hps. destruct Hps as [Hq Hps].
      apply negb_true_iff in Hq. rewrite Hq. exact (IH Hps).
  - intros before skin after -> Hbefore Hprices.
    rewrite (skins_cost_skip _ _ _ Hbefore). simpl. rewrite Hprices. reflexivity.
  - intros Hall. rewrite <- (app_nil_r (Champion.skins champ)).
    rewrite (skins_cost_skip _ _ _ Hall). reflexivity.
Qed.

(** *** A summoner the API has no data for *)

Lemma select_summoner_id_trace (page_props : pyval) (n : string) :
  keeps (frame trace) (select_summoner_id page_props n).
Proof. unfold select_summoner_id. framed. Qed.

(** X12: when the summary API has no data ([get_summoner] returns the
    empty content as it is), a batch resolution of one name or more does
    not report that no summoner was found: the loop fails on
    [summoner.name] with [AttributeError] at the first name it requests a
    summary for, so that whatever the batch, it has no result and no
    summoner is written to the cache. *)
Theorem no_data_fails_batch (names : list string) (region : Region) (w : world) r w' :
  names <> [] ->
  (forall history region summoner_id,
      exists content, summary_api history region summoner_id = Content content) ->
  search (NamesList names) region w = (r, w') ->
  (exists e, r = Raise e)
  /\ appends (fun e => forall name id, e <> CacheInsertSummoner name id) w w'
  /\ (forall page_props name rest summoners w0 w1,
        select_summoner_id page_props name w0 = (Ok tt, w1) ->
        resolve_names page_props (name :: rest) summoners w0
        = (Raise AttributeError,
           log (NetSummoner (_region (self w1)) (_summoner_id (self w1))) w1)).
Proof.
  intros Hne Hapi E.
  assert (Hloop : forall page_props name rest summoners w0 w1,
             select_summoner_id page_props name w0 = (Ok tt, w1) ->
             resolve_names page_props (name :: rest) summoners w0
             = (Raise AttributeError,
                log (NetSummoner (_region (self w1)) (_summoner_id (self w1))) w1)).
  { intros page_props name rest summoners w0 w1 Es. simpl. unfold bind at 1. rewrite Es.
    unfold bind at 1. unfold get_summoner.
    destruct (Hapi (trace w1) (_region (self w1)) (_summoner_id (self w1))) as [c ->].
    reflexivity. }
  assert (Hnames : forall page_props summoners,
             keeps (appends (fun e => forall name id, e <> CacheInsertSummoner name id))
               (resolve_names page_props names summoners)).
  { intros page_props summoners w0 r0 w0' E0.
    destruct names as [|name rest]; [contradiction|].
    destruct (select_summoner_id page_props name w0) as [[[]|e] w1] eqn:Es.
    - rewrite (Hloop _ _ _ _ _ _ Es) in E0. inversion E0; subst.
      apply select_summoner_id_trace in Es. unfold frame in Es.
      exists [NetSummoner (_region (self w1)) (_summoner_id (self w1))].
      simpl. rewrite Es. split; [reflexivity|].
      constructor; [discriminate | constructor].
    - simpl in E0. unfold bind at 1 in E0. rewrite Es in E0. inversion E0; subst.
      apply select_summoner_id_trace in Es. unfold frame in Es.
      exists []. rewrite app_nil_r. split; [exact Es | constructor]. }
  split; [|split; [|exact Hloop]].
  - destruct r as [r|e]; [|eauto]. exfalso.
    unfold search in E. simpl in E.
    apply bind_run in E. destruct E as [(parts & w1 & _ & E)|(e & _ & He)]; [|discriminate].
    apply bind_run in E. destruct E as [(pp & w2 & _ & E)|(e & _ & He)]; [|discriminate].
    apply bind_run in E. destruct E as [([] & w3 & _ & E)|(e & _ & He)]; [|discriminate].
    unfold bind at 1 in E. simpl in E.
    apply bind_run in E. destruct E as [(l1 & w4 & En & _)|(e & _ & He)]; [|discriminate].
    destruct names as [|name rest]; [contradiction|].
    destruct (select_summoner_id pp name
                (mkWorld (mkOPGG (_summoner_id (self w3)) region (_all_champions (self w3))
                            (_all_seasons (self w3))) (db w3) (clock w3) (trace w3)))
      as [[[]|e] w5] eqn:Es.
    + rewrite (Hloop _ _ _ _ _ _ Es) in En. discriminate.
    + simpl in En. unfold bind at 1 in En. rewrite Es in En. discriminate.
  - revert E. generalize dependent w. intros w E.
    assert (Hk : keeps (appends (fun e => forall name id, e <> CacheInsertSummoner name id))
                   (search (NamesList names) region)).
    { unfold search. simpl.
      pose proof (partition_names_appends
                    (fun e => forall name id, e <> CacheInsertSummoner name id) names
                    ltac:(intros; discriminate)) as Hpart.
      assert (Hload : forall pp,
                 keeps (appends (fun e => forall name id, e <> CacheInsertSummoner name id))
                   (load_catalogs pp)).
      { intros pp. unfold load_catalogs, load_seasons, load_champions, get_all_seasons,
          get_all_champions. appended_by ltac:(intros; discriminate). }
      assert (Hcached' : forall ids summoners,
                 keeps (appends (fun e => forall name id, e <> CacheInsertSummoner name id))
                   (resolve_cached ids summoners)).
      { induction ids as [|i ids IH]; intros; simpl;
          appended_by ltac:(intros; discriminate). }
      appended_by ltac:(intros; discriminate). }
    exact (Hk _ _ _ E).
Qed.

(** *** Where the champions of a lookup come from *)

Lemma get_all_champions_returns (page_props : pyval) (w : world) l w' :
  get_all_champions page_props w = (Ok l, w') ->
  l = []
  \/ (truthy page_props = false /\ l = Cacher.champions (db w)
      /\ w' = log CacheGetAllChamps w).
Proof.
  intros E. unfold get_all_champions in E.
  destruct (truthy page_props); simpl in E.
  - unfold lift in E. inversion E as [[El Ew]]. left.
    destruct (py_getitem page_props "championsById"); simpl in El; [|discriminate].
    destruct (py_dict_values a); simpl in El; [|discriminate].
    apply champions_of_ok in El. tauto.
  - unfold bind at 1, cacher_get_all_champs in E. simpl in E.
    unfold Cacher.get_all_champs in E.
    destruct (Cacher.champions (db w)) as [|c cs]; simpl in E.
    + left. apply bind_run in E. destruct E as [(raw & w1 & _ & E)|(e & _ & He)];
        [|discriminate].
      unfold lift in E. inversion E as [[El Ew]]. apply champions_of_ok in El. tauto.
    + right. inversion E. auto.
Qed.

Lemma select_incl {A} (p : A -> result bool) (l rs : list A) :
  select p l = Ok rs -> incl rs l.
Proof.
  revert rs. induction l as [|x l IH]; simpl; intros rs E.
  - inversion E. apply incl_nil_l.
  - destruct (p x) as [b|]; simpl in E; [|discriminate].
    destruct (select p l) as [rs'|]; simpl in E; [|discriminate].
    inversion E; subst. specialize (IH rs' eq_refl).
    destruct b; [apply incl_cons; [left; reflexivity|]|]; apply incl_tl, IH.
Qed.

Lemma select_by_incl {A} (f : A -> pyval) (as_int : bool) (value : query) (l rs : list A) :
  select_by f as_int value l = Ok rs -> incl rs l.
Proof.
  destruct value as [v|values]; simpl.
  - destruct as_int; [apply select_incl|].
    intros E. inversion E. intros x Hx. apply List.filter_In in Hx. tauto.
  - intros E. inversion E. intros x Hx. unfold select_any in Hx.
    apply in_flat_map in Hx. destruct Hx as (y & Hy & Hx).
    apply in_map_iff in Hx. destruct Hx as (v & <- & _). exact Hy.
Qed.

Lemma select_by_cost_incl (kw : kwargs) (value : query) (all_champs rs : list Champion.t) :
  select_by_cost kw value all_champs = Ok rs -> incl rs all_champs.
Proof.
  revert rs. induction all_champs as [|champ rest IH]; intros rs E.
  - inversion E. apply incl_nil_l.
  - rewrite select_by_cost_cons in E.
    destruct (Champion.skins champ) as [|skin skins]; [discriminate|].
    destruct (match Skin.prices skin with
              | Some (p :: ps) => matching_prices kw value (p :: ps)
              | _ => Ok 0%nat
              end) as [k|]; simpl in E; [|discriminate].
    destruct (select_by_cost kw value rest) as [rs'|]; simpl in E; [|discriminate].
    inversion E; subst. specialize (IH rs' eq_refl).
    intros x Hx. apply in_app_or in Hx. destruct Hx as [Hx|Hx].
    + apply repeat_spec in Hx. subst x. left. reflexivity.
    + right. apply IH, Hx.
Qed.

Lemma return_shape_to_list {A} (result_set : list A) (r : one_or_list A) :
  return_shape result_set = Ok r -> to_list r = result_set /\ result_set <> [].
Proof.
  unfold return_shape. destruct result_set as [|x [|y l]]; simpl; intros E;
    inversion E; split; try reflexivity; discriminate.
Qed.

(** X13: [get_champion_by] returns champions of the cached catalog only.
    Whenever it returns, the call had no truthy [page_props], the store
    held a catalog of champions, the one call made was the read of that
    catalog, and every champion returned is in it: champions fetched from
    the page props or from the API are never returned, since building them
    fails. *)
Theorem champion_lookup_serves_cache_only (by_ : By) (value : query) (kw : kwargs)
    (w : world) r w' :
  get_champion_by by_ value kw w = (Ok r, w') ->
  Cacher.champions (db w) <> []
  /\ (forall pp, page_props kw = Some pp -> truthy pp = false)
  /\ w' = log CacheGetAllChamps w
  /\ incl (to_list r) (Cacher.champions (db w)).
Proof.
  intros E. unfold get_champion_by in E.
  apply bind_run in E. destruct E as [(all & w1 & Ea & E)|(e & _ & He)]; [|discriminate].
  unfold bind, lift in E.
  destruct (champion_result_set by_ value kw all) as [rs|] eqn:Ers; [|discriminate].
  destruct (return_shape rs) as [r'|] eqn:Eshape; inversion E; subst r' w1; clear E.
  apply return_shape_to_list in Eshape. destruct Eshape as [Hrs Hne].
  rewrite <- Hrs in Ers, Hne. clear Hrs rs.
  assert (Hincl : incl (to_list r) all).
  { destruct by_; simpl in Ers;
      first [ exact (select_by_incl _ _ _ _ _ Ers)
            | exact (select_by_cost_incl _ _ _ _ Ers)
            | inversion Ers as [Ee]; rewrite <- Ee in Hne; contradiction ]. }
  assert (Hall : all <> []).
  { intros ->. apply Hne. destruct (to_list r) as [|x l]; [reflexivity|].
    destruct (Hincl x). left. reflexivity. }
  assert (Hcached : forall pp,
             get_all_champions pp w = (Ok all, w') ->
             truthy pp = false /\ all = Cacher.champions (db w)
             /\ w' = log CacheGetAllChamps w).
  { intros pp Eg. apply get_all_champions_returns in Eg.
    destruct Eg as [->|Hc]; [contradiction | exact Hc]. }
  unfold all_champs_for in Ea.
  destruct (page_props kw) as [pp|] eqn:Epp.
  - destruct (truthy pp) eqn:Et.
    + apply Hcached in Ea. destruct Ea as (Ef & _). congruence.
    + apply Hcached in Ea. destruct Ea as (_ & -> & ->).
      split; [exact Hall|]. split; [intros pp' Hpp'; congruence|].
      split; [reflexivity | exact Hincl].
  - apply Hcached in Ea. destruct Ea as (_ & -> & ->).
    split; [exact Hall|]. split; [intros pp' Hpp'; discriminate|].
    split; [reflexivity | exact Hincl].
Qed.

(** *** The champion statistics of a summoner *)

Lemma find_champion_of_dict (all_champions : list Champion.t) (d : list (string * pyval)) :
  exists found, find_champion all_champions (PDict d) = Ok found.
Proof.
  induction all_champions as [|c rest [found IH]]; simpl.
  - eexists. reflexivity.
  - destruct (py_eq (Champion.id c) _); [eexists; reflexivity|].
    exists found. exact IH.
Qed.

Lemma champion_stats_raises (all_champions : option (list Champion.t)) (champion : pyval) :
  champion_stats all_champions champion
  = Raise (if is_dict champion then TypeError else AttributeError).
Proof.
  unfold champion_stats.
  destruct champion as [| | | | | |d];
    try (destruct all_champions as [[|c0 cs]|]; reflexivity).
  destruct (truthy_list all_champions).
  - destruct (find_champion_of_dict
                (match all_champions with Some l => l | None => [] end) d) as [found ->].
    reflexivity.
  - reflexivity.
Qed.

Lemma champion_stats_loop_ends (all_champions : option (list Champion.t)) (raw : list pyval)
    (most_champions : list ChampionStats.t) :
  champion_stats_loop all_champions raw most_champions
  = (most_champions,
     match raw with
     | [] => None
     | champion :: _ => Some (if is_dict champion then TypeError else AttributeError)
     end).
Proof.
  destruct raw as [|champion rest]; simpl; [reflexivity|].
  rewrite champion_stats_raises. reflexivity.
Qed.

Section GetSummonerProperties.
Variables Tier RankEntry Season QueueInfo LeagueStats SummonerT Games : Type.
Variable new_Tier : list (string * pyval) -> result Tier.
Variable new_RankEntry : pyval -> Tier -> option unit -> result RankEntry.
Variable new_Season : pyval -> Tier -> list RankEntry -> option unit -> result Season.
Variable new_QueueInfo : list (string * pyval) -> result QueueInfo.
Variable new_LeagueStats : QueueInfo -> Tier -> list (string * pyval) -> result LeagueStats.
Variable new_Summoner :
  list (string * pyval) -> list Season -> list LeagueStats -> list ChampionStats.t -> Games
  -> result SummonerT.
Variable no_games : Games.
Variable get_recent_games : M Games.
Variable summary : list event -> Region -> pyval -> http_response.

Local Abbreviation parse :=
  (GetSummoner.parse Tier RankEntry Season QueueInfo LeagueStats Games new_Tier
     new_RankEntry new_Season new_QueueInfo new_LeagueStats no_games get_recent_games).
Local Abbreviation method :=
  (GetSummoner.get_summoner Tier RankEntry Season QueueInfo LeagueStats SummonerT Games
     new_Tier new_RankEntry new_Season new_QueueInfo new_LeagueStats new_Summoner no_games
     get_recent_games summary).
Local Abbreviation build := (GetSummoner.build Season LeagueStats SummonerT Games new_Summoner).
Local Abbreviation lists := (GetSummoner.mkParsed Season LeagueStats Games).

Lemma most_champions_and_games_empty (content : pyval) (w : world) r w' :
  most_champions_and_games Games no_games get_recent_games content w = (Ok r, w') ->
  fst r = [].
Proof.
  intros E. unfold most_champions_and_games in E.
  destruct (rbind (py_get content "summoner" (PDict [])) _) as [raw|e].
  - rewrite champion_stats_loop_ends in E. destruct raw as [|champion rest].
    + destruct (get_recent_games w) as [[games|e] w1].
      * inversion E. reflexivity.
      * unfold handled in E. destruct (is_exception e); inversion E. reflexivity.
    + unfold handled in E.
      destruct (is_exception _); inversion E. reflexivity.
  - unfold handled in E. destruct (is_exception e); inversion E. reflexivity.
Qed.

Lemma except_Exception_lists (e : exn) (l : GetSummoner.parsed Season LeagueStats Games)
    (w : world) r w' :
  GetSummoner.except_Exception Season LeagueStats Games e l w = (r, w') ->
  w' = w /\ forall l', r = Ok l' -> l' = l.
Proof.
  unfold GetSummoner.except_Exception. destruct (is_exception e); intros E; inversion E;
    subst; (split; [reflexivity|]); intros l' El; inversion El; reflexivity.
Qed.

Lemma parse_most_champions (content : pyval) (w : world) l w' :
  parse content w = (Ok l, w') -> GetSummoner.most_champions _ _ _ l = [].
Proof.
  intros E. unfold GetSummoner.parse in E.
  repeat match type of E with
         | context [match ?x with _ => _ end] =>
             lazymatch x with
             | most_champions_and_games _ _ _ _ _ => fail
             | _ => destruct x
             end
         end;
    try (apply except_Exception_lists in E; destruct E as [_ E];
         rewrite (E l eq_refl); reflexivity).
  destruct (most_champions_and_games Games no_games get_recent_games content w)
    as [[[mc games]|e] w1] eqn:Et; inversion E; subst; simpl.
  exact (most_champions_and_games_empty _ _ _ _ Et).
Qed.

(** X14: [most_champions] stays empty.  [ChampionStats] of champion.py
    takes neither [champion] nor the keywords after [game_length_second],
    so that the call of opgg.py:326 raises in the first turn of the loop
    ([TypeError], or [AttributeError] before it for raw statistics that
    are no dict).  Hence the [try] block of [get_summoner] leaves
    [most_champions] empty whatever the content, and every [Summoner] the
    method returns is built with the empty list for it; and for a summoner
    with champion statistics the block does not reach [get_recent_games]
    once it is at that loop: the exception is handled, nothing is
    requested and [recent_game_stats] stays the empty list too. *)
Theorem most_champions_stay_empty (content : pyval) (w : world) :
  (forall all_champions champion,
      champion_stats all_champions champion
      = Raise (if is_dict champion then TypeError else AttributeError))
  /\ (forall l w', parse content w = (Ok l, w') -> GetSummoner.most_champions _ _ _ l = [])
  /\ (forall return_content_only s w',
        method return_content_only w = (Ok (inl s), w') ->
        exists fields previous_seasons league_stats games,
          new_Summoner fields previous_seasons league_stats [] games = Ok s)
  /\ (forall cd sd md champion rest,
        content = PDict cd ->
        field cd "summoner" (PDict []) = PDict sd ->
        field sd "most_champions" (PDict []) = PDict md ->
        py_iter (field md "champion_stats" (PList [])) = Ok (champion :: rest) ->
        most_champions_and_games Games no_games get_recent_games content w
        = (Ok ([], no_games), w)).
Proof.
  split; [exact champion_stats_raises|]. split; [exact (parse_most_champions content w)|].
  split.
  - intros rc s w' E. unfold GetSummoner.get_summoner in E.
    destruct (summary _ _ _) as [[json|]| |e]; try discriminate.
    destruct (py_get json "data" (PList [])) as [c|e].
    2:{ destruct e; discriminate. }
    destruct rc; [discriminate|]. destruct (negb (truthy c)); [discriminate|].
    apply bind_run in E. destruct E as [(l & w1 & Ep & E)|(e & _ & He)]; [|discriminate].
    apply parse_most_champions in Ep.
    unfold bind, lift, ret in E.
    destruct (build c l) as [s'|e] eqn:Eb; inversion E; subst.
    unfold GetSummoner.build in Eb.
    destruct (keywords _ _) as [fields|e]; simpl in Eb; [|discriminate].
    rewrite Ep in Eb. eauto.
  - intros cd sd md champion rest -> Hs Hm Hraw. unfold most_champions_and_games.
    unfold field in Hs, Hm, Hraw. simpl. rewrite Hs. simpl. rewrite Hm. simpl.
    rewrite Hraw. rewrite champion_stats_loop_ends. unfold handled.
    destruct (is_dict champion); reflexivity.
Qed.

(** *** What ends the parsing of a summary *)

Lemma previous_season_found (all_seasons : option (list SeasonInfo.t)) (season : pyval)
    (x : Season) :
  GetSummoner.previous_season Tier RankEntry Season new_Tier new_RankEntry new_Season
    all_seasons season = Ok x ->
  exists info, GetSummoner.season_info_of all_seasons season = Ok (Some info).
Proof.
  unfold GetSummoner.previous_season.
  destruct (GetSummoner.season_info_of all_seasons season) as [[info|]|e]; simpl;
    [eauto | | discriminate].
  destruct (py_get season "rank_entries" (PList [])) as [raw|]; simpl; [|discriminate].
  destruct (py_iter raw) as [items|]; simpl; [|discriminate].
  destruct (GetSummoner.rank_entries_of _ _ _ _ _ _); simpl; discriminate.
Qed.

Lemma parse_missing_season (cd sd : list (string * pyval)) (season : pyval)
    (rest : list pyval) (w : world) r w' :
  field cd "summoner" (PDict []) = PDict sd ->
  py_iter (field sd "previous_seasons" (PList [])) = Ok (season :: rest) ->
  (forall info,
      GetSummoner.season_info_of (_all_seasons (self w)) season <> Ok (Some info)) ->
  parse (PDict cd) w = (r, w') ->
  w' = w /\ forall l, r = Ok l -> l = lists [] [] [] no_games.
Proof.
  intros Hs Hraw Hmissing E. unfold GetSummoner.parse, GetSummoner.summoner_items in E.
  unfold field in Hs, Hraw. simpl in E. rewrite Hs in E. simpl in E. rewrite Hraw in E.
  simpl in E.
  destruct (GetSummoner.previous_season _ _ _ _ _ _ (_all_seasons (self w)) season)
    as [x|e] eqn:Ex.
  - apply previous_season_found in Ex. destruct Ex as [info Ex].
    destruct (Hmissing info Ex).
  - exact (except_Exception_lists _ _ _ _ _ E).
Qed.

(** X17: what ends the parsing of a summary before its end.  When the
    first previous season of the summoner has no season of
    [self.all_seasons] with its identifier (on an object whose catalog is
    [None] or empty, any previous season), the first turn of the first
    loop raises, at [tmp_season_info.id] if not before: the [try] block
    ends there with nothing parsed and nothing requested, and the
    [Summoner] that [get_summoner] returns is built with four empty lists.
    And when the summary has no previous season and no ["league_stats"],
    the loop over [None] raises [TypeError]: again nothing is parsed and
    the recent games are not requested. *)
Theorem parsing_ends_early (cd sd : list (string * pyval)) (w : world) :
  field cd "summoner" (PDict []) = PDict sd ->
  (forall season rest,
      py_iter (field sd "previous_seasons" (PList [])) = Ok (season :: rest) ->
      (forall info,
          GetSummoner.season_info_of (_all_seasons (self w)) season <> Ok (Some info)) ->
      (forall r w',
          parse (PDict cd) w = (r, w') ->
          w' = w /\ forall l, r = Ok l -> l = lists [] [] [] no_games)
      /\ (forall json r w',
            summary (trace w) (_region (self w)) (_summoner_id (self w))
            = HttpOk (Some json) ->
            py_get json "data" (PList []) = Ok (PDict cd) ->
            method false w = (r, w') ->
            w' = log (NetSummoner (_region (self w)) (_summoner_id (self w))) w
            /\ forall s, r = Ok (inl s) ->
                 build (PDict cd) (lists [] [] [] no_games) = Ok s))
  /\ (py_iter (field sd "previous_seasons" (PList [])) = Ok [] ->
      field sd "league_stats" PNone = PNone ->
      parse (PDict cd) w = (Ok (lists [] [] [] no_games), w)).
Proof.
  intros Hs. split.
  - intros season rest Hraw Hmissing. split.
    + intros r w' E. exact (parse_missing_season _ _ _ _ _ _ _ Hs Hraw Hmissing E).
    + intros json r w' Hsummary Hdata E. unfold GetSummoner.get_summoner in E.
      rewrite Hsummary, Hdata in E.
      assert (Htruthy : truthy (PDict cd) = true).
      { destruct cd as [|kv cd']; [|reflexivity].
        unfold field in Hs. simpl in Hs. inversion Hs; subst. discriminate. }
      rewrite Htruthy in E. simpl in E.
      apply bind_run in E. destruct E as [(l & w1 & Ep & E)|(e & Ep & ->)].
      * apply (parse_missing_season _ _ _ _ _ _ _ Hs Hraw) in Ep.
        2:{ intros info. simpl. apply Hmissing. }
        destruct Ep as [-> Hl]. rewrite (Hl l eq_refl) in E.
        unfold bind, lift, ret in E.
        destruct (build (PDict cd) (lists [] [] [] no_games)) as [s'|e];
          inversion E; subst; (split; [reflexivity|]); intros s Es; inversion Es;
          reflexivity.
      * apply (parse_missing_season _ _ _ _ _ _ _ Hs Hraw) in Ep.
        2:{ intros info. simpl. apply Hmissing. }
        destruct Ep as [-> _]. split; [reflexivity|]. intros s Es. discriminate.
  - intros Hraw Hleagues. unfold GetSummoner.parse, GetSummoner.summoner_items.
    unfold field in Hs, Hraw, Hleagues. simpl. rewrite Hs. simpl. rewrite Hraw. simpl.
    rewrite Hleagues. reflexivity.
Qed.

End GetSummonerProperties.

(** *** What the lookups of utils.py ask for *)

Lemma get_all_seasons_default_calls (w : world) r w' :
  get_all_seasons PNone w = (r, w') ->
  w' = (if truthy_list (Cacher.get_all_seasons (db w)) then log CacheGetAllSeasons w
        else log (NetPageProps (NamesStr "ColbyFaulkn1") Region_NA)
               (log CacheGetAllSeasons w)).
Proof.
  unfold get_all_seasons, bind, cacher_get_all_seasons. simpl.
  destruct (truthy_list (Cacher.get_all_seasons (db w))).
  - intros E. inversion E. reflexivity.
  - unfold get_page_props. simpl.
    destruct (multisearch _ _ _); unfold lift; intros E; inversion E; reflexivity.
Qed.

Lemma get_all_champions_calls (page_props : pyval) (w : world) r w' :
  get_all_champions page_props w = (r, w') ->
  w' = (if truthy page_props then w
        else if truthy_list (Cacher.get_all_champs (db w)) then log CacheGetAllChamps w
        else log NetMetaChampions (log CacheGetAllChamps w)).
Proof.
  unfold get_all_champions. destruct (truthy page_props); simpl.
  - unfold lift. intros E. inversion E. reflexivity.
  - unfold bind, cacher_get_all_champs. simpl.
    destruct (truthy_list (Cacher.get_all_champs (db w))).
    + intros E. inversion E. reflexivity.
    + unfold fetch_meta_champions. simpl.
      destruct (meta_champions _) as [v| |e]; simpl.
      * destruct (rbind (py_getitem v "data") py_iter); unfold lift; intros E;
          inversion E; reflexivity.
      * unfold lift. intros E. inversion E. reflexivity.
      * intros E. inversion E. reflexivity.
Qed.

Lemma lookup_tail {A B} (m : M (list A)) (f : list A -> result (list B)) (w : world) r w' :
  (all <- m ;; result_set <- lift (f all) ;; lift (return_shape result_set)) w = (r, w') ->
  exists r0, m w = (r0, w').
Proof.
  intros E. apply bind_run in E. destruct E as [(all & w1 & Em & E)|(e & Em & _)].
  - unfold bind, lift in E. destruct (f all); inversion E; subst; eauto.
  - eauto.
Qed.

(** X15: what the two lookups of utils.py ask for, whether they return or
    raise.  [get_season_by] reads the seasons of the cache and, when there
    are none, requests the multisearch page of ["ColbyFaulkn1"] in NA;
    [get_champion_by] with a truthy [page_props] asks for nothing, not
    even the cache, and otherwise reads the champions of the cache and,
    when there are none, requests the champions of the API.  Neither
    writes what it fetched to the cache, nor changes the object: a lookup
    over an empty cache fetches again at each call. *)
Theorem lookups_only_read (by_ : By) (value : query) (w : world) :
  (forall r w',
      get_season_by by_ value w = (r, w') ->
      w' = (if truthy_list (Cacher.get_all_seasons (db w)) then log CacheGetAllSeasons w
            else log (NetPageProps (NamesStr "ColbyFaulkn1") Region_NA)
                   (log CacheGetAllSeasons w)))
  /\ (forall kw r w',
        get_champion_by by_ value kw w = (r, w') ->
        w' = (if match page_props kw with Some pp => truthy pp | None => false end then w
              else if truthy_list (Cacher.get_all_champs (db w))
                   then log CacheGetAllChamps w
                   else log NetMetaChampions (log CacheGetAllChamps w))).
Proof.
  split.
  - intros r w' E. unfold get_season_by in E.
    apply lookup_tail in E. destruct E as [r0 E].
    exact (get_all_seasons_default_calls _ _ _ E).
  - intros kw r w' E. unfold get_champion_by in E.
    apply lookup_tail in E. destruct E as [r0 E].
    unfold all_champs_for in E.
    destruct (page_props kw) as [pp|].
    + destruct (truthy pp) eqn:Et.
      * apply get_all_champions_calls in E. rewrite Et in E. exact E.
      * apply get_all_champions_calls in E. exact E.
    + apply get_all_champions_calls in E. exact E.
Qed.

(** *** A page without candidates *)

Lemma load_catalogs_identifier (page_props : pyval) :
  keeps (frame (fun w => _summoner_id (self w))) (load_catalogs page_props).
Proof.
  unfold load_catalogs, load_seasons, load_champions, get_all_seasons, get_all_champions.
  framed.
Qed.

Lemma resolve_names_without_candidates (d : list (string * pyval)) (names : list string) :
  field d "summoners" (PList []) = PList [] ->
  forall summoners w l w',
    resolve_names (PDict d) names summoners w = (Ok l, w') ->
    exists results,
      l = summoners ++ results
      /\ List.length results = List.length names
      /\ Forall (fun s => exists history,
                    summary_api history (_region (self w)) (_summoner_id (self w)) = Built s)
           results
      /\ self w' = self w.
Proof.
  intros Hnone.
  assert (Hstep : forall n w, select_summoner_id (PDict d) n w = (Ok tt, w)).
  { intros n w. unfold select_summoner_id, bind, lift. simpl.
    unfold field in Hnone. rewrite Hnone. reflexivity. }
  induction names as [|n names IH]; intros summoners w l w' E; simpl in E.
  - inversion E; subst. exists []. rewrite app_nil_r. repeat split. constructor.
  - unfold bind at 1 in E. rewrite Hstep in E.
    apply bind_run in E. destruct E as [(got & w2 & Eg & E)|(e & _ & He)]; [|discriminate].
    unfold get_summoner in Eg.
    destruct (summary_api (trace w) (_region (self w)) (_summoner_id (self w)))
      as [s|c|e] eqn:Eapi; inversion Eg; subst; clear Eg.
    + simpl in E. unfold bind at 1 in E. simpl in E.
      unfold bind at 1 in E. simpl in E.
      apply IH in E. destruct E as (results & -> & Hlen & Hall & Hself). simpl in Hall, Hself.
      exists (s :: results). rewrite <- app_assoc. split; [reflexivity|].
      split; [simpl; congruence|]. split; [|exact Hself].
      constructor; [exists (trace w); exact Eapi | exact Hall].
    + simpl in E. unfold bind, raise in E. discriminate.
Qed.

(** X16: when the page props hold no candidate, the disambiguation step
    does nothing, and the loop resolves every name of the batch to the
    identifier the object held when [search] was called: each of the first
    results, one per name, is the summary of that identifier, whatever the
    name asked for, and the object still holds it when the loop ends. *)
Theorem names_resolve_to_held_identifier (d : list (string * pyval)) (names : list string)
    (region : Region) (w : world) r w' :
  (forall history query, multisearch history region query = PageProps (PDict d)) ->
  field d "summoners" (PList []) = PList [] ->
  search (NamesList names) region w = (Ok r, w') ->
  exists from_loop from_cache,
    to_list r = from_loop ++ from_cache
    /\ List.length from_loop = List.length names
    /\ Forall (fun s => exists history,
                  summary_api history region (_summoner_id (self w)) = Built s)
         from_loop.
Proof.
  intros Hpage Hnone E. unfold search in E. simpl in E.
  apply bind_run in E. destruct E as [(parts & w1 & Ep & E)|(e & _ & He)]; [|discriminate].
  destruct (partition_names_ok _ _ _ _ _ _ Ep) as [Hall [-> ->]]. simpl in E.
  apply bind_run in E. destruct E as [(pp & w2 & Eg & E)|(e & _ & He)]; [|discriminate].
  assert (pp = PDict d) as ->.
  { unfold get_page_props in Eg. rewrite Hpage in Eg. inversion Eg. reflexivity. }
  apply get_page_props_logs in Eg. subst w2.
  apply bind_run in E. destruct E as [([] & w3 & El & E)|(e & _ & He)]; [|discriminate].
  apply load_catalogs_identifier in El. unfold frame in El. simpl in El.
  unfold bind at 1 in E. simpl in E.
  apply bind_run in E. destruct E as [(l1 & w4 & En & E)|(e & _ & He)]; [|discriminate].
  apply bind_run in E. destruct E as [(l2 & w5 & Er & E)|(e & _ & He)]; [|discriminate].
  unfold lift in E. inversion E as [[Eres Ew]]. subst w5. clear E.
  apply search_result_to_list in Eres.
  destruct (resolve_names_without_candidates d names Hnone _ _ _ _ En)
    as (from_loop & -> & Hlen & Hheld & _).
  simpl in Er, Hheld. rewrite El in Hheld.
  destruct (resolve_cached_by_id _ _ _ _ _ Er) as (from_cache & -> & _).
  exists from_loop, from_cache. split; [exact Eres|]. split; [exact Hlen | exact Hheld].
Qed.

End Properties.

(** ** The properties on sample runs *)

(** C1: the code does not do this.  With no candidate in the page props,
    the resolution loop still calls [get_summoner] for the requested name,
    with the identifier the [OPGG] object held before.  From
    [OPGG(summoner_id="X")] the batch [["ghost#NA1"]] returns the summoner
    of ["X"] and caches it; from [OPGG()] the request for the identifier
    [None] fails and its [HTTPError] ends the batch.  Neither run raises
    [NoResultsError], which only the empty batch does. *)
Theorem no_candidates_resolves_stale_identifier :
  let C := Samples.collaborators Samples.no_candidates in
  let run := @search C (NamesList ["ghost#NA1"]) "na" (Samples.fresh (PStr "X") Cacher.empty) in
  fst run = Ok (TheObject (Summoner.mk "summoner X" "X"))
  /\ Cacher.get_summoner_id "summoner X" (db (snd run)) = Some "X"
  /\ In (CacheInsertSummoner "summoner X" "X") (trace (snd run))
  /\ fst (@search C (NamesList ["ghost#NA1"]) "na" (Samples.fresh PNone Cacher.empty))
     = Raise HTTPError
  /\ fst (@search C (NamesList []) "na" (Samples.fresh PNone Cacher.empty))
     = Raise (NoResultsError []).
Proof.
  cbv zeta. repeat split; try (vm_compute; reflexivity).
  vm_compute. tauto.
Qed.

Lemma malformed_name_fails_batch_witness :
  @search (Samples.collaborators Samples.two_candidates)
    (NamesList (["abc#EUW"] ++ "abc" :: ["abc#NA1"])) "na"
    (Samples.fresh PNone Cacher.empty)
  = (Raise (MalformedQueryError "abc"),
     mkWorld (mkOPGG PNone "na" None None) Cacher.empty 0
       ([] ++ map CacheGetSummonerId ["abc#EUW"]))
  /\ Forall (fun e => is_network e = false /\ is_cache_write e = false)
       (map CacheGetSummonerId ["abc#EUW"]).
Proof.
  apply (@malformed_name_fails_batch (Samples.collaborators Samples.two_candidates)
           ["abc#EUW"] "abc" ["abc#NA1"] "na" (Samples.fresh PNone Cacher.empty)).
  - constructor; [reflexivity | constructor].
  - reflexivity.
Defined.

(** The batch [["a#1"; "bad"]] fails, but only after the cache has been
    asked for ["a#1"]. *)
Lemma fail_fast_without_access_fails : ~ Spec.fail_fast_without_access.
Proof.
  intros Hspec.
  pose proof (Hspec (Samples.collaborators Samples.two_candidates) ["a#1"; "bad"] "na"
                (Samples.fresh PNone Cacher.empty) _ _
                (Exists_cons_tl _ (Exists_cons_hd _ "bad" [] eq_refl))
                (surjective_pairing _)) as [_ Htrace].
  vm_compute in Htrace. discriminate.
Qed.

Lemma disambiguation_policy_witness :
  select_summoner_id Samples.two_candidates "abc#EUW" (Samples.fresh PNone Cacher.empty)
  = (Ok tt, with_summoner_id (PStr "2") (Samples.fresh PNone Cacher.empty))
  /\ select_summoner_id Samples.one_candidate "abc" (Samples.fresh PNone Cacher.empty)
     = (Ok tt, with_summoner_id (PStr "1") (Samples.fresh PNone Cacher.empty))
  /\ select_summoner_id Samples.two_candidates "abc" (Samples.fresh PNone Cacher.empty)
     = (Raise (AmbiguousResultError "abc"), Samples.fresh PNone Cacher.empty)
  /\ @search (Samples.collaborators Samples.two_candidates) (NamesList ("abc" :: []))
       "na" (Samples.fresh PNone Cacher.empty)
     = (Raise (MalformedQueryError "abc"), Samples.fresh PNone Cacher.empty).
Proof.
  split; [|split; [|split]].
  - apply (proj1 (@disambiguation_policy (Samples.collaborators Samples.two_candidates)
                    (Samples.page_fields
                       [Samples.candidate "abc" "NA1" "1"; Samples.candidate "abc" "EUW" "2"])
                    [Samples.candidate "abc" "NA1" "1"; Samples.candidate "abc" "EUW" "2"]
                    "abc#EUW" (Samples.fresh PNone Cacher.empty) eq_refl)
             "abc" "EUW" [Samples.candidate "abc" "NA1" "1"]
             [("game_name", PStr "abc"); ("tagline", PStr "EUW"); ("summoner_id", PStr "2")]
             []).
    + simpl. lia.
    + reflexivity.
    + reflexivity.
    + constructor; [split; reflexivity | constructor].
    + reflexivity.
  - apply (proj1 (proj2 (@disambiguation_policy
                           (Samples.collaborators Samples.one_candidate)
                           (Samples.page_fields [Samples.candidate "abc" "NA1" "1"])
                           [Samples.candidate "abc" "NA1" "1"]
                           "abc" (Samples.fresh PNone Cacher.empty) eq_refl))
             [("game_name", PStr "abc"); ("tagline", PStr "NA1"); ("summoner_id", PStr "1")]
             (PStr "1")); reflexivity.
  - apply (proj1 (proj2 (proj2 (@disambiguation_policy
                                  (Samples.collaborators Samples.two_candidates)
                                  (Samples.page_fields
                                     [Samples.candidate "abc" "NA1" "1";
                                      Samples.candidate "abc" "EUW" "2"])
                                  [Samples.candidate "abc" "NA1" "1";
                                   Samples.candidate "abc" "EUW" "2"]
                                  "abc" (Samples.fresh PNone Cacher.empty) eq_refl)))).
    + simpl. lia.
    + reflexivity.
  - apply (proj2 (proj2 (proj2 (@disambiguation_policy
                                  (Samples.collaborators Samples.two_candidates)
                                  (Samples.page_fields
                                     [Samples.candidate "abc" "NA1" "1";
                                      Samples.candidate "abc" "EUW" "2"])
                                  [Samples.candidate "abc" "NA1" "1";
                                   Samples.candidate "abc" "EUW" "2"]
                                  "abc" (Samples.fresh PNone Cacher.empty) eq_refl)))).
    reflexivity.
Defined.

(** With two candidates in the page props, [search] fails for the query
    ["abc"] on the guard, not with [AmbiguousResultError]. *)
Lemma untagged_query_ambiguous_fails : ~ Spec.untagged_query_ambiguous.
Proof.
  intros Hspec.
  assert (Hk : (1 < 2)%nat) by lia.
  pose proof (Hspec (Samples.collaborators Samples.two_candidates) Samples.two_candidates
                (PList [Samples.candidate "abc" "NA1" "1"; Samples.candidate "abc" "EUW" "2"])
                2%nat "abc" "na" (Samples.fresh PNone Cacher.empty)
                (fun _ _ => eq_refl) eq_refl eq_refl Hk eq_refl) as E.
  vm_compute in E. discriminate.
Qed.

(** Nor does the sole candidate get accepted for it. *)
Example untagged_query_with_one_candidate :
  @search (Samples.collaborators Samples.one_candidate) (NamesList ["abc"]) "na"
    (Samples.fresh PNone Cacher.empty)
  = (Raise (MalformedQueryError "abc"), Samples.fresh PNone Cacher.empty).
Proof. vm_compute. reflexivity. Qed.

Lemma ambiguous_name_aborts_batch_witness :
  @resolve_names (Samples.collaborators Samples.two_candidates) Samples.two_candidates
    ([] ++ "abc" :: ["abc#NA1"]) [] (Samples.fresh PNone Cacher.empty)
  = (Raise (AmbiguousResultError "abc"), Samples.fresh PNone Cacher.empty)
  /\ exists e,
       fst (@search (Samples.collaborators Samples.two_candidates)
              (NamesList ([] ++ "abc" :: ["abc#NA1"])) "na"
              (Samples.fresh PNone Cacher.empty))
       = Raise e.
Proof.
  pose proof (@ambiguous_name_aborts_batch (Samples.collaborators Samples.two_candidates)
                Samples.two_candidates
                (PList [Samples.candidate "abc" "NA1" "1"; Samples.candidate "abc" "EUW" "2"])
                2 [] "abc" ["abc#NA1"] eq_refl eq_refl) as Hthm.
  assert (Hk : (1 < 2)%nat) by lia.
  destruct (Hthm Hk eq_refl) as [Hloop Hsearch].
  split.
  - apply (Hloop [] (Samples.fresh PNone Cacher.empty) []). reflexivity.
  - apply (Hsearch "na" (Samples.fresh PNone Cacher.empty) _
             (Samples.fresh PNone Cacher.empty)).
    vm_compute. reflexivity.
Defined.

(** With two candidates in the page props, the batch [["abc"; "abc#NA1"]]
    has no result, though ["abc#NA1"] resolves on its own; and the loop
    over it ends with the error of ["abc"]. *)
Lemma partial_batch_success_fails :
  ~ Spec.partial_batch_success /\ ~ Spec.ambiguity_kept_to_its_name.
Proof.
  assert (Hk : (1 < 2)%nat) by lia.
  split; intros Hspec.
  - destruct (Hspec (Samples.collaborators Samples.two_candidates) Samples.two_candidates
                (PList [Samples.candidate "abc" "NA1" "1"; Samples.candidate "abc" "EUW" "2"])
                2%nat ["abc"; "abc#NA1"] "abc" "abc#NA1" "na"
                (Samples.fresh PNone Cacher.empty)
                (fun _ _ => eq_refl) eq_refl eq_refl Hk
                (or_introl eq_refl) eq_refl (or_intror (or_introl eq_refl)))
      as [r E].
    + exists (Summoner.mk "summoner 1" "1"). vm_compute. reflexivity.
    + vm_compute in E. discriminate.
  - apply (Hspec (Samples.collaborators Samples.two_candidates) Samples.two_candidates
             (PList [Samples.candidate "abc" "NA1" "1"; Samples.candidate "abc" "EUW" "2"])
             2%nat ["abc"; "abc#NA1"] "abc" (Samples.fresh PNone Cacher.empty)
             (Raise (AmbiguousResultError "abc")) (Samples.fresh PNone Cacher.empty)
             (or_introl eq_refl) eq_refl eq_refl eq_refl Hk eq_refl).
    reflexivity.
Qed.

(** Through [search] the same batch ends even sooner, on the guard: no
    name of it is resolved. *)
Example untagged_name_in_batch :
  @search (Samples.collaborators Samples.two_candidates)
    (NamesList ["abc"; "abc#NA1"]) "na" (Samples.fresh PNone Cacher.empty)
  = (Raise (MalformedQueryError "abc"), Samples.fresh PNone Cacher.empty).
Proof. vm_compute. reflexivity. Qed.


(** The batch [["a#1"; "b#2"; "c#3"]] with ["b#2"] in the cache: the loop
    resolves ["a#1"], resolves ["b#2"] to the identifier of ["a#1"] again
    (no candidate matches it), resolves ["c#3"], and the cached identifier
    of ["b#2"] comes last. *)
Example mixed_batch_result :
  fst (@search (Samples.collaborators Samples.candidates_a_c)
         (NamesList ["a#1"; "b#2"; "c#3"]) "na"
         (Samples.fresh PNone (Samples.knowing "b#2" "id-b")))
  = Ok (TheList [Summoner.mk "summoner id-a" "id-a"; Summoner.mk "summoner id-a" "id-a";
                 Summoner.mk "summoner id-c" "id-c"; Summoner.mk "summoner id-b" "id-b"]).
Proof. vm_compute. reflexivity. Qed.


Lemma empty_catalog_never_replaces_witness :
  Cacher.champions
    (db (snd (@search (Samples.collaborators Samples.page_with_raw_champion)
                (NamesList ["abc#EUW"]) "na" (Samples.fresh PNone Samples.stocked))))
  = Cacher.champions Samples.stocked
  /\ Cacher.seasons
       (db (snd (@search (Samples.collaborators Samples.page_with_raw_champion)
                   (NamesList ["abc#EUW"]) "na" (Samples.fresh PNone Samples.stocked))))
     = Cacher.seasons Samples.stocked.
Proof.
  destruct (proj2 (proj2 (proj2 (proj2
              (@empty_catalog_never_replaces
                 (Samples.collaborators Samples.page_with_raw_champion)))))
              (NamesList ["abc#EUW"]) "na" (Samples.fresh PNone Samples.stocked)
              (fst (@search (Samples.collaborators Samples.page_with_raw_champion)
                      (NamesList ["abc#EUW"]) "na" (Samples.fresh PNone Samples.stocked)))
              (snd (@search (Samples.collaborators Samples.page_with_raw_champion)
                      (NamesList ["abc#EUW"]) "na" (Samples.fresh PNone Samples.stocked))))
    as [Hchampions Hseasons].
  - vm_compute. reflexivity.
  - split; [apply Hchampions | apply Hseasons]; simpl; discriminate.
Defined.

Lemma cached_name_not_fetched_witness :
  appends (fun e => ~ fetches "Faker#KR1" e)
    (Samples.fresh (PStr "X") (Samples.knowing "Faker#KR1" "abc123"))
    (snd (@search (Samples.collaborators Samples.no_candidates)
            (NamesList ["Faker#KR1"]) "na"
            (Samples.fresh (PStr "X") (Samples.knowing "Faker#KR1" "abc123"))))
  /\ exists rest,
       trace (snd (@search (Samples.collaborators Samples.no_candidates)
                     (NamesList ["Faker#KR1"]) "na"
                     (Samples.fresh (PStr "X") (Samples.knowing "Faker#KR1" "abc123"))))
       = trace (Samples.fresh (PStr "X") (Samples.knowing "Faker#KR1" "abc123"))
         ++ map CacheGetSummonerId ["Faker#KR1"]
         ++ NetPageProps
              (NamesList
                 (cache_misses
                    (db (Samples.fresh (PStr "X") (Samples.knowing "Faker#KR1" "abc123")))
                    ["Faker#KR1"])) "na" :: rest.
Proof.
  destruct (@cached_name_not_fetched (Samples.collaborators Samples.no_candidates)
              ["Faker#KR1"] "Faker#KR1" "abc123" "na"
              (Samples.fresh (PStr "X") (Samples.knowing "Faker#KR1" "abc123"))
              (Ok (TheList [Summoner.mk "summoner X" "X";
                            Summoner.mk "summoner abc123" "abc123"]))
              (snd (@search (Samples.collaborators Samples.no_candidates)
                      (NamesList ["Faker#KR1"]) "na"
                      (Samples.fresh (PStr "X") (Samples.knowing "Faker#KR1" "abc123")))))
    as [Hnever Hasked].
  - left. reflexivity.
  - vm_compute. reflexivity.
  - discriminate.
  - vm_compute. reflexivity.
  - split; [exact Hnever|].
    apply Hasked. constructor; [reflexivity | constructor].
Defined.

(** A name cached with the empty identifier is put to the multisearch
    page. *)
Lemma cache_precedence_fails : ~ Spec.cache_precedence.
Proof.
  intros Hspec.
  assert (Hid : Cacher.get_summoner_id "Faker#KR1"
                  (db (Samples.fresh PNone (Samples.knowing "Faker#KR1" ""))) = Some "")
    by (vm_compute; reflexivity).
  pose proof (Hspec (Samples.collaborators Samples.no_candidates) ["Faker#KR1"]
                "Faker#KR1" "" "na" (Samples.fresh PNone (Samples.knowing "Faker#KR1" ""))
                _ _ (or_introl eq_refl) Hid (surjective_pairing _)) as [evs [Ht Hevs]].
  vm_compute in Ht. subst evs.
  apply Forall_inv_tail, Forall_inv in Hevs. apply Hevs. left. reflexivity.
Qed.

Lemma fetched_champions_never_returned_witness :
  @champions_of (Samples.collaborators Samples.page_with_raw_champion)
    (Samples.raw_champion :: []) = Raise TypeError
  /\ @get_all_champions (Samples.collaborators Samples.page_with_raw_champion)
       Samples.page_with_raw_champion (Samples.fresh PNone Cacher.empty)
     = (Raise TypeError, Samples.fresh PNone Cacher.empty).
Proof.
  pose proof (@fetched_champions_never_returned
                (Samples.collaborators Samples.page_with_raw_champion))
    as (_ & Hshaped & _ & Hpage & _).
  split.
  - apply Hshaped. reflexivity.
  - destruct (Hpage Samples.page_with_raw_champion
                (PDict [("1", Samples.raw_champion)]) Samples.raw_champion []
                (Samples.fresh PNone Cacher.empty) eq_refl eq_refl eq_refl)
      as (e & Hrun & Htype).
    rewrite (Htype eq_refl) in Hrun. exact Hrun.
Defined.

(** A raw champion whose passive is [null] raises [AttributeError]: the
    method [get] is looked up on [None] before [Champion] is called. *)
Lemma raises_type_error_fails : ~ Spec.raises_type_error.
Proof.
  intros Hspec.
  assert (Hraw : [Samples.champion_without_passive] <> []) by discriminate.
  pose proof (Hspec (Samples.collaborators Samples.page_with_champion)
                Samples.page_with_champion
                (PDict [("1", Samples.champion_without_passive)])
                [Samples.champion_without_passive] (Samples.fresh PNone Cacher.empty)
                eq_refl eq_refl eq_refl Hraw) as E.
  vm_compute in E. discriminate.
Qed.

Example champion_without_passive_raises :
  fst (@get_all_champions (Samples.collaborators Samples.page_with_champion)
         Samples.page_with_champion (Samples.fresh PNone Cacher.empty))
  = Raise AttributeError.
Proof. vm_compute. reflexivity. Qed.

Lemma return_shape_by_match_count_witness :
  @get_champion_by (Samples.collaborators Samples.no_candidates) ID (One (SInt 2))
    (mkKwargs None "") (Samples.fresh PNone Samples.stocked)
  = (Ok (TheList [Samples.champion 2 "Olaf"; Samples.champion 2 "Olaf"]),
     log CacheGetAllChamps (Samples.fresh PNone Samples.stocked))
  /\ @get_champion_by (Samples.collaborators Samples.no_candidates) ID (One (SInt 1))
       (mkKwargs None "") (Samples.fresh PNone Samples.stocked)
     = (Ok (TheObject (Samples.champion 1 "Annie")),
        log CacheGetAllChamps (Samples.fresh PNone Samples.stocked))
  /\ @get_champion_by (Samples.collaborators Samples.no_candidates) ID (One (SInt 3))
       (mkKwargs None "") (Samples.fresh PNone Samples.stocked)
     = (Raise IndexError, log CacheGetAllChamps (Samples.fresh PNone Samples.stocked))
  /\ @get_season_by (Samples.collaborators Samples.no_candidates) ID (Many [SInt 1; SInt 2])
       (Samples.fresh PNone Samples.stocked)
     = (Ok (TheList [Samples.season 1; Samples.season 2; Samples.season 2]),
        log CacheGetAllSeasons (Samples.fresh PNone Samples.stocked))
  /\ @get_season_by (Samples.collaborators Samples.no_candidates) ID (One (SInt 1))
       (Samples.fresh PNone Samples.stocked)
     = (Ok (TheObject (Samples.season 1)),
        log CacheGetAllSeasons (Samples.fresh PNone Samples.stocked))
  /\ @get_season_by (Samples.collaborators Samples.no_candidates) KEY (One (SInt 1))
       (Samples.fresh PNone Samples.stocked)
     = (Raise IndexError, log CacheGetAllSeasons (Samples.fresh PNone Samples.stocked)).
Proof.
  pose proof (@return_shape_by_match_count (Samples.collaborators Samples.no_candidates))
    as (Hchampion & Hseason & _ & _).
  assert (Htwo : (2 <= 2)%nat) by lia.
  assert (Hthree : (2 <= 3)%nat) by lia.
  split; [|split; [|split; [|split; [|split]]]].
  - apply (proj1 (Hchampion ID (One (SInt 2)) (mkKwargs None "")
                    (Samples.fresh PNone Samples.stocked) _ _ _ eq_refl eq_refl) Htwo).
  - apply (proj1 (proj2 (Hchampion ID (One (SInt 1)) (mkKwargs None "")
                           (Samples.fresh PNone Samples.stocked) _ _ _ eq_refl eq_refl))
             _ eq_refl).
  - apply (proj2 (proj2 (Hchampion ID (One (SInt 3)) (mkKwargs None "")
                           (Samples.fresh PNone Samples.stocked) _ _ _ eq_refl eq_refl))
             eq_refl).
  - apply (proj1 (Hseason ID (Many [SInt 1; SInt 2])
                    (Samples.fresh PNone Samples.stocked) _ _ _ eq_refl eq_refl) Hthree).
  - apply (proj1 (proj2 (Hseason ID (One (SInt 1))
                           (Samples.fresh PNone Samples.stocked) _ _ _ eq_refl eq_refl))
             _ eq_refl).
  - apply (proj2 (proj2 (Hseason KEY (One (SInt 1))
                           (Samples.fresh PNone Samples.stocked) _ _ _ eq_refl eq_refl))
             eq_refl).
Defined.

(** A query with its tag goes through: ["abc#EUW"] is resolved to the
    candidate with that tagline. *)
Example tagged_query_resolved :
  fst (@search (Samples.collaborators Samples.two_candidates) (NamesList ["abc#EUW"]) "na"
         (Samples.fresh PNone Cacher.empty))
  = Ok (TheObject (Summoner.mk "summoner 2" "2")).
Proof. vm_compute. reflexivity. Qed.

(** ** The further properties on sample runs *)

Lemma comma_string_is_batch_witness :
  @search (Samples.collaborators Samples.two_candidates)
    (NamesStr (join "," ["abc#NA1"; "abc#EUW"])) "na" (Samples.fresh PNone Cacher.empty)
  = @search (Samples.collaborators Samples.two_candidates)
      (NamesList ["abc#NA1"; "abc#EUW"]) "na" (Samples.fresh PNone Cacher.empty).
Proof.
  apply (proj2 (@comma_string_is_batch (Samples.collaborators Samples.two_candidates))).
  - discriminate.
  - constructor; [reflexivity | constructor; [reflexivity | constructor]].
Defined.

(** The pieces of a string of names are not trimmed: with a space after
    the comma the second query is [" abc#EUW"]. *)
Example names_are_not_trimmed :
  normalize (NamesStr "abc#NA1, abc#EUW") = ["abc#NA1"; " abc#EUW"].
Proof. reflexivity. Qed.

Lemma unmatched_query_keeps_identifier_witness :
  select_summoner_id Samples.candidates_a_c "b#2" (Samples.fresh (PStr "X") Cacher.empty)
  = (Ok tt, Samples.fresh (PStr "X") Cacher.empty)
  /\ exists later,
       trace (snd (@resolve_names (Samples.collaborators Samples.candidates_a_c)
                     Samples.candidates_a_c ("b#2" :: ["c#3"]) []
                     (Samples.fresh (PStr "X") Cacher.empty)))
       = trace (Samples.fresh (PStr "X") Cacher.empty)
         ++ NetSummoner (_region (self (Samples.fresh (PStr "X") Cacher.empty)))
              (_summoner_id (self (Samples.fresh (PStr "X") Cacher.empty))) :: later.
Proof.
  assert (Hlen : (1 < 2)%nat) by lia.
  destruct (@unmatched_query_keeps_identifier (Samples.collaborators Samples.candidates_a_c)
              (Samples.page_fields
                 [Samples.candidate "a" "1" "id-a"; Samples.candidate "c" "3" "id-c"])
              [Samples.candidate "a" "1" "id-a"; Samples.candidate "c" "3" "id-c"]
              "b#2" "b" "2" (Samples.fresh (PStr "X") Cacher.empty)
              eq_refl Hlen eq_refl) as [Hstep Hloop].
  - constructor; [split; reflexivity | constructor; [split; reflexivity | constructor]].
  - split; [exact Hstep|].
    apply (Hloop ["c#3"] [] _ _ (surjective_pairing _)).
Defined.

Lemma sole_candidate_taken_for_any_query_witness :
  select_summoner_id Samples.one_candidate "xyz#EUW" (Samples.fresh PNone Cacher.empty)
  = (Ok tt, with_summoner_id (PStr "1") (Samples.fresh PNone Cacher.empty))
  /\ select_summoner_id (PDict MoreSamples.candidate_without_id) "abc#NA1"
       (Samples.fresh PNone Cacher.empty)
     = (Raise KeyError, Samples.fresh PNone Cacher.empty).
Proof.
  split.
  - apply (proj1 (@sole_candidate_taken_for_any_query
                    (Samples.collaborators Samples.one_candidate)
                    (Samples.page_fields [Samples.candidate "abc" "NA1" "1"])
                    [("game_name", PStr "abc"); ("tagline", PStr "NA1");
                     ("summoner_id", PStr "1")]
                    "xyz#EUW" (Samples.fresh PNone Cacher.empty) eq_refl)
             (PStr "1") eq_refl).
  - apply (proj2 (@sole_candidate_taken_for_any_query
                    (Samples.collaborators Samples.one_candidate)
                    MoreSamples.candidate_without_id
                    [("game_name", PStr "abc"); ("tagline", PStr "NA1")]
                    "abc#NA1" (Samples.fresh PNone Cacher.empty) eq_refl)
             eq_refl).
Defined.

Lemma second_separator_fails_batch_witness :
  select_summoner_id Samples.two_candidates "abc#NA1#x" (Samples.fresh PNone Cacher.empty)
  = (Raise ValueError, Samples.fresh PNone Cacher.empty)
  /\ exists e,
       fst (@search (Samples.collaborators Samples.two_candidates)
              (NamesList (["abc#EUW"] ++ "abc#NA1#x" :: [])) "na"
              (Samples.fresh PNone Cacher.empty))
       = Raise e.
Proof.
  assert (Hlen : (1 < 2)%nat) by lia.
  destruct (@second_separator_fails_batch (Samples.collaborators Samples.two_candidates)
              (Samples.page_fields
                 [Samples.candidate "abc" "NA1" "1"; Samples.candidate "abc" "EUW" "2"])
              [Samples.candidate "abc" "NA1" "1"; Samples.candidate "abc" "EUW" "2"]
              "abc" "NA1" "x" "abc#NA1#x" (Samples.fresh PNone Cacher.empty)
              eq_refl Hlen eq_refl) as (_ & Hstep & _ & Hsearch).
  split; [exact Hstep|].
  apply (Hsearch ["abc#EUW"] [] "na" (Samples.fresh PNone Cacher.empty) _ _
           (fun _ _ => eq_refl) (surjective_pairing _)).
Defined.

Lemma seasons_listed_from_page_props_witness :
  @get_all_seasons (Samples.collaborators Samples.no_candidates)
    (PDict MoreSamples.page_with_seasons) (Samples.fresh PNone Cacher.empty)
  = (Ok [SeasonInfo.mk (PInt 17) PNone (PInt 2023) (PInt 1) PNone;
         SeasonInfo.mk (PInt 19) PNone PNone PNone (PBool true)],
     log CacheGetAllSeasons (Samples.fresh PNone Cacher.empty))
  /\ @get_all_seasons (Samples.collaborators Samples.no_candidates)
       (PDict MoreSamples.page_with_odd_season) (Samples.fresh PNone Cacher.empty)
     = (Raise AttributeError, log CacheGetAllSeasons (Samples.fresh PNone Cacher.empty)).
Proof.
  split.
  - apply (proj1 (@seasons_listed_from_page_props
                    (Samples.collaborators Samples.no_candidates)
                    MoreSamples.page_with_seasons MoreSamples.seasons_by_id
                    (Samples.fresh PNone Cacher.empty) eq_refl eq_refl)).
    reflexivity.
  - apply (proj2 (@seasons_listed_from_page_props
                    (Samples.collaborators Samples.no_candidates)
                    MoreSamples.page_with_odd_season
                    [("17", PDict [("id", PInt 17)]); ("18", PInt 18)]
                    (Samples.fresh PNone Cacher.empty) eq_refl eq_refl)).
    reflexivity.
Defined.

Lemma undecodable_page_fails_batch_witness :
  @search MoreSamples.undecodable (NamesList ["abc#NA1"]) "na"
    (Samples.fresh (PStr "X") Cacher.empty)
  = (Raise KeyError,
     mkWorld (mkOPGG (PStr "X") "na" None None) Cacher.empty 0
       ([] ++ map CacheGetSummonerId ["abc#NA1"]
        ++ [NetPageProps (NamesList (cache_misses Cacher.empty ["abc#NA1"])) "na";
            CacheGetAllSeasons; CacheGetAllChamps; CacheGetAllSeasons])).
Proof.
  apply (@undecodable_page_fails_batch MoreSamples.undecodable ["abc#NA1"] "na"
           (Samples.fresh (PStr "X") Cacher.empty)).
  - constructor; [reflexivity | constructor].
  - intros history query. reflexivity.
  - reflexivity.
Defined.

Lemma lookups_that_never_return_witness :
  (exists e,
      fst (@get_champion_by (Samples.collaborators Samples.no_candidates) COST
             (One (SInt 450)) (mkKwargs None "BLUE_ESSENCE")
             (Samples.fresh PNone Samples.stocked))
      = Raise e)
  /\ @get_champion_by (Samples.collaborators Samples.no_candidates) BLUE_ESSENCE
       (One (SInt 450)) (mkKwargs None "BLUE_ESSENCE") (Samples.fresh PNone Samples.stocked)
     = (Raise IndexError, log CacheGetAllChamps (Samples.fresh PNone Samples.stocked))
  /\ @get_season_by (Samples.collaborators Samples.no_candidates) NAME (One (SInt 450))
       (Samples.fresh PNone Samples.stocked)
     = (Raise IndexError, log CacheGetAllSeasons (Samples.fresh PNone Samples.stocked)).
Proof.
  destruct (@lookups_that_never_return (Samples.collaborators Samples.no_candidates)
              (One (SInt 450)) (mkKwargs None "BLUE_ESSENCE")
              (Samples.fresh PNone Samples.stocked)) as (Hcost & Hby & Hseason).
  split; [exact (Hcost 450)|]. split.
  - apply (Hby (Cacher.champions Samples.stocked)). reflexivity.
  - apply (Hseason NAME (Cacher.seasons Samples.stocked)); [discriminate | reflexivity].
Defined.


(** The calls of that batch: seven cache and page calls, then two calls
    for each of the three names, then one for the cached name. *)
Example calls_of_the_mixed_batch :
  trace (snd (@search (Samples.collaborators Samples.candidates_a_c)
                (NamesList ["a#1"; "b#2"; "c#3"]) "na"
                (Samples.fresh PNone (Samples.knowing "b#2" "id-b"))))
  = [CacheGetSummonerId "a#1"; CacheGetSummonerId "b#2"; CacheGetSummonerId "c#3";
     NetPageProps (NamesList ["a#1"; "c#3"]) "na";
     CacheGetAllSeasons; CacheGetAllChamps; CacheGetAllSeasons;
     CacheInsertAllSeasons []; CacheInsertAllChamps [];
     NetSummoner "na" (PStr "id-a"); CacheInsertSummoner "summoner id-a" "id-a";
     NetSummoner "na" (PStr "id-a"); CacheInsertSummoner "summoner id-a" "id-a";
     NetSummoner "na" (PStr "id-c"); CacheInsertSummoner "summoner id-c" "id-c";
     NetSummoner "na" (PStr "id-b")].
Proof. vm_compute. reflexivity. Qed.

Lemma object_after_batch_witness :
  _region (self (snd (@search (Samples.collaborators Samples.candidates_a_c)
                        (NamesList ["a#1"; "b#2"; "c#3"]) "euw"
                        (Samples.fresh PNone (Samples.knowing "b#2" "id-b")))))
  = "euw"
  /\ _summoner_id (self (snd (@search (Samples.collaborators Samples.candidates_a_c)
                                (NamesList ["a#1"; "b#2"; "c#3"]) "euw"
                                (Samples.fresh PNone (Samples.knowing "b#2" "id-b")))))
     = PStr (List.last (cache_hits (db (Samples.fresh PNone (Samples.knowing "b#2" "id-b")))
                          ["a#1"; "b#2"; "c#3"]) "").
Proof.
  destruct (@object_after_batch (Samples.collaborators Samples.candidates_a_c)
              ["a#1"; "b#2"; "c#3"] "euw"
              (Samples.fresh PNone (Samples.knowing "b#2" "id-b"))
              (TheList [Summoner.mk "summoner id-a" "id-a";
                        Summoner.mk "summoner id-a" "id-a";
                        Summoner.mk "summoner id-c" "id-c";
                        Summoner.mk "summoner id-b" "id-b"])
              (snd (@search (Samples.collaborators Samples.candidates_a_c)
                      (NamesList ["a#1"; "b#2"; "c#3"]) "euw"
                      (Samples.fresh PNone (Samples.knowing "b#2" "id-b")))))
    as (Hregion & _ & _ & Hid).
  - vm_compute. reflexivity.
  - split; [exact Hregion|]. apply Hid. vm_compute. discriminate.
Defined.

Lemma default_metric_finds_no_price_witness :
  get_cost_in MoreSamples.upper MoreSamples.annie "BE" = PNone.
Proof.
  apply (default_metric_finds_no_price MoreSamples.upper MoreSamples.annie).
  constructor; [|constructor].
  intros prices Hprices. injection Hprices as <-.
  constructor; [|constructor; [|constructor]].
  - exists (PDict [("currency", PStr "IP"); ("cost", PInt 450)]). reflexivity.
  - exists (PDict [("currency", PStr "RP"); ("cost", PInt 260)]). reflexivity.
Defined.

(** In lower case the metric does find the price in blue essence. *)
Example lower_case_metric_finds_the_price :
  get_cost_in MoreSamples.upper MoreSamples.annie "be" = PInt 450.
Proof. reflexivity. Qed.

Lemma cost_of_first_price_in_metric_witness :
  get_cost_in MoreSamples.upper MoreSamples.annie "rp" = PInt 260
  /\ get_cost_in MoreSamples.upper MoreSamples.olaf "rp" = PNone
  /\ get_cost_in MoreSamples.upper MoreSamples.annie "ip" = PNone.
Proof.
  split; [|split].
  - apply (proj1 (cost_of_first_price_in_metric MoreSamples.upper MoreSamples.annie
                    "rp" "RP" eq_refl)
             [] (MoreSamples.skin "default" (Some [Price.mk (PStr "BE") (PInt 450);
                                                   Price.mk (PStr "RP") (PInt 260)])) []
             [Price.mk (PStr "BE") (PInt 450)] (Price.mk (PStr "RP") (PInt 260)) []);
      reflexivity.
  - apply (proj1 (proj2 (cost_of_first_price_in_metric MoreSamples.upper MoreSamples.olaf
                           "rp" "RP" eq_refl))
             [MoreSamples.skin "default" (Some [Price.mk (PStr "BE") (PInt 3150)])]
             (MoreSamples.skin "classic" None)
             [MoreSamples.skin "forsaken" (Some [Price.mk (PStr "RP") (PInt 790)])]);
      reflexivity.
  - apply (proj2 (proj2 (cost_of_first_price_in_metric MoreSamples.upper MoreSamples.annie
                           "ip" "IP" eq_refl))).
    reflexivity.
Defined.

Lemma no_data_fails_batch_witness :
  (exists e,
      fst (@search (MoreSamples.no_data Samples.one_candidate) (NamesList ["abc#NA1"]) "na"
             (Samples.fresh PNone Cacher.empty))
      = Raise e)
  /\ appends (fun e => forall name id, e <> CacheInsertSummoner name id)
       (Samples.fresh PNone Cacher.empty)
       (snd (@search (MoreSamples.no_data Samples.one_candidate) (NamesList ["abc#NA1"]) "na"
               (Samples.fresh PNone Cacher.empty))).
Proof.
  destruct (@no_data_fails_batch (MoreSamples.no_data Samples.one_candidate) ["abc#NA1"] "na"
              (Samples.fresh PNone Cacher.empty)
              (fst (@search (MoreSamples.no_data Samples.one_candidate)
                      (NamesList ["abc#NA1"]) "na" (Samples.fresh PNone Cacher.empty)))
              (snd (@search (MoreSamples.no_data Samples.one_candidate)
                      (NamesList ["abc#NA1"]) "na" (Samples.fresh PNone Cacher.empty))))
    as (Hraise & Hwrites & _).
  - discriminate.
  - intros history region summoner_id. exists (PList []). reflexivity.
  - apply surjective_pairing.
  - split; [exact Hraise | exact Hwrites].
Defined.

(** The error of that batch is the [AttributeError] of [summoner.name]. *)
Example no_data_raises_attribute_error :
  fst (@search (MoreSamples.no_data Samples.one_candidate) (NamesList ["abc#NA1"]) "na"
         (Samples.fresh PNone Cacher.empty))
  = Raise AttributeError.
Proof. vm_compute. reflexivity. Qed.

Lemma champion_lookup_serves_cache_only_witness :
  Cacher.champions (db (Samples.fresh PNone Samples.stocked)) <> []
  /\ incl (to_list (TheList [Samples.champion 2 "Olaf"; Samples.champion 2 "Olaf"]))
       (Cacher.champions (db (Samples.fresh PNone Samples.stocked))).
Proof.
  destruct (@champion_lookup_serves_cache_only (Samples.collaborators Samples.no_candidates)
              NAME (One (SStr "Olaf")) (mkKwargs None "")
              (Samples.fresh PNone Samples.stocked)
              (TheList [Samples.champion 2 "Olaf"; Samples.champion 2 "Olaf"])
              (log CacheGetAllChamps (Samples.fresh PNone Samples.stocked)))
    as (Hcached & _ & _ & Hincl).
  - vm_compute. reflexivity.
  - split; [exact Hcached | exact Hincl].
Defined.

(** Without champion statistics the recent games are requested. *)
Example games_of_a_summoner_without_stats :
  most_champions_and_games (list pyval) [] (ret [PStr "game"])
    (PDict [("summoner", PDict [("name", PStr "abc")])])
    (Samples.fresh PNone Samples.stocked)
  = (Ok ([], [PStr "game"]), Samples.fresh PNone Samples.stocked).
Proof. reflexivity. Qed.

Lemma lookups_only_read_witness :
  snd (@get_season_by (Samples.collaborators Samples.no_candidates) ID (One (SInt 1))
         (Samples.fresh PNone Cacher.empty))
  = log (NetPageProps (NamesStr "ColbyFaulkn1") "na")
      (log CacheGetAllSeasons (Samples.fresh PNone Cacher.empty))
  /\ snd (@get_champion_by (Samples.collaborators Samples.no_candidates) ID (One (SInt 1))
            (mkKwargs (Some Samples.page_with_raw_champion) "")
            (Samples.fresh PNone Samples.stocked))
     = Samples.fresh PNone Samples.stocked.
Proof.
  destruct (@lookups_only_read (Samples.collaborators Samples.no_candidates) ID
              (One (SInt 1)) (Samples.fresh PNone Cacher.empty)) as [Hseason _].
  destruct (@lookups_only_read (Samples.collaborators Samples.no_candidates) ID
              (One (SInt 1)) (Samples.fresh PNone Samples.stocked)) as [_ Hchampion].
  split.
  - apply (Hseason _ _ (surjective_pairing _)).
  - apply (Hchampion (mkKwargs (Some Samples.page_with_raw_champion) "") _ _
             (surjective_pairing _)).
Defined.

Lemma names_resolve_to_held_identifier_witness :
  exists from_loop from_cache,
    to_list (TheList [Summoner.mk "summoner X" "X"; Summoner.mk "summoner X" "X"])
    = from_loop ++ from_cache
    /\ List.length from_loop = List.length ["ghost#NA1"; "abc#EUW"]
    /\ Forall (fun s => exists history,
                  @summary_api (Samples.collaborators Samples.no_candidates) history "na"
                    (_summoner_id (self (Samples.fresh (PStr "X") Cacher.empty)))
                  = Built s)
         from_loop.
Proof.
  apply (@names_resolve_to_held_identifier (Samples.collaborators Samples.no_candidates)
           (Samples.page_fields []) ["ghost#NA1"; "abc#EUW"] "na"
           (Samples.fresh (PStr "X") Cacher.empty)
           (TheList [Summoner.mk "summoner X" "X"; Summoner.mk "summoner X" "X"])
           (snd (@search (Samples.collaborators Samples.no_candidates)
                   (NamesList ["ghost#NA1"; "abc#EUW"]) "na"
                   (Samples.fresh (PStr "X") Cacher.empty)))).
  - intros history query. reflexivity.
  - reflexivity.
  - vm_compute. reflexivity.
Defined.

Lemma most_champions_stay_empty_witness :
  (exists fields previous_seasons league_stats games,
      MoreSamples.new_Summoner fields previous_seasons league_stats [] games
      = Ok (MoreSamples.fields_of_abc, [],
            [([("id", PNone); ("queue_translate", PNone); ("game_type", PNone)],
              [("tier", PNone); ("division", PNone); ("lp", PNone);
               ("tier_image_url", PNone); ("border_image_url", PNone);
               ("level", PNone)])],
            [], []))
  /\ most_champions_and_games MoreSamples.Games [] MoreSamples.get_recent_games
       (PDict MoreSamples.content_with_stats) (Samples.fresh PNone Samples.stocked)
     = (Ok ([], []), Samples.fresh PNone Samples.stocked).
Proof.
  destruct (@most_champions_stay_empty (Samples.collaborators Samples.no_candidates)
              MoreSamples.Tier MoreSamples.RankEntry MoreSamples.Season
              MoreSamples.QueueInfo MoreSamples.LeagueStats MoreSamples.SummonerT
              MoreSamples.Games MoreSamples.new_Tier MoreSamples.new_RankEntry
              MoreSamples.new_Season MoreSamples.new_QueueInfo MoreSamples.new_LeagueStats
              MoreSamples.new_Summoner [] MoreSamples.get_recent_games
              (MoreSamples.summary_of (PDict MoreSamples.content_with_stats))
              (PDict MoreSamples.content_with_stats) (Samples.fresh PNone Samples.stocked))
    as (_ & _ & Hmethod & Hloop).
  split.
  - apply (Hmethod false _
             (log (NetSummoner "na" PNone) (Samples.fresh PNone Samples.stocked))).
    vm_compute. reflexivity.
  - apply (Hloop MoreSamples.content_with_stats MoreSamples.summoner_with_stats
             MoreSamples.stats_of_abc (PDict [("id", PInt 1); ("play", PInt 10)]) []);
      reflexivity.
Defined.

Lemma parsing_ends_early_witness :
  @MoreSamples.parse (Samples.collaborators Samples.no_candidates)
    (PDict MoreSamples.content_with_season) (Samples.fresh (PStr "X") Cacher.empty)
  = (Ok (GetSummoner.mkParsed _ _ _ [] [] [] []), Samples.fresh (PStr "X") Cacher.empty)
  /\ fst (@MoreSamples.get_summoner (Samples.collaborators Samples.no_candidates)
            (PDict MoreSamples.content_with_season) (Samples.fresh (PStr "X") Cacher.empty))
     = Ok (inl (MoreSamples.fields_of_abc, [], [], [], []))
  /\ @MoreSamples.parse (Samples.collaborators Samples.no_candidates)
       (PDict MoreSamples.content_without_leagues) (Samples.fresh (PStr "X") Cacher.empty)
     = (Ok (GetSummoner.mkParsed _ _ _ [] [] [] []), Samples.fresh (PStr "X") Cacher.empty).
Proof.
  destruct (@parsing_ends_early (Samples.collaborators Samples.no_candidates)
              MoreSamples.Tier MoreSamples.RankEntry MoreSamples.Season
              MoreSamples.QueueInfo MoreSamples.LeagueStats MoreSamples.SummonerT
              MoreSamples.Games MoreSamples.new_Tier MoreSamples.new_RankEntry
              MoreSamples.new_Season MoreSamples.new_QueueInfo MoreSamples.new_LeagueStats
              MoreSamples.new_Summoner [] MoreSamples.get_recent_games
              (MoreSamples.summary_of (PDict MoreSamples.content_with_season))
              MoreSamples.content_with_season MoreSamples.summoner_with_season
              (Samples.fresh (PStr "X") Cacher.empty) eq_refl) as [Hseason _].
  destruct (Hseason (PDict [("season_id", PInt 17); ("created_at", PNone)]) [] eq_refl)
    as [Hparse Hmethod].
  { intros info. discriminate. }
  destruct (@parsing_ends_early (Samples.collaborators Samples.no_candidates)
              MoreSamples.Tier MoreSamples.RankEntry MoreSamples.Season
              MoreSamples.QueueInfo MoreSamples.LeagueStats MoreSamples.SummonerT
              MoreSamples.Games MoreSamples.new_Tier MoreSamples.new_RankEntry
              MoreSamples.new_Season MoreSamples.new_QueueInfo MoreSamples.new_LeagueStats
              MoreSamples.new_Summoner [] MoreSamples.get_recent_games
              (MoreSamples.summary_of (PDict MoreSamples.content_without_leagues))
              MoreSamples.content_without_leagues [("name", PStr "abc")]
              (Samples.fresh (PStr "X") Cacher.empty) eq_refl) as [_ Hleagues].
  split; [|split].
  - destruct (Hparse _ _ (surjective_pairing _)) as [Hw Hl].
    rewrite (surjective_pairing (MoreSamples.parse _ _)).
    unfold MoreSamples.parse. rewrite Hw.
    destruct (fst _) as [l|e] eqn:Er.
    + rewrite (Hl l eq_refl). reflexivity.
    + vm_compute in Er. discriminate.
  - destruct (Hmethod _ _ _ eq_refl eq_refl (surjective_pairing _)) as [_ Hs].
    unfold MoreSamples.get_summoner.
    destruct (fst _) as [[s|c]|e] eqn:Er.
    + pose proof (Hs s eq_refl) as Hb. vm_compute in Hb. injection Hb as <-. reflexivity.
    + vm_compute in Er. discriminate.
    + vm_compute in Er. discriminate.
  - apply Hleagues; reflexivity.
Defined.

(** With the season in the catalog of the object, the season and the
    league are parsed, and the games requested. *)
Example parsing_with_the_season_in_the_catalog :
  fst (@MoreSamples.get_summoner (Samples.collaborators Samples.no_candidates)
         (PDict MoreSamples.content_with_season)
         (mkWorld (mkOPGG (PStr "X") "na" None (Some [Samples.season 17])) Cacher.empty 0 []))
  = Ok (inl (MoreSamples.fields_of_abc, [(PInt 17, [])],
             [([("id", PNone); ("queue_translate", PNone); ("game_type", PNone)],
               [("tier", PNone); ("division", PNone); ("lp", PNone);
                ("tier_image_url", PNone); ("border_image_url", PNone);
                ("level", PNone)])],
             [], [PStr "game"])).
Proof. vm_compute. reflexivity. Qed.
